(** * The AICT trainer: loss aggregation, batch step, epoch loops, resume

    A shallow embedding of [iharm/engine/AICT_trainer.py] (class [Trainer])
    and the properties of its orchestration logic.

    Conventions of the embedding.
    - A Python [dict] is a [gmap string _]; iteration over [items()] is a
      [map_fold] (the results stated below do not depend on its order).
    - The tensor framework, the network, the optimizer, the scheduler and
      the glob of [pathlib] are opaque collaborators: the class [Framework]
      lists the operations the trainer calls on them.
    - A Python float and a zero-dimensional tensor are both a [scalar];
      [loss.item()] does not change the number.
    - A method is a computation in the monad [Py]: it reads and updates the
      [World] (the trainer object, the file system, the global gradient
      switch of the framework and the list of calls made on the
      collaborators) or raises. *)

From Stdlib Require Import Ascii String QArith Qround Qabs.
From stdpp Require Import gmap strings list fin_maps pretty.

(** ** Exceptions and results *)

Inductive exn : Type :=
  | KeyError (key : string)
  | IndexError
  | TypeError
  | AttributeError
  | ZeroDivisionError
  | UnboundLocalError
  | AssertionError
  | RuntimeError
  | FileError.

Inductive result (A : Type) : Type :=
  | Ok (a : A)
  | Raise (e : exn).
Arguments Ok {A} a.
Arguments Raise {A} e.

(** Whether a call returned, and what it returned ([d] when it raised). *)
Definition is_ok {A : Type} (r : result A) : bool :=
  match r with Ok _ => true | Raise _ => false end.

Definition returned {A : Type} (r : result A) (d : A) : A :=
  match r with Ok a => a | Raise _ => d end.

(** The exception of a call that raised. *)
Definition raised {A : Type} (r : result A) : option exn :=
  match r with Ok _ => None | Raise e => Some e end.

(** ** Values held by batch and model-output mappings *)

Inductive value (T : Type) : Type :=
  | VTensor (t : T)            (* a tensor *)
  | VList (l : list T)         (* a list of tensors *)
  | VOther (o : string).       (* anything else *)
Arguments VTensor {T} t.
Arguments VList {T} l.
Arguments VOther {T} o.

(** [torch.is_tensor(v)] *)
Definition is_tensor {T} (v : value T) : bool :=
  match v with VTensor _ => true | _ => false end.

(** A checkpoint bundle: a dict with the keys ['model'], ['optimizer'],
    ['lr_scheduler'] and ['epoch'], each of which may be missing. *)
Record bundle (M O S : Type) : Type := Bundle {
  b_model : option M;
  b_optimizer : option O;
  b_lr_scheduler : option S;
  b_epoch : option nat
}.
Arguments Bundle {M O S}.
Arguments b_model {M O S}.
Arguments b_optimizer {M O S}.
Arguments b_lr_scheduler {M O S}.
Arguments b_epoch {M O S}.

Inductive file (M O S : Type) : Type :=
  | FCheckpoint (b : bundle M O S)   (* written by torch.save *)
  | FImage.                          (* written by cv2.imwrite *)
Arguments FCheckpoint {M O S} b.
Arguments FImage {M O S}.

(** ** The collaborators *)

Class Framework : Type := {
  tensor : Type;
  scalar : Type;
  (* Python float arithmetic *)
  s_zero : scalar;                          (* 0.0 *)
  s_add : scalar → scalar → scalar;
  s_mul : scalar → scalar → scalar;
  s_ltb : scalar → scalar → bool;           (* x < y *)
  s_div_nat : scalar → nat → scalar;        (* x / n, for n other than 0 *)
  s_fmt3 : scalar → string;                 (* f'{x:.3f}' *)
  (* tensors *)
  t_to : tensor → tensor;                   (* v.to(self.device) *)
  t_cpu : tensor → tensor;                  (* v.cpu() *)
  t_mean : tensor → scalar;                 (* torch.mean(v) *)
  t_iter : tensor → result (list tensor);   (* iteration over a tensor *)
  (* the network *)
  net_state : Type;
  net_sd : Type;                            (* its state dict *)
  net_forward : net_state → bool → value tensor → value tensor →
                value tensor → value tensor →
                result (gmap string (value tensor));
  net_train : net_state → net_state;        (* self.net.train() *)
  net_eval : net_state → net_state;         (* self.net.eval() *)
  net_state_dict : net_state → net_sd;
  net_load_state_dict : net_state → net_sd → result net_state;
  (* the optimizer; gradients live with the parameters of the network *)
  optim_state : Type;
  optim_sd : Type;
  zero_grad : net_state → net_state;        (* self.optim.zero_grad() *)
  backward : scalar → net_state → result net_state;   (* loss.backward() *)
  optim_step : optim_state → net_state → optim_state * net_state;
  optim_lr : optim_state → scalar;          (* param_groups[0]["lr"] *)
  optim_state_dict : optim_state → optim_sd;
  optim_load_state_dict : optim_state → optim_sd → result optim_state;
  (* the learning-rate scheduler *)
  sched_state : Type;
  sched_sd : Type;
  sched_step : sched_state → optim_state → sched_state * optim_state;
  sched_last_lr : sched_state → scalar;     (* get_last_lr()[-1] *)
  sched_state_dict : sched_state → sched_sd;
  sched_load_state_dict : sched_state → sched_sd → result sched_state;
  (* iharm.utils.misc *)
  checkpoint_name : string → nat → string;
  load_weights : net_state → file net_sd optim_sd sched_sd → result net_state;
  (* pathlib: [list(dir.glob(pattern))], given the paths of the files on
     the disk; the wildcards of the pattern are those of the library *)
  path_glob : string → string → list string → list string
}.

(** ** Strings *)

(** [p in s] for Python strings *)
Fixpoint str_in (p s : string) : bool :=
  String.prefix p s ||
  match s with
  | EmptyString => false
  | String _ s' => str_in p s'
  end.

(** [f'{n:0{width}d}'] for a natural number *)
Definition fmt_0d (width n : nat) : string :=
  let s := pretty n in
  String.concat "" (replicate (width - String.length s) "0") +:+ s.

Definition is_lower (c : ascii) : bool :=
  let n := Ascii.nat_of_ascii c in (97 <=? n)%nat && (n <=? 122)%nat.
Definition is_upper (c : ascii) : bool :=
  let n := Ascii.nat_of_ascii c in (65 <=? n)%nat && (n <=? 90)%nat.
Definition to_upper (c : ascii) : ascii :=
  if is_lower c then Ascii.ascii_of_nat (Ascii.nat_of_ascii c - 32) else c.
Definition to_lower (c : ascii) : ascii :=
  if is_upper c then Ascii.ascii_of_nat (Ascii.nat_of_ascii c + 32) else c.
Fixpoint str_map (f : ascii → ascii) (s : string) : string :=
  match s with
  | EmptyString => EmptyString
  | String c s' => String (f c) (str_map f s')
  end.

(** [s.capitalize()] on ASCII strings *)
Definition capitalize (s : string) : string :=
  match s with
  | EmptyString => EmptyString
  | String c s' => String (to_upper c) (str_map to_lower s')
  end.

(** ** The trainer and its world *)

Section Model.
Context `{F : Framework}.

Abbreviation val := (value tensor).

(** A loss term: a callable with the names of the prediction fields and of
    the ground-truth fields it takes, and possibly a [log_states] method. *)
Record Criterion : Type := {
  c_pred_outputs : list string;
  c_gt_outputs : list string;
  c_call : list (option val) → result tensor;
  c_log_states : bool
}.

(** A value of the loss configuration: a weight under [name + '_weight'],
    a loss term under [name]. *)
Inductive cfg_entry : Type :=
  | CfgWeight (w : scalar)
  | CfgCriterion (c : Criterion).

(** A metric: its state is the list of the argument tuples that [update]
    received since the last [reset_epoch_stats]. *)
Record Metric : Type := {
  m_name : string;
  m_pred_outputs : list string;
  m_gt_outputs : list string;
  m_get_epoch_value : list (list val) → scalar;
  m_stats : list (list val)
}.

Definition reset_epoch_stats (m : Metric) : Metric :=
  {| m_name := m_name m; m_pred_outputs := m_pred_outputs m;
     m_gt_outputs := m_gt_outputs m;
     m_get_epoch_value := m_get_epoch_value m; m_stats := [] |}.

Definition metric_update (m : Metric) (args : list val) : Metric :=
  {| m_name := m_name m; m_pred_outputs := m_pred_outputs m;
     m_gt_outputs := m_gt_outputs m;
     m_get_epoch_value := m_get_epoch_value m;
     m_stats := m_stats m ++ [args] |}.

Definition get_epoch_value (m : Metric) : scalar :=
  m_get_epoch_value m (m_stats m).

(** The configuration object [cfg] *)
Record Cfg : Type := {
  multi_gpu : bool;
  start_epoch : nat;
  weights : option string;
  resume_exp : option string;
  resume_prefix : string;
  CHECKPOINTS_PATH : string;
  VIS_PATH : string
}.

Definition set_start_epoch (x : _) (c : Cfg) : Cfg :=
  {| multi_gpu := multi_gpu c; start_epoch := x; weights := weights c;
     resume_exp := resume_exp c; resume_prefix := resume_prefix c;
     CHECKPOINTS_PATH := CHECKPOINTS_PATH c; VIS_PATH := VIS_PATH c |}.

Definition set_weights (x : _) (c : Cfg) : Cfg :=
  {| multi_gpu := multi_gpu c; start_epoch := start_epoch c; weights := x;
     resume_exp := resume_exp c; resume_prefix := resume_prefix c;
     CHECKPOINTS_PATH := CHECKPOINTS_PATH c; VIS_PATH := VIS_PATH c |}.

(** The fields of a [Trainer] object. [sw] tells whether the summary writer
    exists; a data loader is the list of the batches it yields. *)
Record Trainer : Type := {
  cfg : Cfg;
  loss_cfg : gmap string cfg_entry;
  val_loss_cfg : gmap string cfg_entry;
  train_metrics : list Metric;
  val_metrics : list Metric;
  checkpoint_interval : nat;
  image_dump_interval : nat;
  task_prefix : string;
  sw : bool;
  train_data : list (gmap string val);
  val_data : list (gmap string val);
  net : net_state;
  local_rank : nat;
  optim : optim_state;
  lr : scalar;
  lr_scheduler : option sched_state;
  best_psnr : scalar;
  best_checkpoint_path : string
}.

Definition set_cfg (x : _) (t : Trainer) : Trainer :=
  {| cfg := x; loss_cfg := loss_cfg t; val_loss_cfg := val_loss_cfg t;
     train_metrics := train_metrics t; val_metrics := val_metrics t;
     checkpoint_interval := checkpoint_interval t;
     image_dump_interval := image_dump_interval t;
     task_prefix := task_prefix t; sw := sw t; train_data := train_data t;
     val_data := val_data t; net := net t; local_rank := local_rank t;
     optim := optim t; lr := lr t; lr_scheduler := lr_scheduler t;
     best_psnr := best_psnr t; best_checkpoint_path := best_checkpoint_path t
     |}.

Definition set_train_metrics (x : _) (t : Trainer) : Trainer :=
  {| cfg := cfg t; loss_cfg := loss_cfg t; val_loss_cfg := val_loss_cfg t;
     train_metrics := x; val_metrics := val_metrics t;
     checkpoint_interval := checkpoint_interval t;
     image_dump_interval := image_dump_interval t;
     task_prefix := task_prefix t; sw := sw t; train_data := train_data t;
     val_data := val_data t; net := net t; local_rank := local_rank t;
     optim := optim t; lr := lr t; lr_scheduler := lr_scheduler t;
     best_psnr := best_psnr t; best_checkpoint_path := best_checkpoint_path t
     |}.

Definition set_val_metrics (x : _) (t : Trainer) : Trainer :=
  {| cfg := cfg t; loss_cfg := loss_cfg t; val_loss_cfg := val_loss_cfg t;
     train_metrics := train_metrics t; val_metrics := x;
     checkpoint_interval := checkpoint_interval t;
     image_dump_interval := image_dump_interval t;
     task_prefix := task_prefix t; sw := sw t; train_data := train_data t;
     val_data := val_data t; net := net t; local_rank := local_rank t;
     optim := optim t; lr := lr t; lr_scheduler := lr_scheduler t;
     best_psnr := best_psnr t; best_checkpoint_path := best_checkpoint_path t
     |}.

Definition set_sw (x : _) (t : Trainer) : Trainer :=
  {| cfg := cfg t; loss_cfg := loss_cfg t; val_loss_cfg := val_loss_cfg t;
     train_metrics := train_metrics t; val_metrics := val_metrics t;
     checkpoint_interval := checkpoint_interval t;
     image_dump_interval := image_dump_interval t;
     task_prefix := task_prefix t; sw := x; train_data := train_data t;
     val_data := val_data t; net := net t; local_rank := local_rank t;
     optim := optim t; lr := lr t; lr_scheduler := lr_scheduler t;
     best_psnr := best_psnr t; best_checkpoint_path := best_checkpoint_path t
     |}.

Definition set_net (x : _) (t : Trainer) : Trainer :=
  {| cfg := cfg t; loss_cfg := loss_cfg t; val_loss_cfg := val_loss_cfg t;
     train_metrics := train_metrics t; val_metrics := val_metrics t;
     checkpoint_interval := checkpoint_interval t;
     image_dump_interval := image_dump_interval t;
     task_prefix := task_prefix t; sw := sw t; train_data := train_data t;
     val_data := val_data t; net := x; local_rank := local_rank t;
     optim := optim t; lr := lr t; lr_scheduler := lr_scheduler t;
     best_psnr := best_psnr t; best_checkpoint_path := best_checkpoint_path t
     |}.

Definition set_optim (x : _) (t : Trainer) : Trainer :=
  {| cfg := cfg t; loss_cfg := loss_cfg t; val_loss_cfg := val_loss_cfg t;
     train_metrics := train_metrics t; val_metrics := val_metrics t;
     checkpoint_interval := checkpoint_interval t;
     image_dump_interval := image_dump_interval t;
     task_prefix := task_prefix t; sw := sw t; train_data := train_data t;
     val_data := val_data t; net := net t; local_rank := local_rank t;
     optim := x; lr := lr t; lr_scheduler := lr_scheduler t;
     best_psnr := best_psnr t; best_checkpoint_path := best_checkpoint_path t
     |}.

Definition set_lr_scheduler (x : _) (t : Trainer) : Trainer :=
  {| cfg := cfg t; loss_cfg := loss_cfg t; val_loss_cfg := val_loss_cfg t;
     train_metrics := train_metrics t; val_metrics := val_metrics t;
     checkpoint_interval := checkpoint_interval t;
     image_dump_interval := image_dump_interval t;
     task_prefix := task_prefix t; sw := sw t; train_data := train_data t;
     val_data := val_data t; net := net t; local_rank := local_rank t;
     optim := optim t; lr := lr t; lr_scheduler := x;
     best_psnr := best_psnr t; best_checkpoint_path := best_checkpoint_path t
     |}.

Definition set_best_psnr (x : _) (t : Trainer) : Trainer :=
  {| cfg := cfg t; loss_cfg := loss_cfg t; val_loss_cfg := val_loss_cfg t;
     train_metrics := train_metrics t; val_metrics := val_metrics t;
     checkpoint_interval := checkpoint_interval t;
     image_dump_interval := image_dump_interval t;
     task_prefix := task_prefix t; sw := sw t; train_data := train_data t;
     val_data := val_data t; net := net t; local_rank := local_rank t;
     optim := optim t; lr := lr t; lr_scheduler := lr_scheduler t;
     best_psnr := x; best_checkpoint_path := best_checkpoint_path t |}.

Definition set_best_checkpoint_path (x : _) (t : Trainer) : Trainer :=
  {| cfg := cfg t; loss_cfg := loss_cfg t; val_loss_cfg := val_loss_cfg t;
     train_metrics := train_metrics t; val_metrics := val_metrics t;
     checkpoint_interval := checkpoint_interval t;
     image_dump_interval := image_dump_interval t;
     task_prefix := task_prefix t; sw := sw t; train_data := train_data t;
     val_data := val_data t; net := net t; local_rank := local_rank t;
     optim := optim t; lr := lr t; lr_scheduler := lr_scheduler t;
     best_psnr := best_psnr t; best_checkpoint_path := x |}.

(** Calls on the collaborators, in the order they are made. [grad] is the
    state of the gradient switch at the call. *)
Inductive event : Type :=
  | EvForward (grad : bool)                         (* self.net(...) *)
  | EvCriterion (grad : bool) (name : string)       (* loss_criterion(...) *)
  | EvMetricReset (name : string)
  | EvMetricUpdate (grad : bool) (name : string)
  | EvZeroGrad
  | EvBackward (loss : scalar)
  | EvOptimStep
  | EvSchedStep
  | EvAddScalar (tag : string) (v : scalar) (step : nat) (disable_avg : bool)
  | EvLogStates (tag : string) (step : nat)
  | EvInfoTrain (epoch : nat) (lr : scalar) (averages : list scalar)
  | EvInfoVal (epoch : nat) (loss : scalar)
  | EvInfoMetric (name : string) (v : scalar)
  | EvInfoLoad (path : string)
  | EvSetEpoch (epoch : nat)                        (* train_sampler *)
  | EvRemove (path : string)                        (* os.remove *)
  | EvSaveCheckpoint (path : string)
  | EvImwrite (path : string).

Record World : Type := {
  trainer : Trainer;
  fs : gmap string (file net_sd optim_sd sched_sd);
  grad_mode : bool;
  trace : list event
}.

Definition set_trainer (x : _) (w : World) : World :=
  {| trainer := x; fs := fs w; grad_mode := grad_mode w; trace := trace w |}.

Definition set_fs (x : _) (w : World) : World :=
  {| trainer := trainer w; fs := x; grad_mode := grad_mode w; trace := trace w
     |}.

Definition set_grad_mode (x : _) (w : World) : World :=
  {| trainer := trainer w; fs := fs w; grad_mode := x; trace := trace w |}.

Definition set_trace (x : _) (w : World) : World :=
  {| trainer := trainer w; fs := fs w; grad_mode := grad_mode w; trace := x
     |}.

(** ** The monad of methods *)

Definition Py (A : Type) : Type := World → result (A * World).

#[export] Instance result_ret : MRet result := λ A a, Ok a.
#[export] Instance result_bind : MBind result := λ A B f r,
  match r with Ok a => f a | Raise e => Raise e end.

#[export] Instance Py_ret : MRet Py := λ A a w, Ok (a, w).
#[export] Instance Py_bind : MBind Py := λ A B f m w,
  match m w with Ok (a, w') => f a w' | Raise e => Raise e end.

Definition raise {A} (e : exn) : Py A := λ _, Raise e.
Definition lift {A} (r : result A) : Py A := λ w,
  match r with Ok a => Ok (a, w) | Raise e => Raise e end.
Definition self : Py Trainer := λ w, Ok (trainer w, w).
Definition update_self (f : Trainer → Trainer) : Py unit :=
  λ w, Ok ((), set_trainer (f (trainer w)) w).
Definition emit (e : event) : Py unit :=
  λ w, Ok ((), set_trace (trace w ++ [e]) w).
Definition grad_enabled : Py bool := λ w, Ok (grad_mode w, w).

(** [with torch.set_grad_enabled(mode): body] *)
Definition with_grad_enabled {A} (mode : bool) (body : Py A) : Py A := λ w,
  match body (set_grad_mode mode w) with
  | Ok (a, w') => Ok (a, set_grad_mode (grad_mode w) w')
  | Raise e => Raise e
  end.

Fixpoint for_each {A} (l : list A) (body : A → Py unit) : Py unit :=
  match l with
  | [] => mret ()
  | x :: l' => body x;; for_each l' body
  end.

(** [d[key]] *)
Definition getitem {A} (d : gmap string A) (key : string) : result A :=
  match d !! key with
  | Some v => Ok v
  | None => Raise (KeyError key)
  end.

(** ** [Trainer.add_loss] *)

(** [losses_logging[name].append(v)] on a [defaultdict(list)] *)
Definition log_append (name : string) (v : scalar)
    (losses_logging : gmap string (list scalar)) : gmap string (list scalar) :=
  <[name := default [] (losses_logging !! name) ++ [v]]> losses_logging.

Definition add_loss (loss_name : string) (total_loss : scalar)
    (losses_logging : gmap string (list scalar)) (validation : bool)
    (net_outputs batch_data : gmap string val)
  : Py (scalar * gmap string (list scalar)) :=
  t ← self;
  let loss_cfg := if negb validation then loss_cfg t else val_loss_cfg t in
  match loss_cfg !! loss_name with
  | None => mret (total_loss, losses_logging)
  | Some entry =>
      match default (CfgWeight s_zero) (loss_cfg !! (loss_name +:+ "_weight")) with
      | CfgCriterion _ => raise TypeError              (* loss_weight > 0.0 *)
      | CfgWeight loss_weight =>
          if s_ltb s_zero loss_weight then
            match entry with
            | CfgWeight _ => raise AttributeError      (* .pred_outputs *)
            | CfgCriterion loss_criterion =>
                let preds := (λ x, net_outputs !! x) <$> c_pred_outputs loss_criterion in
                gts ← lift (mapM (getitem batch_data) (c_gt_outputs loss_criterion));
                g ← grad_enabled;
                emit (EvCriterion g loss_name);;
                loss ← lift (c_call loss_criterion (preds ++ (Some <$> gts)));
                let loss := t_mean loss in
                let losses_logging := log_append loss_name loss losses_logging in
                let loss := s_mul loss_weight loss in
                mret (s_add total_loss loss, losses_logging)
            end
          else mret (total_loss, losses_logging)
      end
  end.

(** ** [Trainer.batch_forward] *)

(** [v.to(self.device) if torch.is_tensor(v) else v] *)
Definition to_device (v : val) : val :=
  match v with
  | VTensor t => VTensor (t_to t)
  | _ => v
  end.

(** The loop that copies the fields of [output] whose name does not contain
    ['image'] into [batch_data]. *)
Definition merge_outputs (output batch_data : gmap string val) : gmap string val :=
  map_fold (λ ky value batch_data,
              if negb (str_in "image" ky) then <[ky := value]> batch_data
              else batch_data)
           batch_data output.

(** [x.cpu()] for a field that may be missing ([output.get(x)]) *)
Definition cpu_of (x : option val) : result val :=
  match x with
  | Some (VTensor t) => Ok (VTensor (t_cpu t))
  | _ => Raise AttributeError
  end.

(** [[tens.cpu() for tens in x]] *)
Definition cpu_each (x : option val) : result val :=
  match x with
  | Some (VList l) => Ok (VList (t_cpu <$> l))
  | Some (VTensor t) => l ← t_iter t; Ok (VList (t_cpu <$> l))
  | _ => Raise TypeError
  end.

(** The arguments of [metric.update] for one metric *)
Definition metric_args (output batch_data : gmap string val) (metric : Metric)
  : result (list val) :=
  match m_gt_outputs metric with
  | [] => Raise IndexError
  | g0 :: _ =>
      v0 ← getitem batch_data g0;
      if is_tensor v0 then
        preds ← mapM (λ x, cpu_of (output !! x)) (m_pred_outputs metric);
        gts ← mapM (λ x, v ← getitem batch_data x; cpu_of (Some v)) (m_gt_outputs metric);
        Ok (preds ++ gts)
      else
        preds ← mapM (λ x, cpu_each (output !! x)) (m_pred_outputs metric);
        gts ← mapM (λ x, v ← getitem batch_data x; cpu_each (Some v)) (m_gt_outputs metric);
        Ok (preds ++ gts)
  end.

Fixpoint update_metrics (output batch_data : gmap string val)
    (metrics : list Metric) : Py (list Metric) :=
  match metrics with
  | [] => mret []
  | metric :: rest =>
      args ← lift (metric_args output batch_data metric);
      g ← grad_enabled;
      emit (EvMetricUpdate g (m_name metric));;
      rest' ← update_metrics output batch_data rest;
      mret (metric_update metric args :: rest')
  end.

Definition batch_forward (batch_data : gmap string val) (validation : bool)
  : Py (scalar * gmap string (list scalar) * gmap string val * gmap string val) :=
  t ← self;
  let metrics := if validation then val_metrics t else train_metrics t in
  let losses_logging : gmap string (list scalar) := ∅ in
  with_grad_enabled (negb validation) (
    let batch_data := to_device <$> batch_data in
    images ← lift (getitem batch_data "images");
    images_fullres ← lift (getitem batch_data "images_fullres");
    masks ← lift (getitem batch_data "masks");
    masks_fullres ← lift (getitem batch_data "masks_fullres");
    g ← grad_enabled;
    emit (EvForward g);;
    output ← lift (net_forward (net t) g images images_fullres masks masks_fullres);
    let batch_data := merge_outputs output batch_data in
    let loss := s_zero in
    '(loss, losses_logging) ← add_loss "pixel_loss" loss losses_logging validation output batch_data;
    '(loss, losses_logging) ← add_loss "low_loss" loss losses_logging validation output batch_data;
    '(loss, losses_logging) ←
      (if negb validation
       then add_loss "contrastive_loss" loss losses_logging validation output batch_data
       else mret (loss, losses_logging));
    '(loss, losses_logging) ← add_loss "color_dis_loss" loss losses_logging validation output batch_data;
    '(loss, losses_logging) ← add_loss "coord_dis_loss" loss losses_logging validation output batch_data;
    '(loss, losses_logging) ← add_loss "sparse_loss" loss losses_logging validation output batch_data;
    metrics' ← with_grad_enabled false (update_metrics output batch_data metrics);
    update_self (if validation then set_val_metrics metrics' else set_train_metrics metrics');;
    mret (loss, losses_logging, batch_data, output)).

(** ** Files, checkpoints and visualizations *)

Definition write_file (path : string) (f : file net_sd optim_sd sched_sd) : Py unit :=
  λ w, Ok ((), set_fs (<[path := f]> (fs w)) w).

(** [os.path.exists(path)] *)
Definition path_exists (path : string) : Py bool :=
  λ w, Ok (bool_decide (is_Some (fs w !! path)), w).

(** [os.remove(path)] *)
Definition os_remove (path : string) : Py unit := λ w,
  match fs w !! path with
  | Some _ => Ok ((), set_trace (trace w ++ [EvRemove path]) (set_fs (delete path (fs w)) w))
  | None => Raise FileError
  end.

(** Modelled from the spec: [iharm.utils.misc.save_checkpoint] is not among
    the sources. It serializes the model parameters, the optimizer state,
    the scheduler state and the epoch index to a file named by a prefix and
    the epoch, and returns the resulting path. The file name is
    [checkpoint_name prefix epoch]. *)
Definition save_checkpoint (net : net_state) (optim : optim_state)
    (lr_scheduler : option sched_state) (checkpoints_path prefix : string)
    (epoch : nat) : Py string :=
  let path := checkpoints_path +:+ "/" +:+ checkpoint_name prefix epoch in
  let checkpoint :=
    {| b_model := Some (net_state_dict net);
       b_optimizer := Some (optim_state_dict optim);
       b_lr_scheduler := sched_state_dict <$> lr_scheduler;
       b_epoch := Some epoch |} in
  emit (EvSaveCheckpoint path);;
  write_file path (FCheckpoint checkpoint);;
  mret path.

(** [Trainer.save_visualization]: the lookups it makes and the files it
    writes; the pixels of the panels are not modelled. *)
Definition save_visualization (splitted_batch_data outputs : gmap string val)
    (global_step : nat) (prefix : string) : Py unit :=
  t ← self;
  let output_images_path := VIS_PATH (cfg t) +:+ "/" +:+ prefix in
  let output_images_path :=
    if bool_decide (task_prefix t = "") then output_images_path
    else output_images_path +:+ "/" +:+ task_prefix t in
  let image_name_prefix := fmt_0d 6 global_step in
  let _save_image (suffix : string) : Py unit :=
    let path := output_images_path +:+ "/" +:+ image_name_prefix +:+ "_" +:+ suffix +:+ ".jpg" in
    emit (EvImwrite path);; write_file path FImage in
  (* low resolution images *)
  lift (getitem splitted_batch_data "images");;
  lift (getitem splitted_batch_data "target_images");;
  lift (getitem splitted_batch_data "masks");;
  lift (getitem outputs "params");;
  lift (getitem outputs "images");;
  _save_image "reconstruction";;
  (* high resolution images *)
  (if bool_decide (is_Some (splitted_batch_data !! "target_images_fullres")) then
     lift (getitem splitted_batch_data "images_fullres");;
     lift (getitem splitted_batch_data "target_images_fullres");;
     lift (getitem splitted_batch_data "masks_fullres");;
     lift (getitem outputs "images_fullres");;
     _save_image "reconstruction_fr"
   else mret ());;
  _save_image "params".

(** ** [Trainer.training] *)

(** [sw.add_scalar(tag, value, global_step, disable_avg)] *)
Definition add_scalar (tag : string) (v : scalar) (step : nat) (disable_avg : bool)
  : Py unit :=
  emit (EvAddScalar tag v step disable_avg).

(** [np.array(loss_values).mean()] *)
Definition np_mean (loss_values : list scalar) : scalar :=
  s_div_nat (foldl s_add s_zero loss_values) (length loss_values).

(** [x / n] for an integer [n] *)
Definition divide (x : scalar) (n : nat) : result scalar :=
  match n with
  | O => Raise ZeroDivisionError
  | S _ => Ok (s_div_nat x n)
  end.

(** [loss_values[-1]] *)
Definition last_value (loss_values : list scalar) : result scalar :=
  match last loss_values with
  | Some v => Ok v
  | None => Raise IndexError
  end.

(** [loss_cfg.get(key, 0.0) > 0] *)
Definition weight_positive (loss_cfg : gmap string cfg_entry) (key : string)
  : result bool :=
  match default (CfgWeight s_zero) (loss_cfg !! key) with
  | CfgWeight w => Ok (s_ltb s_zero w)
  | CfgCriterion _ => Raise TypeError
  end.

(** [if self.loss_cfg.get(name + '_weight', 0.0) > 0:
       acc += losses_logging.get(name)[-1]] *)
Definition accumulate (loss_cfg : gmap string cfg_entry)
    (losses_logging : gmap string (list scalar)) (name : string) (acc : scalar)
  : result scalar :=
  enabled ← weight_positive loss_cfg (name +:+ "_weight");
  if enabled : bool then
    match losses_logging !! name with
    | None => Raise TypeError                (* None[-1] *)
    | Some loss_values => v ← last_value loss_values; Ok (s_add acc v)
    end
  else Ok acc.

(** The local variables of [training] that the loop updates. The last three
    are bound by the loop body and read after the loop. *)
Record train_locals : Type := {
  train_loss : scalar;
  fullres_loss : scalar;
  lowres_loss : scalar;
  contrastive_loss : scalar;
  color_dis_loss : scalar;
  coord_dis_loss : scalar;
  sparse_loss : scalar;
  last_global_step : option nat;
  last_batch_loss : option scalar;
  last_losses_logging : option (gmap string (list scalar))
}.

(** [loss.item()], [loss.backward()]: the loss is a tensor once a term was
    added to it; with no term it is still the Python float [0.0], which has
    neither method. *)
Definition as_tensor (loss : scalar) (losses_logging : gmap string (list scalar))
  : result scalar :=
  if bool_decide (losses_logging = ∅) then Raise AttributeError else Ok loss.

(** The lazy creation of the summary writer *)
Definition init_sw : Py unit :=
  t ← self;
  if negb (sw t) && bool_decide (local_rank t = 0)
  then update_self (set_sw true) else mret ().

(** One iteration of the loop of [training] *)
Definition training_batch (epoch : nat) (log_prefix : string) (i : nat)
    (batch_data : gmap string val) (st : train_locals) : Py train_locals :=
  t ← self;
  let global_step := epoch * length (train_data t) + i in
  '(loss, losses_logging, splitted_batch_data, outputs) ← batch_forward batch_data false;
  (* self.optim.zero_grad() *)
  t ← self;
  emit EvZeroGrad;;
  update_self (set_net (zero_grad (net t)));;
  (* loss.backward() *)
  t ← self;
  lift (as_tensor loss losses_logging);;
  emit (EvBackward loss);;
  net' ← lift (backward loss (net t));
  update_self (set_net net');;
  (* self.optim.step() *)
  t ← self;
  emit EvOptimStep;;
  update_self (λ t, set_net (optim_step (optim t) (net t)).2
                      (set_optim (optim_step (optim t) (net t)).1 t));;
  let batch_loss := loss in
  let train_loss := s_add (train_loss st) batch_loss in
  fullres_loss ← lift (accumulate (loss_cfg t) losses_logging "pixel_loss" (fullres_loss st));
  lowres_loss ← lift (accumulate (loss_cfg t) losses_logging "low_loss" (lowres_loss st));
  contrastive_loss ← lift (accumulate (loss_cfg t) losses_logging "contrastive_loss" (contrastive_loss st));
  color_dis_loss ← lift (accumulate (loss_cfg t) losses_logging "color_dis_loss" (color_dis_loss st));
  coord_dis_loss ← lift (accumulate (loss_cfg t) losses_logging "coord_dis_loss" (coord_dis_loss st));
  sparse_loss ← lift (accumulate (loss_cfg t) losses_logging "sparse_loss" (sparse_loss st));
  (if bool_decide (local_rank t = 0) then
     for_each (map_to_list losses_logging) (λ '(loss_name, loss_values),
       v ← lift (last_value loss_values);
       add_scalar (log_prefix +:+ "Losses/" +:+ loss_name) v global_step false);;
     add_scalar (log_prefix +:+ "Losses/overall") batch_loss global_step false;;
     if (0 <? image_dump_interval t) && (global_step mod image_dump_interval t =? 0)
     then with_grad_enabled false
            (save_visualization splitted_batch_data outputs global_step "train")
     else mret ()
   else mret ());;
  mret {| train_loss := train_loss; fullres_loss := fullres_loss;
          lowres_loss := lowres_loss; contrastive_loss := contrastive_loss;
          color_dis_loss := color_dis_loss; coord_dis_loss := coord_dis_loss;
          sparse_loss := sparse_loss;
          last_global_step := Some global_step;
          last_batch_loss := Some batch_loss;
          last_losses_logging := Some losses_logging |}.

(** [for i, batch_data in enumerate(tbar): ...], from index [i] on *)
Fixpoint training_loop (epoch : nat) (log_prefix : string) (i : nat)
    (batches : list (gmap string val)) (st : train_locals) : Py train_locals :=
  match batches with
  | [] => mret st
  | batch_data :: rest =>
      st' ← training_batch epoch log_prefix i batch_data st;
      training_loop epoch log_prefix (S i) rest st'
  end.

(** A local variable that only the loop body binds *)
Definition bound {A} (x : option A) : result A :=
  match x with
  | Some a => Ok a
  | None => Raise UnboundLocalError
  end.

(** The body of [for k, v in self.loss_cfg.items()] after the loop *)
Definition log_states_of (loss_cfg : gmap string cfg_entry) (log_prefix : string)
    (global_step : nat) (kv : string * cfg_entry) : Py unit :=
  match kv.2 with
  | CfgCriterion c =>
      if str_in "_loss" kv.1 && c_log_states c then
        enabled ← lift (weight_positive loss_cfg (kv.1 +:+ "_weight"));
        if enabled : bool
        then emit (EvLogStates (log_prefix +:+ "Losses/" +:+ kv.1) global_step)
        else mret ()
      else mret ()
  | CfgWeight _ => mret ()
  end.

Definition training (epoch : nat) : Py unit :=
  init_sw;;
  t ← self;
  (if multi_gpu (cfg t) then emit (EvSetEpoch epoch) else mret ());;
  let log_prefix := "Train" +:+ capitalize (task_prefix t) in
  let st := {| train_loss := s_zero; fullres_loss := s_zero;
               lowres_loss := s_zero; contrastive_loss := s_zero;
               color_dis_loss := s_zero; coord_dis_loss := s_zero;
               sparse_loss := s_zero; last_global_step := None;
               last_batch_loss := None; last_losses_logging := None |} in
  for_each (train_metrics t) (λ metric, emit (EvMetricReset (m_name metric)));;
  update_self (λ t, set_train_metrics (reset_epoch_stats <$> train_metrics t) t);;
  update_self (λ t, set_net (net_train (net t)) t);;
  st ← training_loop epoch log_prefix 0 (train_data t) st;
  t ← self;
  (if bool_decide (local_rank t = 0) then
     let n := length (train_data t) in
     a1 ← lift (divide (fullres_loss st) n);
     a2 ← lift (divide (lowres_loss st) n);
     a3 ← lift (divide (sparse_loss st) n);
     a4 ← lift (divide (contrastive_loss st) n);
     a5 ← lift (divide (color_dis_loss st) n);
     a6 ← lift (divide (coord_dis_loss st) n);
     emit (EvInfoTrain epoch (optim_lr (optim t)) [a1; a2; a3; a4; a5; a6]);;
     losses_logging ← lift (bound (last_losses_logging st));
     global_step ← lift (bound (last_global_step st));
     for_each (map_to_list losses_logging) (λ '(loss_name, loss_values),
       add_scalar (log_prefix +:+ "Losses/" +:+ loss_name) (np_mean loss_values)
                  global_step false);;
     batch_loss ← lift (bound (last_batch_loss st));
     add_scalar (log_prefix +:+ "Losses/overall") batch_loss global_step false;;
     for_each (map_to_list (loss_cfg t)) (log_states_of (loss_cfg t) log_prefix global_step);;
     add_scalar (log_prefix +:+ "States/learning_rate")
                (match lr_scheduler t with
                 | None => lr t
                 | Some s => sched_last_lr s
                 end) global_step false;;
     for_each (train_metrics t) (λ metric,
       add_scalar (log_prefix +:+ "Metrics/epoch_" +:+ m_name metric)
                  (get_epoch_value metric) epoch true);;
     save_checkpoint (net t) (optim t) (lr_scheduler t) (CHECKPOINTS_PATH (cfg t))
                     (task_prefix t) epoch;;
     match checkpoint_interval t with
     | O => raise ZeroDivisionError            (* epoch % 0 *)
     | S _ =>
         if epoch mod checkpoint_interval t =? 0 then
           save_checkpoint (net t) (optim t) (lr_scheduler t)
                           (CHECKPOINTS_PATH (cfg t)) (fmt_0d 3 epoch) epoch;;
           mret ()
         else mret ()
     end
   else mret ());;
  match lr_scheduler t with
  | Some s =>
      emit EvSchedStep;;
      update_self (λ t, set_optim (sched_step s (optim t)).2
                          (set_lr_scheduler (Some (sched_step s (optim t)).1) t))
  | None => mret ()
  end.

(** ** [Trainer.validation] *)

(** [for loss_name, loss_values in batch_losses_logging.items():
       losses_logging[loss_name].extend(loss_values)] *)
Definition extend_logs (batch_losses_logging losses_logging : gmap string (list scalar))
  : gmap string (list scalar) :=
  map_fold (λ loss_name loss_values losses_logging,
              <[loss_name := default [] (losses_logging !! loss_name) ++ loss_values]>
                losses_logging)
           losses_logging batch_losses_logging.

Record val_locals : Type := {
  num_batches : nat;
  val_loss : scalar;
  val_losses_logging : gmap string (list scalar)
}.

(** One iteration of the loop of [validation] *)
Definition validation_batch (batch_data : gmap string val) (st : val_locals)
  : Py val_locals :=
  '(loss, batch_losses_logging, _, _) ← batch_forward batch_data true;
  let losses_logging := extend_logs batch_losses_logging (val_losses_logging st) in
  batch_loss ← lift (as_tensor loss batch_losses_logging);
  mret {| num_batches := num_batches st + 1;
          val_loss := s_add (val_loss st) batch_loss;
          val_losses_logging := losses_logging |}.

Fixpoint validation_loop (batches : list (gmap string val)) (st : val_locals)
  : Py val_locals :=
  match batches with
  | [] => mret st
  | batch_data :: rest =>
      st' ← validation_batch batch_data st;
      validation_loop rest st'
  end.

(** The selection of the best checkpoint, at the end of [validation] *)
Definition select_best (epoch : nat) : Py unit :=
  t ← self;
  match val_metrics t with
  | [] => raise IndexError                       (* self.val_metrics[0] *)
  | metric0 :: _ =>
      let psnr := get_epoch_value metric0 in
      if s_ltb (best_psnr t) psnr then
        update_self (set_best_psnr psnr);;
        t ← self;
        found ← path_exists (best_checkpoint_path t);
        (if found : bool then os_remove (best_checkpoint_path t) else mret ());;
        path ← save_checkpoint (net t) (optim t) (lr_scheduler t)
                 (CHECKPOINTS_PATH (cfg t))
                 (fmt_0d 3 epoch +:+ "_" +:+ s_fmt3 (best_psnr t)) epoch;
        update_self (set_best_checkpoint_path path)
      else mret ()
  end.

Definition validation (epoch : nat) : Py unit :=
  init_sw;;
  t ← self;
  let log_prefix := "Val" +:+ capitalize (task_prefix t) in
  for_each (val_metrics t) (λ metric, emit (EvMetricReset (m_name metric)));;
  update_self (λ t, set_val_metrics (reset_epoch_stats <$> val_metrics t) t);;
  let st := {| num_batches := 0; val_loss := s_zero; val_losses_logging := ∅ |} in
  update_self (λ t, set_net (net_eval (net t)) t);;
  st ← validation_loop (val_data t) st;
  t ← self;
  if bool_decide (local_rank t = 0) then
    mean_loss ← lift (divide (val_loss st) (num_batches st));
    emit (EvInfoVal epoch mean_loss);;
    for_each (map_to_list (val_losses_logging st)) (λ '(loss_name, loss_values),
      add_scalar (log_prefix +:+ "Losses/" +:+ loss_name) (np_mean loss_values)
                 epoch true);;
    for_each (val_metrics t) (λ metric,
      add_scalar (log_prefix +:+ "Metrics/epoch_" +:+ m_name metric)
                 (get_epoch_value metric) epoch true;;
      emit (EvInfoMetric (m_name metric) (get_epoch_value metric)));;
    add_scalar (log_prefix +:+ "Losses/overall") mean_loss epoch true;;
    select_best epoch
  else mret ().

(** ** [Trainer._load_weights] *)

(** [list(self.cfg.CHECKPOINTS_PATH.glob(f'{self.cfg.resume_prefix}*.pth'))] *)
Definition glob_checkpoints (c : Cfg) : Py (list string) := λ w,
  Ok (path_glob (CHECKPOINTS_PATH c) (resume_prefix c +:+ "*.pth")
                (map_to_list (fs w)).*1, w).

(** [torch.load(path)] *)
Definition torch_load (path : string) : Py (bundle net_sd optim_sd sched_sd) := λ w,
  match fs w !! path with
  | Some (FCheckpoint b) => Ok (b, w)
  | _ => Raise FileError
  end.

(** The file at [path], if [os.path.isfile(path)] *)
Definition read_file (path : string) : Py (option (file net_sd optim_sd sched_sd)) :=
  λ w, Ok (fs w !! path, w).

(** [if self.cfg.weights is not None: ...] *)
Definition load_explicit_weights : Py unit :=
  t ← self;
  match weights (cfg t) with
  | Some path =>
      found ← read_file path;
      match found with
      | Some f =>
          net' ← lift (load_weights (net t) f);
          update_self (set_net net');;
          update_self (λ t, set_cfg (set_weights None (cfg t)) t)
      | None => raise RuntimeError
      end
  | None => mret ()
  end.

(** [logger.info(...)], [checkpoint = torch.load(checkpoint_path)] and
    [self.net.load_state_dict(checkpoint['model'])] *)
Definition load_checkpoint (checkpoint_path : string)
  : Py (bundle net_sd optim_sd sched_sd) :=
  emit (EvInfoLoad checkpoint_path);;
  checkpoint ← torch_load checkpoint_path;
  t ← self;
  model ← lift (match b_model checkpoint with
                | Some m => Ok m
                | None => Raise (KeyError "model")
                end);
  net' ← lift (net_load_state_dict (net t) model);
  update_self (set_net net');;
  mret checkpoint.

(** [self.optim.load_state_dict(checkpoint['optimizer'])] *)
Definition restore_optimizer (o : optim_sd) : Py unit :=
  t ← self;
  optim' ← lift (optim_load_state_dict (optim t) o);
  update_self (set_optim optim').

(** [self.lr_scheduler.load_state_dict(checkpoint['lr_scheduler'])] *)
Definition restore_scheduler (s : sched_sd) : Py unit :=
  t ← self;
  match lr_scheduler t with
  | None => raise AttributeError              (* None.load_state_dict *)
  | Some sched =>
      sched' ← lift (sched_load_state_dict sched s);
      update_self (set_lr_scheduler (Some sched'))
  end.

(** [self.cfg.start_epoch = checkpoint['epoch'] + 1] *)
Definition restore_epoch (e : nat) : Py unit :=
  update_self (λ t, set_cfg (set_start_epoch (e + 1) (cfg t)) t).

(** [if self.cfg.resume_exp is not None: ...] *)
Definition resume_experiment : Py unit :=
  t ← self;
  match resume_exp (cfg t) with
  | Some _ =>
      checkpoints ← glob_checkpoints (cfg t);
      match checkpoints with
      | [checkpoint_path] =>
          checkpoint ← load_checkpoint checkpoint_path;
          match b_optimizer checkpoint, b_lr_scheduler checkpoint, b_epoch checkpoint with
          | Some o, Some s, Some e =>
              restore_optimizer o;;
              restore_scheduler s;;
              restore_epoch e;;
              emit (EvInfoLoad checkpoint_path)
          | _, _, _ => mret ()
          end
      | _ => raise AssertionError                   (* len(checkpoints) == 1 *)
      end
  | None => mret ()
  end.

Definition _load_weights : Py unit :=
  load_explicit_weights;;
  resume_experiment.

(** ** [Trainer.__init__] *)

(** The arguments of the constructor. [a_optim] is the optimizer that
    [get_optimizer] builds, [a_lr] is [optimizer_params['lr']], [a_rank] is
    the rank of the process in its group, and the two loaders are given by
    the batches they yield. *)
Record InitArgs : Type := {
  a_model : net_state;
  a_cfg : Cfg;
  a_loss_cfg : gmap string cfg_entry;
  a_train_data : list (gmap string val);
  a_val_data : list (gmap string val);
  a_optim : optim_state;
  a_lr : scalar;
  a_image_dump_interval : nat;
  a_checkpoint_interval : nat;
  a_lr_scheduler : option (optim_state → sched_state);
  a_metrics : option (list Metric);
  a_additional_val_metrics : option (list Metric);
  a_rank : nat
}.

(** [for _ in range(n): self.lr_scheduler.step()] *)
Fixpoint sched_steps (n : nat) (s : sched_state) (o : optim_state)
  : sched_state * optim_state :=
  match n with
  | O => (s, o)
  | S n' => let so := sched_step s o in sched_steps n' so.1 so.2
  end.

Definition init (a : InitArgs)
    (files : gmap string (file net_sd optim_sd sched_sd)) : result World :=
  let metrics := default [] (a_metrics a) in
  let val_metrics := metrics ++ default [] (a_additional_val_metrics a) in
  let so :=
    match a_lr_scheduler a with
    | Some make =>
        let so := sched_steps (start_epoch (a_cfg a)) (make (a_optim a)) (a_optim a) in
        (Some so.1, so.2)
    | None => (None, a_optim a)
    end in
  let t :=
    {| cfg := a_cfg a; loss_cfg := a_loss_cfg a; val_loss_cfg := a_loss_cfg a;
       train_metrics := []; val_metrics := val_metrics;
       checkpoint_interval := a_checkpoint_interval a;
       image_dump_interval := a_image_dump_interval a;
       task_prefix := ""; sw := false;
       train_data := a_train_data a; val_data := a_val_data a;
       net := a_model a;
       local_rank := if multi_gpu (a_cfg a) then a_rank a else 0;
       optim := so.2; lr := a_lr a; lr_scheduler := so.1;
       best_psnr := s_zero; best_checkpoint_path := "" |} in
  match _load_weights {| trainer := t; fs := files; grad_mode := true; trace := [] |} with
  | Ok (_, w) => Ok w
  | Raise e => Raise e
  end.

End Model.

(** ** A concrete framework

    Numbers are rationals kept in lowest terms, a tensor is the list of its
    entries, the network returns its input images together with a
    one-entry parameter map holding its state, and an optimizer step
    lowers that state by five. *)

Module Toy.

Definition q_add (x y : Q) : Q := Qred (x + y).
Definition q_mul (x y : Q) : Q := Qred (x * y).
Definition q_ltb (x y : Q) : bool := negb (Qle_bool y x).
Definition q_div_nat (x : Q) (n : nat) : Q := Qred (x / inject_Z (Z.of_nat n)).

(** Three decimals of a rational that is not negative, rounded half up *)
Definition q_fmt3 (x : Q) : string :=
  let m := Z.to_nat (Qfloor (x * 1000 + (1 # 2))) in
  pretty (m / 1000)%nat +:+ "." +:+ fmt_0d 3 (m mod 1000)%nat.

Definition q_sum (l : list Q) : Q := foldl q_add 0%Q l.
Definition q_mean (l : list Q) : Q := q_div_nat (q_sum l) (length l).

Definition q_forward (n : Q) (grad : bool) (images images_fullres masks masks_fullres : value (list Q))
  : result (gmap string (value (list Q))) :=
  match images with
  | VTensor _ => Ok (<["images" := images]> {["params" := VTensor [n]]})
  | _ => Raise TypeError
  end.

Definition q_load_weights (n : Q) (f : file Q Q nat) : result Q :=
  match f with
  | FCheckpoint b =>
      match b_model b with
      | Some m => Ok m
      | None => Raise (KeyError "model")
      end
  | FImage => Raise FileError
  end.

Definition q_checkpoint_name (pre : string) (epoch : nat) : string :=
  if bool_decide (pre = "") then fmt_0d 3 epoch +:+ ".pth"
  else pre +:+ "_" +:+ fmt_0d 3 epoch +:+ ".pth".

(** The wildcards of a glob pattern: [*] and [?], which match within a
    path segment, a class [[...]] or [[!...]] of characters and ranges, and
    the other characters, which match themselves. The recursive wildcard
    [**] is not told apart from [*]. *)
Inductive glob_token : Type :=
  | GStar
  | GAny
  | GClass (negated : bool) (members : list ascii)
  | GLit (c : ascii).

(** The members of a class, read after its opening bracket and negation
    mark up to its closing bracket, and the rest of the pattern. The first
    member may be a closing bracket. *)
Fixpoint class_body (s : list ascii) (first : bool) (acc : list ascii)
  : option (list ascii * list ascii) :=
  match s with
  | [] => None
  | c :: s' =>
      if negb first && Ascii.eqb c "]" then Some (reverse acc, s')
      else class_body s' false (c :: acc)
  end.

Fixpoint glob_tokens (fuel : nat) (s : list ascii) : list glob_token :=
  match fuel, s with
  | S fuel, c :: s' =>
      if Ascii.eqb c "*" then GStar :: glob_tokens fuel s'
      else if Ascii.eqb c "?" then GAny :: glob_tokens fuel s'
      else if Ascii.eqb c "[" then
        let '(negated, body) :=
          match s' with
          | "!"%char :: s'' => (true, s'')
          | _ => (false, s')
          end in
        match class_body body true [] with
        | Some (members, rest) => GClass negated members :: glob_tokens fuel rest
        | None => GLit c :: glob_tokens fuel s'
        end
      else GLit c :: glob_tokens fuel s'
  | _, _ => []
  end.

Definition char_le (a b : ascii) : bool :=
  (Ascii.nat_of_ascii a <=? Ascii.nat_of_ascii b)%nat.

Fixpoint class_mem (c : ascii) (members : list ascii) : bool :=
  match members with
  | [] => false
  | a :: rest =>
      match rest with
      | "-"%char :: b :: rest' => (char_le a c && char_le c b) || class_mem c rest'
      | _ => Ascii.eqb a c || class_mem c rest
      end
  end.

Definition in_segment (c : ascii) : bool := negb (Ascii.eqb c "/").

Fixpoint glob_matches (ts : list glob_token) (s : list ascii) : bool :=
  match ts with
  | [] => match s with [] => true | _ :: _ => false end
  | GStar :: ts' =>
      (fix star (s : list ascii) : bool :=
         glob_matches ts' s ||
         match s with
         | c :: s' => in_segment c && star s'
         | [] => false
         end) s
  | GAny :: ts' =>
      match s with
      | c :: s' => in_segment c && glob_matches ts' s'
      | [] => false
      end
  | GClass negated members :: ts' =>
      match s with
      | c :: s' =>
          in_segment c && xorb negated (class_mem c members) && glob_matches ts' s'
      | [] => false
      end
  | GLit a :: ts' =>
      match s with
      | c :: s' => Ascii.eqb a c && glob_matches ts' s'
      | [] => false
      end
  end.

Definition strip_prefix (p s : string) : option string :=
  if String.prefix p s
  then Some (String.substring (String.length p) (String.length s - String.length p) s)
  else None.

(** Whether the part of [path] after [dir] matches the pattern *)
Definition glob_path (dir pattern path : string) : bool :=
  match strip_prefix (dir +:+ "/") path with
  | Some name =>
      glob_matches (glob_tokens (String.length pattern)
                                (list_ascii_of_string pattern))
                   (list_ascii_of_string name)
  | None => false
  end.

Definition q_glob (dir pattern : string) (paths : list string) : list string :=
  filter (λ path, glob_path dir pattern path = true) paths.

#[export] Instance framework : Framework := {|
  tensor := list Q;
  scalar := Q;
  s_zero := 0%Q;
  s_add := q_add;
  s_mul := q_mul;
  s_ltb := q_ltb;
  s_div_nat := q_div_nat;
  s_fmt3 := q_fmt3;
  t_to := λ t, t;
  t_cpu := λ t, t;
  t_mean := q_mean;
  t_iter := λ t, Ok ((λ x, [x]) <$> t);
  net_state := Q;
  net_sd := Q;
  net_forward := q_forward;
  net_train := λ n, n;
  net_eval := λ n, n;
  net_state_dict := λ n, n;
  net_load_state_dict := λ _ sd, Ok sd;
  optim_state := Q;
  optim_sd := Q;
  zero_grad := λ n, n;
  backward := λ _ n, Ok n;
  optim_step := λ o n, (o, Qred (n - 5));
  optim_lr := λ o, o;
  optim_state_dict := λ o, o;
  optim_load_state_dict := λ _ sd, Ok sd;
  sched_state := nat;
  sched_sd := nat;
  sched_step := λ s o, (S s, o);
  sched_last_lr := λ _, (1 # 100)%Q;
  sched_state_dict := λ s, s;
  sched_load_state_dict := λ _ sd, Ok sd;
  checkpoint_name := q_checkpoint_name;
  load_weights := q_load_weights;
  path_glob := q_glob
|}.

(** The absolute difference of a prediction and its target, entry by entry *)
Definition l1 (args : list (option (value (list Q)))) : result (list Q) :=
  match args with
  | [Some (VTensor p); Some (VTensor g)] =>
      Ok (zip_with (λ x y, Qred (Qabs (x - y))) p g)
  | _ => Raise TypeError
  end.

Definition pixel_loss : Criterion :=
  {| c_pred_outputs := ["images"]; c_gt_outputs := ["target_images"];
     c_call := l1; c_log_states := false |}.

(** The mean, over the updates of the epoch, of the first entry of the
    first argument *)
Definition first_entries (stats : list (list (value (list Q)))) : list Q :=
  omap (λ args, match args with
                | VTensor (x :: _) :: _ => Some x
                | _ => None
                end) stats.

Definition psnr_metric : Metric :=
  {| m_name := "psnr"; m_pred_outputs := ["params"];
     m_gt_outputs := ["target_images"];
     m_get_epoch_value := λ stats, q_mean (first_entries stats);
     m_stats := [] |}.

Definition batch (images target : Q) : gmap string (value (list Q)) :=
  <["images" := VTensor [images]]>
  (<["images_fullres" := VTensor [images]]>
  (<["masks" := VTensor [1%Q]]>
  (<["masks_fullres" := VTensor [1%Q]]>
  (<["target_images" := VTensor [target]]> ∅)))).

Definition config : Cfg :=
  {| multi_gpu := false; start_epoch := 0; weights := None; resume_exp := None;
     resume_prefix := ""; CHECKPOINTS_PATH := "ckpt"; VIS_PATH := "vis" |}.

Definition losses (w : Q) : gmap string cfg_entry :=
  <["pixel_loss" := CfgCriterion pixel_loss]> {["pixel_loss_weight" := CfgWeight w]}.

Definition args (data : list (gmap string (value (list Q)))) : InitArgs :=
  {| a_model := 30%Q; a_cfg := config; a_loss_cfg := losses 1;
     a_train_data := data; a_val_data := data;
     a_optim := (1 # 1000)%Q; a_lr := (1 # 1000)%Q;
     a_image_dump_interval := 0; a_checkpoint_interval := 10;
     a_lr_scheduler := None; a_metrics := Some [psnr_metric];
     a_additional_val_metrics := None; a_rank := 0 |}.

(** A second term, enabled with weight two *)
Definition contrastive_loss_term : Criterion :=
  {| c_pred_outputs := ["params"]; c_gt_outputs := ["target_images"];
     c_call := l1; c_log_states := false |}.

Definition losses_with_contrastive : gmap string cfg_entry :=
  <["contrastive_loss" := CfgCriterion contrastive_loss_term]>
  (<["contrastive_loss_weight" := CfgWeight 2%Q]> (losses 1)).

(** The trainer that the constructor builds from [args] *)
Definition trainer_of (c : Cfg) (lc : gmap string cfg_entry)
    (train val : list (gmap string (value (list Q)))) : Trainer :=
  {| cfg := c; loss_cfg := lc; val_loss_cfg := lc;
     train_metrics := []; val_metrics := [psnr_metric];
     checkpoint_interval := 10; image_dump_interval := 0;
     task_prefix := ""; sw := false;
     train_data := train; val_data := val;
     net := 30%Q; local_rank := 0;
     optim := (1 # 1000)%Q; lr := (1 # 1000)%Q; lr_scheduler := None;
     best_psnr := 0%Q; best_checkpoint_path := "" |}.

Definition world_of (t : Trainer) (files : gmap string (file Q Q nat)) : World :=
  {| trainer := t; fs := files; grad_mode := true; trace := [] |}.

Definition fresh (data : list (gmap string (value (list Q)))) : World :=
  world_of (trainer_of config (losses 1) data data) ∅.

(** The pixel term disabled by a zero weight *)
Definition disabled : World :=
  world_of (trainer_of config (losses 0) [] []) ∅.

(** The contrastive term enabled in both configurations *)
Definition contrastive : World :=
  world_of (trainer_of config losses_with_contrastive [] []) ∅.

(** A trainer whose best checkpoint was removed from the disk *)
Definition stale : World :=
  world_of (set_best_checkpoint_path "ckpt/gone.pth"
              (trainer_of config (losses 1) [] [batch 1 0])) ∅.

(** A trainer that resumes the experiment [exp] from its last checkpoint *)
Definition resume_config : Cfg :=
  {| multi_gpu := false; start_epoch := 0; weights := None;
     resume_exp := Some "exp"; resume_prefix := "last";
     CHECKPOINTS_PATH := "ckpt"; VIS_PATH := "vis" |}.






(** A batch without its masks *)
Definition no_masks : gmap string (value (list Q)) :=
  <["images" := VTensor [1%Q]]> {["images_fullres" := VTensor [1%Q]]}.

(** The pixel term disabled by a zero weight, with one batch to train and
    to validate on *)
Definition idle : World :=
  world_of (trainer_of config (losses 0) [batch 1 0] [batch 1 0]) ∅.

(** A trainer whose configuration names a weights file that is not there *)
Definition weights_config : Cfg :=
  {| multi_gpu := false; start_epoch := 0; weights := Some "weights.pth";
     resume_exp := None; resume_prefix := ""; CHECKPOINTS_PATH := "ckpt";
     VIS_PATH := "vis" |}.

Definition weighted : World :=
  world_of (trainer_of weights_config (losses 1) [] []) ∅.

Definition weighted_args : InitArgs :=
  {| a_model := 30%Q; a_cfg := weights_config; a_loss_cfg := losses 1;
     a_train_data := []; a_val_data := [];
     a_optim := (1 # 1000)%Q; a_lr := (1 # 1000)%Q;
     a_image_dump_interval := 0; a_checkpoint_interval := 10;
     a_lr_scheduler := None; a_metrics := Some [psnr_metric];
     a_additional_val_metrics := None; a_rank := 0 |}.

(** A trainer that resumes an experiment without any checkpoint *)
Definition nothing_to_resume : World :=
  world_of (trainer_of resume_config (losses 1) [] []) ∅.

(** The trainer of the process of rank one, with a scheduler *)
Definition secondary (data : list (gmap string (value (list Q)))) : World :=
  world_of {| cfg := config; loss_cfg := losses 1; val_loss_cfg := losses 1;
              train_metrics := []; val_metrics := [psnr_metric];
              checkpoint_interval := 10; image_dump_interval := 0;
              task_prefix := ""; sw := false;
              train_data := data; val_data := data;
              net := 30%Q; local_rank := 1;
              optim := (1 # 1000)%Q; lr := (1 # 1000)%Q; lr_scheduler := Some 0;
              best_psnr := 0%Q; best_checkpoint_path := "" |} ∅.

(** The same trainer once its metric has seen a prediction of 30 *)
Definition measured : World :=
  world_of (set_val_metrics
              [metric_update psnr_metric [VTensor [30%Q]; VTensor [0%Q]]]
              (trainer stale)) ∅.

End Toy.

(** ** What a step computes, apart from the world *)

Section Proofs.
Context `{F : Framework}.

Abbreviation val := (value tensor).

(** The loss configuration that [add_loss] reads in each mode *)
Definition mode_cfg (validation : bool) (t : Trainer) : gmap string cfg_entry :=
  if negb validation then loss_cfg t else val_loss_cfg t.

(** The configured weight of a term, [0.0] when there is none *)
Definition weight_of (cfg : gmap string cfg_entry) (name : string) : scalar :=
  match cfg !! (name +:+ "_weight") with
  | Some (CfgWeight w) => w
  | _ => s_zero
  end.

(** A term is enabled when it is in the configuration and its weight is
    positive. *)
Definition enabled (cfg : gmap string cfg_entry) (name : string) : bool :=
  match cfg !! name with
  | None => false
  | Some _ =>
      match default (CfgWeight s_zero) (cfg !! (name +:+ "_weight")) with
      | CfgWeight w => s_ltb s_zero w
      | CfgCriterion _ => false
      end
  end.

(** The value of a term on a batch: [None] when [add_loss] does not call
    it, the mean of what it returns otherwise. *)
Definition term_value (cfg : gmap string cfg_entry) (name : string)
    (net_outputs batch_data : gmap string val) : result (option scalar) :=
  match cfg !! name with
  | None => Ok None
  | Some entry =>
      match default (CfgWeight s_zero) (cfg !! (name +:+ "_weight")) with
      | CfgCriterion _ => Raise TypeError
      | CfgWeight loss_weight =>
          if s_ltb s_zero loss_weight then
            match entry with
            | CfgWeight _ => Raise AttributeError
            | CfgCriterion c =>
                gts ← mapM (getitem batch_data) (c_gt_outputs c);
                loss ← c_call c (((λ x, net_outputs !! x) <$> c_pred_outputs c) ++ (Some <$> gts));
                Ok (Some (t_mean loss))
            end
          else Ok None
      end
  end.

(** The terms that [batch_forward] passes to [add_loss], in order *)
Definition term_names (validation : bool) : list string :=
  if validation
  then ["pixel_loss"; "low_loss"; "color_dis_loss"; "coord_dis_loss"; "sparse_loss"]
  else ["pixel_loss"; "low_loss"; "contrastive_loss"; "color_dis_loss";
        "coord_dis_loss"; "sparse_loss"].

Fixpoint add_losses (names : list string) (total_loss : scalar)
    (losses_logging : gmap string (list scalar)) (validation : bool)
    (net_outputs batch_data : gmap string val)
  : Py (scalar * gmap string (list scalar)) :=
  match names with
  | [] => mret (total_loss, losses_logging)
  | name :: rest =>
      '(loss, losses_logging) ← add_loss name total_loss losses_logging validation
                                  net_outputs batch_data;
      add_losses rest loss losses_logging validation net_outputs batch_data
  end.

(** The value that the log mapping records for a term *)
Definition logged (losses_logging : gmap string (list scalar)) (name : string) : scalar :=
  match losses_logging !! name with
  | Some [v] => v
  | _ => s_zero
  end.

(** The sum, from [total] on and in the order of the names, of weight times
    logged value *)
Definition weighted_sum (cfg : gmap string cfg_entry)
    (losses_logging : gmap string (list scalar)) (total : scalar)
    (names : list string) : scalar :=
  foldl (λ acc name, s_add acc (s_mul (weight_of cfg name) (logged losses_logging name)))
        total names.

Definition enabled_terms (cfg : gmap string cfg_entry) (validation : bool) : list string :=
  filter (λ name, enabled cfg name = true) (term_names validation).

(** The total, the log mapping and the terms called by a sequence of
    [add_loss] calls *)
Fixpoint losses_value (cfg : gmap string cfg_entry) (names : list string)
    (total : scalar) (losses_logging : gmap string (list scalar))
    (net_outputs batch_data : gmap string val)
  : result (scalar * gmap string (list scalar) * list string) :=
  match names with
  | [] => Ok (total, losses_logging, [])
  | name :: rest =>
      x ← term_value cfg name net_outputs batch_data;
      match x with
      | None => losses_value cfg rest total losses_logging net_outputs batch_data
      | Some v =>
          '(loss, logs, called) ←
            losses_value cfg rest (s_add total (s_mul (weight_of cfg name) v))
                         (log_append name v losses_logging) net_outputs batch_data;
          Ok (loss, logs, name :: called)
      end
  end.

(** The loss, the log mapping, the batch, the output and the terms called
    by [batch_forward], before the metrics are updated *)
Definition forward_value (t : Trainer) (batch_data : gmap string val)
    (validation : bool)
  : result (scalar * gmap string (list scalar) * gmap string val *
            gmap string val * list string) :=
  let batch_data := to_device <$> batch_data in
  images ← getitem batch_data "images";
  images_fullres ← getitem batch_data "images_fullres";
  masks ← getitem batch_data "masks";
  masks_fullres ← getitem batch_data "masks_fullres";
  output ← net_forward (net t) (negb validation) images images_fullres masks masks_fullres;
  let batch_data := merge_outputs output batch_data in
  '(loss, losses_logging, called) ←
    losses_value (mode_cfg validation t) (term_names validation) s_zero ∅
                 output batch_data;
  Ok (loss, losses_logging, batch_data, output, called).

Definition mode_metrics (validation : bool) (t : Trainer) : list Metric :=
  if validation then val_metrics t else train_metrics t.

Definition set_mode_metrics (validation : bool) (ms : list Metric) (t : Trainer)
  : Trainer :=
  if validation then set_val_metrics ms t else set_train_metrics ms t.

(** The world after a successful [batch_forward] *)
Definition after_forward (validation : bool) (called : list string)
    (argss : list (list val)) (w : World) : World :=
  let metrics := mode_metrics validation (trainer w) in
  {| trainer := set_mode_metrics validation (zip_with metric_update metrics argss)
                                 (trainer w);
     fs := fs w;
     grad_mode := grad_mode w;
     trace := trace w ++ EvForward (negb validation)
                ::  (EvCriterion (negb validation) <$> called)
                ++ ((λ m, EvMetricUpdate false (m_name m)) <$> metrics) |}.

(** The calls that a step without gradient tracking may make: the forward
    pass, loss terms and metric updates, all with the switch off; no call
    on the optimizer or the scheduler. *)
Definition no_grad_event (e : event) : Prop :=
  match e with
  | EvForward false | EvCriterion false _ | EvMetricUpdate false _ => True
  | _ => False
  end.

(** ** Relations between the worlds before and after a computation *)

(** [m], run from [w], ends in a world that [R] relates to [w]. *)
Definition frame_at {A} (R : relation World) (m : Py A) (w : World) : Prop :=
  ∀ a w', m w = Ok (a, w') → R w w'.

(** The selection state of the trainer is kept: the best score, the path of
    the best checkpoint, the rank and the checkpoint directory. *)
Definition same_best (w w' : World) : Prop :=
  best_psnr (trainer w') = best_psnr (trainer w) ∧
  best_checkpoint_path (trainer w') = best_checkpoint_path (trainer w) ∧
  local_rank (trainer w') = local_rank (trainer w) ∧
  CHECKPOINTS_PATH (cfg (trainer w')) = CHECKPOINTS_PATH (cfg (trainer w)).

(** The selection state and the files are kept. *)
Definition same_best_files (w w' : World) : Prop :=
  same_best w w' ∧ fs w' = fs w.

(** The path under which [validation] saves a new best checkpoint *)
Definition best_path (epoch : nat) (psnr : scalar) (t : Trainer) : string :=
  CHECKPOINTS_PATH (cfg t) +:+ "/" +:+
  checkpoint_name (fmt_0d 3 epoch +:+ "_" +:+ s_fmt3 psnr) epoch.

(** The bundle that [save_checkpoint] writes for a trainer *)
Definition checkpoint_of (t : Trainer) (epoch : nat) : file net_sd optim_sd sched_sd :=
  FCheckpoint {| b_model := Some (net_state_dict (net t));
                 b_optimizer := Some (optim_state_dict (optim t));
                 b_lr_scheduler := sched_state_dict <$> lr_scheduler t;
                 b_epoch := Some epoch |}.

(** The world after the best checkpoint was replaced *)
Definition promote (epoch : nat) (psnr : scalar) (w : World) : World :=
  let t := trainer w in
  let old := best_checkpoint_path t in
  let path := best_path epoch psnr t in
  {| trainer := set_best_checkpoint_path path (set_best_psnr psnr t);
     fs := <[path := checkpoint_of t epoch]> (delete old (fs w));
     grad_mode := grad_mode w;
     trace := trace w
              ++ (if bool_decide (is_Some (fs w !! old)) then [EvRemove old] else [])
              ++ [EvSaveCheckpoint path] |}.

(** What the selection at the end of [validation] does to a world: with no
    validation metric it raises; a score above the best one replaces the
    best checkpoint; any other score changes nothing. *)
Definition selected (epoch : nat) (w : World) : result World :=
  match val_metrics (trainer w) with
  | [] => Raise IndexError
  | metric0 :: _ =>
      if s_ltb (best_psnr (trainer w)) (get_epoch_value metric0)
      then Ok (promote epoch (get_epoch_value metric0) w)
      else Ok w
  end.

(** What [validation] does to a world: it keeps the selection state and
    the files up to a world in which, on the primary process, the selection
    runs. *)
Definition validated (epoch : nat) (w w' : World) : Prop :=
  ∃ w1, same_best_files w w1 ∧
        if bool_decide (local_rank (trainer w1) = 0)
        then selected epoch w1 = Ok w'
        else w' = w1.

(** ** Sessions *)

(** A session: calls of [training] and, on the primary process, of
    [validation], in any order, with the list of the values that the first
    validation metric returned at the end of each [validation]. *)
Inductive session : World → list scalar → World → Prop :=
  | session_done w : session w [] w
  | session_training w epoch w1 scores w2 :
      training epoch w = Ok ((), w1) →
      session w1 scores w2 →
      session w scores w2
  | session_validation w epoch w1 metric0 metrics scores w2 :
      local_rank (trainer w) = 0 →
      validation epoch w = Ok ((), w1) →
      val_metrics (trainer w1) = metric0 :: metrics →
      session w1 scores w2 →
      session w (get_epoch_value metric0 :: scores) w2.

(** The best score after a list of scores: a score replaces the best one
    when it is strictly above it. *)
Definition running_best (best : scalar) (scores : list scalar) : scalar :=
  foldl (λ best psnr, if s_ltb best psnr then psnr else best) best scores.

(** [best] is a maximum of [scores]: it is one of them and none is above. *)
Definition is_max (best : scalar) (scores : list scalar) : Prop :=
  best ∈ scores ∧ ∀ x, x ∈ scores → s_ltb best x = false.

(** ** Resuming *)

(** The checkpoints that the resume pattern of a configuration matches *)
Definition resume_candidates (w : World) : list string :=
  path_glob (CHECKPOINTS_PATH (cfg (trainer w)))
            (resume_prefix (cfg (trainer w)) +:+ "*.pth")
            (map_to_list (fs w)).*1.

(** The explicit weights file changes the network and clears the path,
    nothing else. *)
Definition weights_frame (w w' : World) : Prop :=
  optim (trainer w') = optim (trainer w) ∧
  lr_scheduler (trainer w') = lr_scheduler (trainer w) ∧
  start_epoch (cfg (trainer w')) = start_epoch (cfg (trainer w)) ∧
  resume_exp (cfg (trainer w')) = resume_exp (cfg (trainer w)) ∧
  resume_prefix (cfg (trainer w')) = resume_prefix (cfg (trainer w)) ∧
  CHECKPOINTS_PATH (cfg (trainer w')) = CHECKPOINTS_PATH (cfg (trainer w)) ∧
  train_metrics (trainer w') = train_metrics (trainer w) ∧
  val_metrics (trainer w') = val_metrics (trainer w) ∧
  fs w' = fs w.

(** ** Reachable worlds and metric events *)

(** The worlds that the constructor and the methods of the trainer reach *)
Inductive reachable : World → Prop :=
  | reachable_init a files w :
      init a files = Ok w → reachable w
  | reachable_training w epoch w' :
      reachable w → training epoch w = Ok ((), w') → reachable w'
  | reachable_validation w epoch w' :
      reachable w → validation epoch w = Ok ((), w') → reachable w'
  | reachable_batch_forward w b validation r w' :
      reachable w → batch_forward b validation w = Ok (r, w') → reachable w'
  | reachable_add_loss w name total ll validation out bd r w' :
      reachable w → add_loss name total ll validation out bd w = Ok (r, w') →
      reachable w'
  | reachable_save_visualization w bd out step pre w' :
      reachable w → save_visualization bd out step pre w = Ok ((), w') →
      reachable w'
  | reachable_load_weights w w' :
      reachable w → _load_weights w = Ok ((), w') → reachable w'.

(** A reset or an update of a metric, or a scalar logged under the metrics
    tag of the log prefix *)
Definition metric_event (log_prefix : string) (e : event) : Prop :=
  match e with
  | EvMetricReset _ | EvMetricUpdate _ _ => True
  | EvAddScalar tag _ _ _ => ∃ name, tag = log_prefix +:+ "Metrics/epoch_" +:+ name
  | _ => False
  end.

(** The calls made from [w] to [w'] touch no metric. *)
Definition no_metric_events (log_prefix : string) (w w' : World) : Prop :=
  ∃ events, trace w' = trace w ++ events ∧
            Forall (λ e, ¬ metric_event log_prefix e) events.

(** What [training] keeps of the metrics *)
Definition metrics_frame (w w' : World) : Prop :=
  length (train_metrics (trainer w')) = length (train_metrics (trainer w)) ∧
  val_metrics (trainer w') = val_metrics (trainer w) ∧
  task_prefix (trainer w') = task_prefix (trainer w) ∧
  (train_metrics (trainer w) = [] →
   no_metric_events ("Train" +:+ capitalize (task_prefix (trainer w))) w w').

Definition same_train_metrics (w w' : World) : Prop :=
  train_metrics (trainer w') = train_metrics (trainer w).

Definition same_metrics (w w' : World) : Prop :=
  train_metrics (trainer w') = train_metrics (trainer w) ∧
  val_metrics (trainer w') = val_metrics (trainer w).

(** The calls recorded after the epoch summary of [training], that is,
    after its loop *)
Fixpoint after_summary (events : list event) : list event :=
  match events with
  | [] => []
  | EvInfoTrain _ _ _ :: rest => rest
  | _ :: rest => after_summary rest
  end.


(** ** Missing fields, calls and settings *)

(** The fields of the batch that [batch_forward] reads, in order *)
Definition input_fields : list string :=
  ["images"; "images_fullres"; "masks"; "masks_fullres"].

(** The first key of a list that a mapping lacks *)
Fixpoint first_missing {A} (d : gmap string A) (keys : list string) : option string :=
  match keys with
  | [] => None
  | k :: rest => if d !! k is Some _ then first_missing d rest else Some k
  end.

(** What the methods of the trainer never assign: the two loss
    configurations, the task prefix, the two intervals, the loaders, the
    rank and the learning rate. *)
Definition same_settings (w w' : World) : Prop :=
  loss_cfg (trainer w') = loss_cfg (trainer w) ∧
  val_loss_cfg (trainer w') = val_loss_cfg (trainer w) ∧
  task_prefix (trainer w') = task_prefix (trainer w) ∧
  checkpoint_interval (trainer w') = checkpoint_interval (trainer w) ∧
  image_dump_interval (trainer w') = image_dump_interval (trainer w) ∧
  train_data (trainer w') = train_data (trainer w) ∧
  val_data (trainer w') = val_data (trainer w) ∧
  local_rank (trainer w') = local_rank (trainer w) ∧
  lr (trainer w') = lr (trainer w).

(** The settings and the configuration object are kept. *)
Definition fixed (w w' : World) : Prop :=
  same_settings w w' ∧ cfg (trainer w') = cfg (trainer w).

(** The calls made from [w] to [w'], none of which is in [E] *)
Definition avoids (E : event → Prop) (w w' : World) : Prop :=
  ∃ events, trace w' = trace w ++ events ∧ Forall (λ e, ¬ E e) events.

(** The calls that write to the summary writer, to the text log or to the
    disk *)
Definition output_event (e : event) : Prop :=
  match e with
  | EvAddScalar _ _ _ _ | EvLogStates _ _ | EvInfoTrain _ _ _ | EvInfoVal _ _
  | EvInfoMetric _ _ | EvInfoLoad _ | EvRemove _ | EvSaveCheckpoint _
  | EvImwrite _ => True
  | _ => False
  end.

(** What a process that is not the primary one leaves alone: the files,
    the summary writer, the best score and its checkpoint; and it makes no
    call that writes. *)
Definition silent (w w' : World) : Prop :=
  local_rank (trainer w') = local_rank (trainer w) ∧
  sw (trainer w') = sw (trainer w) ∧
  best_psnr (trainer w') = best_psnr (trainer w) ∧
  best_checkpoint_path (trainer w') = best_checkpoint_path (trainer w) ∧
  fs w' = fs w ∧
  avoids output_event w w'.

(** The calls on the optimizer and on the scheduler *)
Definition optimizer_event (e : event) : Prop :=
  match e with
  | EvZeroGrad | EvBackward _ | EvOptimStep | EvSchedStep => True
  | _ => False
  end.

Definition image_event (e : event) : Prop :=
  match e with
  | EvImwrite _ => True
  | _ => False
  end.

(** What [validation] leaves alone: the optimizer, the scheduler and the
    network up to its switch to evaluation mode; and it makes no call on
    the optimizer or the scheduler and writes no image. *)
Definition evaluates (w w' : World) : Prop :=
  optim (trainer w') = optim (trainer w) ∧
  lr_scheduler (trainer w') = lr_scheduler (trainer w) ∧
  net (trainer w') = net (trainer w) ∧
  avoids (λ e, optimizer_event e ∨ image_event e) w w'.

(** The interval of the image dumps is kept and no image is written. *)
Definition dumps_nothing (w w' : World) : Prop :=
  image_dump_interval (trainer w') = image_dump_interval (trainer w) ∧
  avoids image_event w w'.

(** The names of the calls on the optimizer and on the scheduler, in the
    order of the calls *)
Definition optimizer_calls (events : list event) : list string :=
  omap (λ e, match e with
             | EvZeroGrad => Some "zero_grad"
             | EvBackward _ => Some "backward"
             | EvOptimStep => Some "step"
             | EvSchedStep => Some "lr_scheduler.step"
             | _ => None
             end) events.

(** The calls made from [w] to [w'] are, on the optimizer and the
    scheduler, those of [names]. *)
Definition called (names : list string) (w w' : World) : Prop :=
  ∃ events, trace w' = trace w ++ events ∧ optimizer_calls events = names.

(** The same, for a computation that keeps the scheduler and the loader *)
Definition calls (names : list string) (w w' : World) : Prop :=
  lr_scheduler (trainer w') = lr_scheduler (trainer w) ∧
  train_data (trainer w') = train_data (trainer w) ∧
  called names w w'.





(** The path of the image that [save_visualization] writes for a suffix *)
Definition image_path (t : Trainer) (pre : string) (step : nat) (suffix : string)
  : string :=
  (if bool_decide (task_prefix t = "")
   then VIS_PATH (cfg t) +:+ "/" +:+ pre
   else (VIS_PATH (cfg t) +:+ "/" +:+ pre) +:+ "/" +:+ task_prefix t)
  +:+ "/" +:+ fmt_0d 6 step +:+ "_" +:+ suffix +:+ ".jpg".

(** The suffixes of the images of a batch: the full-resolution panel is
    written when the batch has full-resolution targets. *)
Definition image_suffixes (bd : gmap string val) : list string :=
  ["reconstruction"]
  ++ (if bool_decide (is_Some (bd !! "target_images_fullres"))
      then ["reconstruction_fr"] else [])
  ++ ["params"].

(** The paths of the checkpoints that [training] saves: the latest one,
    named by the task prefix, and the periodic one, named by the epoch *)
Definition latest_path (t : Trainer) (epoch : nat) : string :=
  CHECKPOINTS_PATH (cfg t) +:+ "/" +:+ checkpoint_name (task_prefix t) epoch.

Definition periodic_path (t : Trainer) (epoch : nat) : string :=
  CHECKPOINTS_PATH (cfg t) +:+ "/" +:+ checkpoint_name (fmt_0d 3 epoch) epoch.

(** The file at [path] is a checkpoint of the epoch that holds the network
    of the world. *)
Definition saved_at (epoch : nat) (path : string) (w : World) : Prop :=
  ∃ b, fs w !! path = Some (FCheckpoint b) ∧
       b_epoch b = Some epoch ∧
       b_model b = Some (net_state_dict (net (trainer w))).

(** What an epoch of [training] that returns on the primary process has
    done for the checkpoints *)
Definition checkpointed (epoch : nat) (w w' : World) : Prop :=
  local_rank (trainer w) = 0 →
  checkpoint_interval (trainer w) ≠ 0 ∧
  train_data (trainer w) ≠ [] ∧
  saved_at epoch (latest_path (trainer w) epoch) w' ∧
  (epoch mod checkpoint_interval (trainer w) = 0 →
   saved_at epoch (periodic_path (trainer w) epoch) w').

(** The trainer and the files are kept. *)
Definition same_state (w w' : World) : Prop :=
  trainer w' = trainer w ∧ fs w' = fs w.

(** The trainer once its network is in evaluation mode *)
Definition eval_trainer (t : Trainer) : Trainer := set_net (net_eval (net t)) t.

(** The loss of a batch in validation mode, as [validation] reads it with
    [loss.item()] *)
Definition batch_loss (t : Trainer) (b : gmap string val) : result scalar :=
  '(loss, ll, _, _, _) ← forward_value t b true;
  as_tensor loss ll.

(** One of the calls made from [w] to [w'] is [e]. *)
Definition logs (e : event) (w w' : World) : Prop :=
  ∃ events, trace w' = trace w ++ events ∧ e ∈ events.
(** ** The monad *)

Lemma bind_run {A B} (m : Py A) (f : A → Py B) (w : World) :
  (m ≫= f) w = match m w with Ok (a, w') => f a w' | Raise e => Raise e end.
Proof. reflexivity. Qed.

Lemma bind_ok {A B} (m : Py A) (f : A → Py B) (w : World) (r : B * World) :
  (m ≫= f) w = Ok r ↔ ∃ a w', m w = Ok (a, w') ∧ f a w' = Ok r.
Proof.
  rewrite bind_run. split.
  - destruct (m w) as [[a w']|e]; [eauto | discriminate].
  - intros (a & w' & -> & Hf). exact Hf.
Qed.

Lemma lift_ok {A} (r : result A) (w : World) (a : A) (w' : World) :
  lift r w = Ok (a, w') ↔ r = Ok a ∧ w' = w.
Proof.
  unfold lift. destruct r; split; intros H; try discriminate.
  - by injection H as -> ->.
  - destruct H as [[= ->] ->]. reflexivity.
  - by destruct H.
Qed.

Ltac py_run :=
  repeat first
    [ rewrite bind_run
    | progress cbn [self emit grad_enabled update_self mret Py_ret raise] ].

(** ** [add_loss] *)

Lemma add_loss_run name total ll validation out bd w :
  add_loss name total ll validation out bd w =
  match term_value (mode_cfg validation (trainer w)) name out bd with
  | Ok None => Ok ((total, ll), w)
  | Ok (Some x) =>
      Ok ((s_add total (s_mul (weight_of (mode_cfg validation (trainer w)) name) x),
           log_append name x ll),
          set_trace (trace w ++ [EvCriterion (grad_mode w) name]) w)
  | Raise e => Raise e
  end.
Proof.
  unfold add_loss, term_value, weight_of, mode_cfg.
  rewrite bind_run. cbn [self].
  destruct (_ !! name) as [entry|]; [|reflexivity].
  destruct (_ !! (name +:+ "_weight")) as [[lw|c]|]; simpl; try reflexivity.
  - destruct (s_ltb s_zero lw); [|reflexivity].
    destruct entry as [|c]; [reflexivity|].
    rewrite bind_run. unfold lift at 1.
    destruct (mapM _ _) as [gts|e]; [|reflexivity]. simpl.
    rewrite !bind_run. simpl. unfold lift.
    destruct (c_call c _); reflexivity.
  - destruct (s_ltb s_zero s_zero); [|reflexivity].
    destruct entry as [|c]; [reflexivity|].
    rewrite bind_run. unfold lift at 1.
    destruct (mapM _ _) as [gts|e]; [|reflexivity]. simpl.
    rewrite !bind_run. simpl. unfold lift.
    destruct (c_call c _); reflexivity.
Qed.


Lemma set_trace_nil w : set_trace (trace w ++ []) w = w.
Proof. destruct w. unfold set_trace. simpl. by rewrite app_nil_r. Qed.

Lemma add_losses_run names total ll validation out bd w :
  add_losses names total ll validation out bd w =
  match losses_value (mode_cfg validation (trainer w)) names total ll out bd with
  | Ok (loss, logs, called) =>
      Ok ((loss, logs), set_trace (trace w ++ (EvCriterion (grad_mode w) <$> called)) w)
  | Raise e => Raise e
  end.
Proof.
  revert total ll w. induction names as [|name rest IH]; intros total ll w.
  - simpl. by rewrite set_trace_nil.
  - cbn [add_losses losses_value]. rewrite bind_run, add_loss_run.
    destruct (term_value _ name out bd) as [[x|]|e]; simpl; [| |reflexivity].
    + rewrite IH. simpl.
      destruct (losses_value _ rest _ _ out bd) as [[[loss logs] called]|e];
        [|reflexivity].
      simpl. unfold set_trace. simpl. by rewrite <- app_assoc.
    + rewrite IH. by destruct (losses_value _ rest _ _ out bd) as [[[??]?]|].
Qed.

Lemma update_metrics_run out bd metrics w :
  update_metrics out bd metrics w =
  match mapM (metric_args out bd) metrics with
  | Ok argss =>
      Ok (zip_with metric_update metrics argss,
          set_trace (trace w ++ ((λ m, EvMetricUpdate (grad_mode w) (m_name m)) <$> metrics)) w)
  | Raise e => Raise e
  end.
Proof.
  revert w. induction metrics as [|m rest IH]; intros w.
  - simpl. by rewrite set_trace_nil.
  - cbn [update_metrics mapM]. rewrite bind_run. unfold lift at 1.
    change (mbind ?f (metric_args out bd m)) with
      (match metric_args out bd m with Ok a => f a | Raise e => Raise e end).
    destruct (metric_args out bd m) as [args|e]; [|reflexivity].
    py_run. rewrite IH.
    change (mbind ?f (mapM (metric_args out bd) rest)) with
      (match mapM (metric_args out bd) rest with Ok a => f a | Raise e => Raise e end).
    cbn [grad_mode set_trace].
    destruct (mapM (metric_args out bd) rest) as [argss|e]; [|reflexivity].
    simpl. unfold set_trace. simpl. by rewrite <- app_assoc.
Qed.


(** ** [batch_forward] *)

Lemma result_bind_run {A B} (r : result A) (f : A → result B) :
  r ≫= f = match r with Ok a => f a | Raise e => Raise e end.
Proof. reflexivity. Qed.

Lemma losses_chain {B} validation loss ll out bd
    (k : scalar → gmap string (list scalar) → Py B) w :
  ('(loss, ll) ← add_loss "pixel_loss" loss ll validation out bd;
   '(loss, ll) ← add_loss "low_loss" loss ll validation out bd;
   '(loss, ll) ← (if negb validation
                  then add_loss "contrastive_loss" loss ll validation out bd
                  else mret (loss, ll));
   '(loss, ll) ← add_loss "color_dis_loss" loss ll validation out bd;
   '(loss, ll) ← add_loss "coord_dis_loss" loss ll validation out bd;
   '(loss, ll) ← add_loss "sparse_loss" loss ll validation out bd;
   k loss ll) w
  = match add_losses (term_names validation) loss ll validation out bd w with
    | Ok ((loss, ll), w') => k loss ll w'
    | Raise e => Raise e
    end.
Proof.
  destruct validation; cbn [term_names add_losses negb];
    repeat (repeat first [rewrite bind_run | progress cbn [mret Py_ret]];
            match goal with
            | |- context [add_loss ?n ?l ?g ?v out bd ?w] =>
                destruct (add_loss n l g v out bd w) as [[[??]?]|]; [|reflexivity]
            end);
    reflexivity.
Qed.

Lemma batch_forward_run b validation w :
  batch_forward b validation w =
  match forward_value (trainer w) b validation with
  | Ok (loss, ll, bd, out, called) =>
      match mapM (metric_args out bd) (mode_metrics validation (trainer w)) with
      | Ok argss => Ok ((loss, ll, bd, out), after_forward validation called argss w)
      | Raise e => Raise e
      end
  | Raise e => Raise e
  end.
Proof.
  unfold batch_forward, forward_value. py_run.
  unfold with_grad_enabled.
  repeat (py_run; unfold lift at 1; rewrite result_bind_run;
          match goal with
          | |- context [getitem ?d ?k] => destruct (getitem d k); [|reflexivity]
          end).
  py_run. cbn [grad_mode set_grad_mode set_trace trainer].
  unfold lift at 1. rewrite result_bind_run.
  destruct (net_forward _ _ _ _ _ _) as [output|e]; [|reflexivity].
  rewrite losses_chain, add_losses_run, result_bind_run.
  cbn [grad_mode set_grad_mode set_trace trainer].
  destruct (losses_value _ _ _ _ _ _) as [[[loss ll] called]|e]; [|reflexivity].
  py_run. rewrite update_metrics_run.
  cbn [grad_mode set_grad_mode set_trace trainer]. unfold mode_metrics.
  destruct (mapM _ _) as [argss|e]; [|reflexivity].
  py_run. unfold after_forward, mode_metrics, set_mode_metrics.
  cbn [grad_mode set_grad_mode set_trace set_trainer trainer fs trace].
  rewrite <- !app_assoc. destruct validation; reflexivity.
Qed.


(** ** The value of a sequence of terms *)

Lemma term_value_enabled cfg name out bd x :
  term_value cfg name out bd = Ok x →
  enabled cfg name = if x is Some _ then true else false.
Proof.
  unfold term_value, enabled.
  destruct (cfg !! name) as [entry|]; [|by intros [= <-]].
  destruct (default _ _) as [lw|c]; [|discriminate].
  destruct (s_ltb s_zero lw); [|by intros [= <-]].
  destruct entry as [|c]; [discriminate|].
  rewrite result_bind_run. destruct (mapM _ _); [|discriminate].
  rewrite result_bind_run. destruct (c_call c _); [|discriminate].
  by intros [= <-].
Qed.

Lemma log_append_lookup name v ll n :
  log_append name v ll !! n =
  if decide (name = n) then Some (default [] (ll !! name) ++ [v]) else ll !! n.
Proof. unfold log_append. by rewrite lookup_insert. Qed.

Lemma weighted_sum_ext cfg ll ll' total names :
  (∀ n, n ∈ names → ll' !! n = ll !! n) →
  weighted_sum cfg ll' total names = weighted_sum cfg ll total names.
Proof.
  revert total. induction names as [|n names IH]; intros total Hagree; [done|].
  unfold weighted_sum in *. cbn [foldl]. unfold logged at 2 4.
  rewrite (Hagree n) by (set_unfold; tauto). apply IH. intros; apply Hagree. (set_unfold; tauto).
Qed.

Lemma losses_value_spec cfg names total ll out bd loss logs called :
  losses_value cfg names total ll out bd = Ok (loss, logs, called) →
  NoDup names →
  (∀ n, n ∈ names → ll !! n = None) →
  called = filter (λ n, enabled cfg n = true) names ∧
  (∀ n, n ∈ called →
        ∃ v, term_value cfg n out bd = Ok (Some v) ∧ logs !! n = Some [v]) ∧
  (∀ n, n ∉ called → logs !! n = ll !! n) ∧
  loss = weighted_sum cfg logs total called.
Proof.
  revert total ll loss logs called.
  induction names as [|name rest IH]; intros total ll loss logs called Hrun Hnd Hfresh.
  { simpl in Hrun. injection Hrun as <- <- <-. repeat split; [|done..].
    intros n Hn. by apply elem_of_nil in Hn. }
  apply NoDup_cons in Hnd as [Hname Hnd].
  cbn [losses_value] in Hrun. rewrite result_bind_run in Hrun.
  destruct (term_value cfg name out bd) as [x|e] eqn:Hvalue; [|discriminate].
  pose proof (term_value_enabled _ _ _ _ _ Hvalue) as Hterm.
  rewrite filter_cons. destruct x as [v|].
  - rewrite result_bind_run in Hrun.
    destruct (losses_value cfg rest _ _ out bd) as [[[loss' logs'] called']|e] eqn:Hrest;
      [|discriminate].
    injection Hrun as <- <- <-.
    apply IH in Hrest as (Hcalled & Hin & Hout & Hsum); [|done|].
    2:{ intros n Hn. rewrite log_append_lookup.
        destruct (decide (name = n)) as [->|]; [done|]. apply Hfresh. (set_unfold; tauto). }
    assert (Hnot : name ∉ called').
    { rewrite Hcalled. intros Hn%list_elem_of_filter. tauto. }
    assert (Hlog : logs' !! name = Some [v]).
    { rewrite (Hout name Hnot), log_append_lookup.
      rewrite decide_True by done. rewrite (Hfresh name) by (set_unfold; tauto). done. }
    rewrite decide_True by done. repeat split.
    + by rewrite Hcalled.
    + intros n [->|Hn]%elem_of_cons; eauto.
    + intros n Hn. apply not_elem_of_cons in Hn as [Hne Hn].
      rewrite (Hout n Hn), log_append_lookup. by rewrite decide_False.
    + rewrite Hsum. unfold weighted_sum. cbn [foldl]. unfold logged at 3.
      by rewrite Hlog.
  - rewrite decide_False by (rewrite Hterm; done).
    apply IH in Hrun as (Hcalled & Hin & Hout & Hsum); [|done|].
    2:{ intros n Hn. apply Hfresh. (set_unfold; tauto). }
    done.
Qed.

Lemma term_names_NoDup validation : NoDup (term_names validation).
Proof. destruct validation; apply (bool_decide_unpack _); by vm_compute. Qed.

(** ** The merge of the model outputs into the batch *)

Lemma merge_outputs_lookup (output batch_data : gmap string val) (k : string) :
  merge_outputs output batch_data !! k =
  match output !! k with
  | Some v => if str_in "image" k then batch_data !! k else Some v
  | None => batch_data !! k
  end.
Proof.
  unfold merge_outputs.
  apply (map_fold_weak_ind (λ (r m : gmap string val),
    r !! k = match m !! k with
             | Some v => if str_in "image" k then batch_data !! k else Some v
             | None => batch_data !! k
             end)).
  - by rewrite lookup_empty.
  - intros i x m r Hi IH. rewrite (lookup_insert m).
    destruct (decide (i = k)) as [->|Hne].
    + destruct (str_in "image" k) eqn:Hk; simpl.
      * rewrite IH, Hi. done.
      * by rewrite lookup_insert_eq.
    + destruct (str_in "image" i); simpl; [done|].
      by rewrite lookup_insert_ne.
Qed.


(** ** Inversion of a successful step *)

Lemma batch_forward_ok b validation w loss ll bd out w' :
  batch_forward b validation w = Ok ((loss, ll, bd, out), w') →
  ∃ called argss,
    forward_value (trainer w) b validation = Ok (loss, ll, bd, out, called) ∧
    mapM (metric_args out bd) (mode_metrics validation (trainer w)) = Ok argss ∧
    w' = after_forward validation called argss w.
Proof.
  rewrite batch_forward_run.
  destruct (forward_value _ _ _) as [[[[[loss0 ll0] bd0] out0] called]|e] eqn:Hf;
    [|discriminate].
  destruct (mapM _ _) as [argss|e] eqn:Hm; [|discriminate].
  intros H. simplify_eq. by exists called, argss.
Qed.

Lemma forward_value_ok t b validation loss ll bd out called :
  forward_value t b validation = Ok (loss, ll, bd, out, called) →
  (∃ images images_fullres masks masks_fullres,
     (to_device <$> b) !! "images" = Some images ∧
     (to_device <$> b) !! "images_fullres" = Some images_fullres ∧
     (to_device <$> b) !! "masks" = Some masks ∧
     (to_device <$> b) !! "masks_fullres" = Some masks_fullres ∧
     net_forward (net t) (negb validation) images images_fullres masks masks_fullres
       = Ok out) ∧
  bd = merge_outputs out (to_device <$> b) ∧
  losses_value (mode_cfg validation t) (term_names validation) s_zero ∅ out bd
    = Ok (loss, ll, called).
Proof.
  unfold forward_value, getitem.
  repeat (rewrite result_bind_run;
          match goal with
          | |- context [(to_device <$> b) !! ?k] =>
              destruct ((to_device <$> b) !! k) eqn:?; [|discriminate]
          end).
  rewrite result_bind_run.
  destruct (net_forward _ _ _ _ _ _) as [output|e] eqn:Hnet; [|discriminate].
  rewrite result_bind_run.
  destruct (losses_value _ _ _ _ _ _) as [[[loss0 ll0] called0]|e] eqn:Hl; [|discriminate].
  intros [= <- <- <- <- <-]. split; [|done]. eauto 10.
Qed.


(** ** Metric updates do not change what the next step computes *)

Lemma mapM_result_length {A B} (f : A → result B) (l : list A) (ys : list B) :
  mapM f l = Ok ys → length ys = length l.
Proof.
  revert ys. induction l as [|x l IH]; intros ys; simpl.
  - by intros [= <-].
  - rewrite result_bind_run. destruct (f x); [|discriminate].
    rewrite result_bind_run. destruct (mapM f l) as [k|]; [|discriminate].
    intros [= <-]. simpl. f_equal. by apply IH.
Qed.

Lemma mapM_metric_args_update out bd (ms : list Metric) (argss : list (list val)) :
  length argss = length ms →
  mapM (metric_args out bd) (zip_with metric_update ms argss)
  = mapM (metric_args out bd) ms.
Proof.
  revert argss. induction ms as [|m ms IH]; intros [|a argss] Hlen;
    try discriminate; [done|].
  cbn [zip_with mapM]. rewrite IH by (by injection Hlen). reflexivity.
Qed.

Lemma metric_names_update (ms : list Metric) (argss : list (list val)) :
  length argss = length ms →
  (λ m, EvMetricUpdate false (m_name m)) <$> zip_with metric_update ms argss
  = (λ m, EvMetricUpdate false (m_name m)) <$> ms.
Proof.
  revert argss. induction ms as [|m ms IH]; intros [|a argss] Hlen;
    try discriminate; [done|].
  cbn [zip_with fmap list_fmap]. f_equal. apply IH. by injection Hlen.
Qed.

Lemma forward_value_after_forward validation called argss w b v :
  forward_value (trainer (after_forward validation called argss w)) b v
  = forward_value (trainer w) b v.
Proof. by destruct validation. Qed.

(** ** The selection of the best checkpoint *)

Lemma select_best_run epoch w :
  select_best epoch w =
  match selected epoch w with
  | Ok w' => Ok ((), w')
  | Raise e => Raise e
  end.
Proof.
  unfold select_best, selected. py_run.
  destruct (val_metrics (trainer w)) as [|metric0 ?]; [reflexivity|].
  destruct (s_ltb _ _); [|reflexivity].
  py_run. unfold path_exists at 1.
  cbn [trainer set_trainer fs best_checkpoint_path set_best_psnr].
  unfold promote, save_checkpoint, best_path, checkpoint_of.
  destruct (fs w !! best_checkpoint_path (trainer w)) as [f|] eqn:Hold.
  - rewrite !bool_decide_eq_true_2 by eauto.
    py_run. unfold os_remove at 1. cbn [fs set_trainer]. rewrite Hold.
    py_run. unfold write_file at 1. py_run.
    cbn. by rewrite <- app_assoc.
  - rewrite !bool_decide_eq_false_2 by (by intros [? ?]).
    py_run. unfold write_file at 1. py_run.
    cbn. by rewrite delete_id.
Qed.

(** ** Rules for frames *)

Section frames.
Context (R Q : relation World).
Context (RQ : ∀ x y z, R x y → Q y z → Q x z).

Lemma frame_bind {A B} (m : Py A) (f : A → Py B) w :
  frame_at R m w →
  (∀ a w1, m w = Ok (a, w1) → R w w1 → frame_at Q (f a) w1) →
  frame_at Q (m ≫= f) w.
Proof.
  intros Hm Hf b w' (a & w1 & H1 & H2)%bind_ok.
  eapply RQ; [by eapply Hm|]. eapply Hf; eauto.
Qed.

Lemma frame_raise {A} e w : frame_at Q (raise e : Py A) w.
Proof. intros a' w' [=]. Qed.

Lemma frame_pure_bind {A B} (m : Py A) (f : A → Py B) w :
  (∀ a w1, m w = Ok (a, w1) → w1 = w) →
  (∀ a, frame_at Q (f a) w) →
  frame_at Q (m ≫= f) w.
Proof.
  intros Hm Hf b w' (a & w1 & H1 & H2)%bind_ok.
  rewrite (Hm _ _ H1) in H2. by eapply Hf.
Qed.

Lemma frame_self_bind {B} (f : Trainer → Py B) w :
  frame_at Q (f (trainer w)) w → frame_at Q (self ≫= f) w.
Proof. intros Hf b w' H. by eapply Hf. Qed.

Lemma frame_grad_bind {B} (f : bool → Py B) w :
  frame_at Q (f (grad_mode w)) w → frame_at Q (grad_enabled ≫= f) w.
Proof. intros Hf b w' H. by eapply Hf. Qed.

Lemma frame_lift_bind {A B} (r : result A) (f : A → Py B) w :
  (∀ a, r = Ok a → frame_at Q (f a) w) → frame_at Q (lift r ≫= f) w.
Proof.
  intros Hf b w' (a & w1 & [-> ->]%lift_ok & H2)%bind_ok. by eapply Hf.
Qed.
End frames.

Section frame.
Context (R : relation World) `{!PreOrder R}.

Lemma frame_ret {A} (a : A) w : frame_at R (mret a) w.
Proof. intros a' w' [= _ <-]. reflexivity. Qed.

Lemma frame_lift {A} (r : result A) w : frame_at R (lift r) w.
Proof. intros a w' [_ ->]%lift_ok. reflexivity. Qed.

Lemma frame_seq {A B} (m : Py A) (f : A → Py B) w :
  frame_at R m w →
  (∀ a w1, m w = Ok (a, w1) → R w w1 → frame_at R (f a) w1) →
  frame_at R (m ≫= f) w.
Proof. apply frame_bind. intros x y z ??. by etrans. Qed.

Lemma frame_update_self (f : Trainer → Trainer) w :
  R w (set_trainer (f (trainer w)) w) → frame_at R (update_self f) w.
Proof. by intros H a w' [= _ <-]. Qed.

Lemma frame_emit e w :
  R w (set_trace (trace w ++ [e]) w) → frame_at R (emit e) w.
Proof. by intros H a w' [= _ <-]. Qed.

Lemma frame_write_file path f w :
  R w (set_fs (<[path := f]> (fs w)) w) → frame_at R (write_file path f) w.
Proof. by intros H a w' [= _ <-]. Qed.

Lemma frame_for_each {A} (l : list A) (body : A → Py unit) w :
  (∀ x w1, x ∈ l → R w w1 → frame_at R (body x) w1) →
  frame_at R (for_each l body) w.
Proof.
  revert w. induction l as [|x l IH]; intros w Hbody; [apply frame_ret|].
  cbn [for_each]. apply frame_seq.
  - apply Hbody; [by left|reflexivity].
  - intros _ w1 _ H1. apply IH. intros y w2 Hy H2.
    apply Hbody; [by right|by etrans].
Qed.

Lemma frame_with_grad {A} (mode : bool) (body : Py A) w :
  (∀ w g, R w (set_grad_mode g w)) →
  frame_at R body (set_grad_mode mode w) →
  frame_at R (with_grad_enabled mode body) w.
Proof.
  intros Hg Hbody a w'. unfold with_grad_enabled.
  destruct (body _) as [[a1 w1]|] eqn:Hrun; [|discriminate].
  intros [= <- <-]. etrans; [apply (Hg w mode)|].
  etrans; [by eapply Hbody|]. apply Hg.
Qed.

Lemma frame_batch_forward b validation w :
  (∀ called argss,
     length argss = length (mode_metrics validation (trainer w)) →
     R w (after_forward validation called argss w)) →
  frame_at R (batch_forward b validation) w.
Proof.
  intros H [[[loss ll] bd] out] w' (called & argss & _ & Hm & ->)%batch_forward_ok.
  apply H. by eapply mapM_result_length.
Qed.

Lemma frame_select_best epoch w :
  (∀ psnr, R w (promote epoch psnr w)) → frame_at R (select_best epoch) w.
Proof.
  intros H [] w'. rewrite select_best_run. unfold selected.
  destruct (val_metrics (trainer w)) as [|m ms]; [discriminate|].
  destruct (s_ltb _ _); intros [= <-]; [apply H|reflexivity].
Qed.

Lemma frame_add_loss name total ll validation out bd w :
  (∀ e, R w (set_trace (trace w ++ [e]) w)) →
  frame_at R (add_loss name total ll validation out bd) w.
Proof.
  intros H r w'. rewrite add_loss_run.
  destruct (term_value _ _ _ _) as [[x|]|]; intros [= _ <-];
    [apply H|reflexivity].
Qed.
End frame.

#[local] Instance same_best_preorder : PreOrder same_best.
Proof.
  split.
  - by intros w.
  - intros x y z (? & ? & ? & ?) (? & ? & ? & ?). repeat split; congruence.
Qed.

#[local] Instance same_best_files_preorder : PreOrder same_best_files.
Proof.
  split.
  - by intros w.
  - intros x y z [? ?] [? ?]. split; [by etrans|congruence].
Qed.

Create HintDb frames.

(** Steps through a computation, leaving the changes of the world that the
    relation has to allow. *)
Ltac frame_go :=
  cbn beta;
  lazymatch goal with
  | |- frame_at _ (mret _) _ => apply frame_ret; tc_solve
  | |- frame_at _ (raise _) _ => apply frame_raise
  | |- frame_at _ (lift _) _ => apply frame_lift; tc_solve
  | |- frame_at _ (self ≫= _) _ => apply frame_self_bind; frame_go
  | |- frame_at _ (grad_enabled ≫= _) _ => apply frame_grad_bind; frame_go
  | |- frame_at _ (lift _ ≫= _) _ => apply frame_lift_bind; intros ? ?; frame_go
  | |- frame_at _ (glob_checkpoints _ ≫= _) _ =>
      apply frame_pure_bind; [by intros ? ? [= _ <-] | intros ?; frame_go]
  | |- frame_at _ (torch_load _ ≫= _) _ =>
      apply frame_pure_bind;
        [unfold torch_load; intros ? ? ?; by repeat (case_match; simplify_eq)
        | intros ?; frame_go]
  | |- frame_at _ (read_file _ ≫= _) _ =>
      apply frame_pure_bind; [by intros ? ? [= _ <-] | intros ?; frame_go]
  | |- frame_at _ (_ ≫= _) _ =>
      apply frame_seq; [tc_solve | frame_go | intros ? ? ? ?; frame_go]
  | |- frame_at _ (for_each _ _) _ =>
      apply frame_for_each; [tc_solve | intros ? ? ? ?; frame_go]
  | |- frame_at _ (with_grad_enabled _ _) _ =>
      apply frame_with_grad; [tc_solve | | frame_go]
  | |- frame_at _ (update_self _) _ => apply frame_update_self
  | |- frame_at _ (emit _) _ => apply frame_emit
  | |- frame_at _ (add_scalar _ _ _ _) _ => apply frame_emit
  | |- frame_at _ (write_file _ _) _ => apply frame_write_file
  | |- frame_at _ (batch_forward _ _) _ =>
      apply frame_batch_forward; intros ? ?
  | |- frame_at _ (match ?x with _ => _ end) _ => destruct x eqn:?; frame_go
  | |- frame_at _ (let _ := _ in _) _ => cbn zeta; frame_go
  | |- frame_at _ (save_checkpoint _ _ _ _ _ _) _ => unfold save_checkpoint; frame_go
  | |- frame_at _ init_sw _ => unfold init_sw; frame_go
  | |- frame_at _ (save_visualization _ _ _ _) _ =>
      unfold save_visualization; frame_go
  | |- frame_at _ (log_states_of _ _ _ _) _ => unfold log_states_of; frame_go
  | |- frame_at _ (load_checkpoint _) _ => unfold load_checkpoint; frame_go
  | |- frame_at _ (restore_optimizer _) _ => unfold restore_optimizer; frame_go
  | |- frame_at _ (restore_scheduler _) _ => unfold restore_scheduler; frame_go
  | |- frame_at _ (restore_epoch _) _ => apply frame_update_self
  | |- frame_at _ (select_best _) _ => apply frame_select_best; [tc_solve | intros ?]
  | |- frame_at _ (add_loss _ _ _ _ _ _) _ => apply frame_add_loss; [tc_solve | intros ?]
  | |- _ => try solve [eauto with frames]
  end.

(** ** [validation] *)

Ltac same_best_side := by repeat split.

Lemma frame_validation_loop batches st w :
  frame_at same_best_files (validation_loop batches st) w.
Proof.
  revert st w. induction batches as [|b batches IH]; intros st w; cbn [validation_loop].
  - frame_go.
  - apply frame_seq; [tc_solve| |intros ? ? _ _; apply IH].
    unfold validation_batch. frame_go; same_best_side.
Qed.

Lemma validated_prefix x y z :
  same_best_files x y → validated z.1 y z.2 → validated z.1 x z.2.
Proof. intros Hxy (w1 & Hy & Hsel). exists w1. split; [by etrans|done]. Qed.

Lemma validation_validated epoch w :
  frame_at (validated epoch) (validation epoch) w.
Proof.
  assert (RQ : ∀ x y z, same_best_files x y → validated epoch y z → validated epoch x z).
  { intros x y z Hxy. apply (validated_prefix x y (epoch, z) Hxy). }
  unfold validation.
  repeat (first
    [ apply frame_self_bind
    | eapply (frame_bind same_best_files _ RQ);
        [first [apply frame_validation_loop | frame_go; same_best_side]
        | intros ? ? _ _ ] ]).
  destruct (bool_decide (local_rank (trainer _) = 0)) eqn:Hrank.
  - apply bool_decide_eq_true_1 in Hrank.
    apply frame_lift_bind. intros mean_loss _.
    repeat (eapply (frame_bind same_best_files _ RQ);
            [frame_go; same_best_side | intros ? ? _ ? ]).
    intros [] w' Hsel. rewrite select_best_run in Hsel.
    destruct (selected epoch _) as [w''|] eqn:Hw''; [|discriminate].
    injection Hsel as <-. eexists. split; [reflexivity|].
    repeat match goal with
           | H : same_best_files _ _ |- _ => destruct H as [(_ & _ & ? & _) _]
           end.
    by rewrite bool_decide_eq_true_2 by congruence.
  - intros [] w' [= ->]. eexists. split; [reflexivity|]. by rewrite Hrank.
Qed.

(** ** [training] keeps the selection state *)

Lemma frame_training_loop epoch log_prefix i batches st w :
  frame_at same_best (training_loop epoch log_prefix i batches st) w.
Proof.
  revert i st w. induction batches as [|b batches IH]; intros i st w;
    cbn [training_loop].
  - frame_go.
  - apply frame_seq; [tc_solve| |intros ? ? _ _; apply IH].
    unfold training_batch. frame_go; same_best_side.
Qed.

#[local] Hint Resolve frame_training_loop : frames.

Lemma frame_training epoch w : frame_at same_best (training epoch) w.
Proof. unfold training. frame_go; same_best_side. Qed.

(** ** The best score of a session *)

Lemma validation_step epoch w w' :
  local_rank (trainer w) = 0 →
  validation epoch w = Ok ((), w') →
  ∃ metric0 metrics,
    val_metrics (trainer w') = metric0 :: metrics ∧
    local_rank (trainer w') = 0 ∧
    let psnr := get_epoch_value metric0 in
    let old := best_checkpoint_path (trainer w) in
    if s_ltb (best_psnr (trainer w)) psnr then
      best_psnr (trainer w') = psnr ∧
      best_checkpoint_path (trainer w') = best_path epoch psnr (trainer w) ∧
      (∃ b, fs w' = <[best_path epoch psnr (trainer w) := FCheckpoint b]>
                      (delete old (fs w)) ∧
            b_epoch b = Some epoch)
    else
      best_psnr (trainer w') = best_psnr (trainer w) ∧
      best_checkpoint_path (trainer w') = old ∧
      fs w' = fs w.
Proof.
  intros Hrank Hrun. apply validation_validated in Hrun as (w1 & Hsame & Hsel).
  destruct Hsame as [(Hbest & Hpath & Hrank1 & Hdir) Hfs].
  rewrite bool_decide_eq_true_2 in Hsel by congruence.
  unfold selected in Hsel.
  destruct (val_metrics (trainer w1)) as [|metric0 metrics] eqn:Hms; [discriminate|].
  exists metric0, metrics. rewrite <- Hbest, <- Hpath, <- Hfs.
  unfold best_path. rewrite <- Hdir. fold (best_path epoch (get_epoch_value metric0) (trainer w1)).
  destruct (s_ltb _ _); injection Hsel as <-.
  - cbn. rewrite Hms. repeat split; [congruence|]. eexists. split; reflexivity.
  - repeat split; congruence.
Qed.

Lemma running_best_app best scores psnr :
  running_best best (scores ++ [psnr]) =
  if s_ltb (running_best best scores) psnr then psnr else running_best best scores.
Proof. unfold running_best. by rewrite foldl_snoc. Qed.

Lemma session_running_best w scores w' :
  session w scores w' →
  best_psnr (trainer w') = running_best (best_psnr (trainer w)) scores.
Proof.
  induction 1 as [w|w epoch w1 scores w2 Hrun _ IH
                    |w epoch w1 metric0 metrics scores w2 Hrank Hrun Hms _ IH].
  - reflexivity.
  - apply frame_training in Hrun as (Hbest & _). by rewrite IH, Hbest.
  - destruct (validation_step _ _ _ Hrank Hrun) as (m & ms & Hms' & _ & Hstep).
    rewrite Hms in Hms'. injection Hms' as <- <-. cbn zeta in Hstep.
    rewrite IH. cbn [running_best foldl].
    destruct (s_ltb _ _); destruct Hstep as (-> & _); reflexivity.
Qed.

Lemma running_best_is_max
    (Hirr : ∀ x, s_ltb x x = false)
    (Htrans : ∀ x y z, s_ltb x y = true → s_ltb y z = true → s_ltb x z = true)
    best seen scores :
  is_max best seen → is_max (running_best best scores) (seen ++ scores).
Proof.
  revert best seen. induction scores as [|psnr scores IH]; intros best seen Hmax.
  { by rewrite app_nil_r. }
  replace (seen ++ psnr :: scores) with ((seen ++ [psnr]) ++ scores)
    by (by rewrite <- app_assoc).
  cbn [running_best foldl]. apply IH. destruct Hmax as [Hin Hup].
  destruct (s_ltb best psnr) eqn:Hlt; split.
  - apply elem_of_app. right. by left.
  - intros x [Hx|Hx%list_elem_of_singleton]%elem_of_app; [|by subst].
    destruct (s_ltb psnr x) eqn:Hpx; [|done].
    pose proof (Hup x Hx) as Hbx. by rewrite (Htrans _ _ _ Hlt Hpx) in Hbx.
  - apply elem_of_app. by left.
  - intros x [Hx|Hx%list_elem_of_singleton]%elem_of_app; [by apply Hup|by subst].
Qed.

(** ** [_load_weights] *)

#[local] Instance weights_frame_preorder : PreOrder weights_frame.
Proof.
  split.
  - by intros w.
  - intros x y z H1 H2. unfold weights_frame in *.
    destruct_and!. repeat split; congruence.
Qed.

Lemma frame_read_file_bind {B} (Q : relation World) path
    (f : option (file net_sd optim_sd sched_sd) → Py B) w :
  frame_at Q (f (fs w !! path)) w → frame_at Q (read_file path ≫= f) w.
Proof. intros Hf b w' H. by eapply Hf. Qed.

Lemma frame_load_explicit_weights w :
  frame_at weights_frame load_explicit_weights w.
Proof.
  unfold load_explicit_weights. apply frame_self_bind.
  destruct (weights _) as [path|]; [|frame_go].
  apply frame_read_file_bind. frame_go; by repeat split.
Qed.

(** Splits a successful run into the runs of its steps. *)
Ltac py_inv H :=
  repeat lazymatch type of H with
    | (self ≫= _) _ = Ok _ => rewrite bind_run in H; cbn [self] in H
    | (lift _ ≫= _) _ = Ok _ =>
        let a := fresh "a" in let Ha := fresh "Ha" in
        apply bind_ok in H as (a & ? & [Ha ->]%lift_ok & H)
    | (update_self _ ≫= _) _ = Ok _ => rewrite bind_run in H; cbn [update_self] in H
    | (emit _ ≫= _) _ = Ok _ => rewrite bind_run in H; cbn [emit] in H
    | (raise _) _ = Ok _ => discriminate H
    | (mret _) _ = Ok _ => injection H as ? ?
    end.

(** ** Resuming, step by step *)





(** ** [training] and the metrics *)

#[local] Instance metrics_frame_preorder : PreOrder metrics_frame.
Proof.
  split.
  - intros w. repeat split. intros _. exists []. by rewrite app_nil_r.
  - intros x y z (Hl1 & Hv1 & Hp1 & He1) (Hl2 & Hv2 & Hp2 & He2).
    repeat split; [congruence..|]. intros Hnil.
    destruct (He1 Hnil) as (ev1 & Ht1 & Hf1).
    destruct He2 as (ev2 & Ht2 & Hf2).
    { apply nil_length_inv. by rewrite Hl1, Hnil. }
    exists (ev1 ++ ev2). rewrite Ht2, Ht1, <- app_assoc. split; [done|].
    apply Forall_app. split; [done|]. by rewrite <- Hp1.
Qed.

#[local] Instance same_train_metrics_preorder : PreOrder same_train_metrics.
Proof.
  split; [by intros w|]. intros x y z H1 H2. unfold same_train_metrics in *.
  congruence.
Qed.

Lemma metrics_frame_trainer (t' : Trainer) w :
  length (train_metrics t') = length (train_metrics (trainer w)) →
  val_metrics t' = val_metrics (trainer w) →
  task_prefix t' = task_prefix (trainer w) →
  metrics_frame w (set_trainer t' w).
Proof.
  intros. repeat split; [done..|]. intros _. exists []. cbn. by rewrite app_nil_r.
Qed.

Lemma metrics_frame_emit e w :
  (train_metrics (trainer w) = [] →
   ¬ metric_event ("Train" +:+ capitalize (task_prefix (trainer w))) e) →
  metrics_frame w (set_trace (trace w ++ [e]) w).
Proof.
  intros He. repeat split. intros Hnil. exists [e]. split; [done|].
  apply Forall_singleton. by apply He.
Qed.

Lemma metrics_frame_fs files w : metrics_frame w (set_fs files w).
Proof. repeat split. intros _. exists []. cbn. by rewrite app_nil_r. Qed.

Lemma metrics_frame_grad w g : metrics_frame w (set_grad_mode g w).
Proof. repeat split. intros _. exists []. cbn. by rewrite app_nil_r. Qed.

Lemma metrics_frame_after_forward called argss w :
  length argss = length (train_metrics (trainer w)) →
  metrics_frame w (after_forward false called argss w).
Proof.
  intros Hlen. repeat split.
  - cbn. rewrite length_zip_with. lia.
  - intros Hnil. eexists. split; [reflexivity|]. cbn. rewrite Hnil. cbn.
    apply Forall_cons. split; [by intros []|].
    rewrite app_nil_r. apply Forall_fmap, Forall_true. by intros ? [].
Qed.

Lemma losses_tag_no_metric log_prefix (loss_name : string) :
  ¬ ∃ name, log_prefix +:+ "Losses/" +:+ loss_name
            = log_prefix +:+ "Metrics/epoch_" +:+ name.
Proof. intros [name Heq]. apply (inj (String.app log_prefix)) in Heq. discriminate. Qed.

Lemma states_tag_no_metric log_prefix :
  ¬ ∃ name, log_prefix +:+ "States/learning_rate"
            = log_prefix +:+ "Metrics/epoch_" +:+ name.
Proof. intros [name Heq]. apply (inj (String.app log_prefix)) in Heq. discriminate. Qed.

(** Solves the side conditions of [metrics_frame]: an event is no metric
    event, or it is made for a metric of an empty list. *)
Ltac metrics_side :=
  try apply metrics_frame_grad;
  try apply metrics_frame_fs;
  try (apply metrics_frame_trainer; cbn; by rewrite ?length_fmap);
  try (by apply metrics_frame_after_forward);
  try (apply metrics_frame_emit; intros Hnil;
       repeat match goal with
              | H : metrics_frame _ _ |- _ => destruct H as (? & _ & ? & _)
              end;
       first
         [ by intros []
         | exfalso;
           match goal with
           | H : ?x ∈ train_metrics (trainer ?w0) |- _ =>
               apply (f_equal length) in Hnil; cbn in Hnil;
               assert (train_metrics (trainer w0) = []) as Hnil0
                 by (apply nil_length_inv; lia);
               rewrite Hnil0 in H; by apply elem_of_nil in H
           end
         | match goal with
           | |- ¬ metric_event (?p +:+ capitalize ?a) (EvAddScalar ((?p' +:+ capitalize ?b) +:+ _) _ _ _) =>
               replace b with a by congruence;
               first [apply losses_tag_no_metric | apply states_tag_no_metric]
           end ]).

Lemma frame_metrics_training_loop epoch i batches st w w0 :
  metrics_frame w0 w →
  frame_at metrics_frame
    (training_loop epoch ("Train" +:+ capitalize (task_prefix (trainer w0))) i batches st) w.
Proof.
  revert i st w. induction batches as [|b batches IH]; intros i st w Hw0;
    cbn [training_loop].
  - frame_go.
  - apply frame_seq; [tc_solve| |intros ? ? _ ?; apply IH; by etrans].
    unfold training_batch. frame_go; metrics_side.
Qed.

#[local] Hint Resolve frame_metrics_training_loop : frames.

Lemma frame_metrics_training epoch w :
  frame_at metrics_frame (training epoch) w.
Proof.
  unfold training. frame_go; metrics_side.
  apply frame_metrics_training_loop.
  repeat match goal with
         | H : metrics_frame ?a ?b |- metrics_frame ?a ?c =>
             first [exact H | transitivity b; [exact H|]]
         end.
Qed.

(** ** The training metrics are never assigned *)

Ltac same_side := by cbn.

Lemma frame_same_validation_loop batches st w :
  frame_at same_train_metrics (validation_loop batches st) w.
Proof.
  revert st w. induction batches as [|b batches IH]; intros st w; cbn [validation_loop].
  - frame_go.
  - apply frame_seq; [tc_solve| |intros ? ? _ _; apply IH].
    unfold validation_batch. frame_go; same_side.
Qed.

#[local] Hint Resolve frame_same_validation_loop : frames.

Lemma frame_same_validation epoch w :
  frame_at same_train_metrics (validation epoch) w.
Proof. unfold validation. frame_go; same_side. Qed.

#[local] Instance same_metrics_preorder : PreOrder same_metrics.
Proof.
  split; [by intros w|]. intros x y z [??] [??]. split; congruence.
Qed.

Lemma frame_same_load_weights w : frame_at same_metrics _load_weights w.
Proof.
  unfold _load_weights, load_explicit_weights, resume_experiment.
  frame_go; same_side.
Qed.

Lemma init_metrics a files w :
  init a files = Ok w →
  train_metrics (trainer w) = [] ∧
  val_metrics (trainer w)
    = default [] (a_metrics a) ++ default [] (a_additional_val_metrics a).
Proof.
  unfold init. destruct (_load_weights _) as [[[] w']|] eqn:Hload; [|discriminate].
  intros [= <-]. by apply frame_same_load_weights in Hload as [-> ->].
Qed.

Lemma reachable_train_metrics w : reachable w → train_metrics (trainer w) = [].
Proof.
  induction 1 as [a files w Hinit
                 |w epoch w' _ IH Hrun
                 |w epoch w' _ IH Hrun
                 |w b validation r w' _ IH Hrun
                 |w name total ll validation out bd r w' _ IH Hrun
                 |w bd out step pre w' _ IH Hrun
                 |w w' _ IH Hrun].
  - by apply init_metrics in Hinit as [? _].
  - apply frame_metrics_training in Hrun as (Hlen & _).
    apply nil_length_inv. by rewrite Hlen, IH.
  - apply frame_same_validation in Hrun. by rewrite Hrun.
  - destruct r as [[[loss logs] bd] out].
    apply batch_forward_ok in Hrun as (called & argss & _ & Hm & ->).
    apply mapM_result_length in Hm.
    destruct validation; cbn in *; [done|]. rewrite IH in *.
    by destruct argss.
  - revert Hrun. rewrite add_loss_run.
    destruct (term_value _ _ _ _) as [[x|]|]; by intros [= _ <-].
  - assert (Hf : frame_at same_train_metrics (save_visualization bd out step pre) w)
      by (frame_go; same_side).
    apply Hf in Hrun. by rewrite Hrun.
  - apply frame_same_load_weights in Hrun as [Hrun _]. by rewrite Hrun.
Qed.

(** ** The loss of a step as a sum *)

Lemma batch_forward_sum b validation w loss ll bd out w' :
  batch_forward b validation w = Ok ((loss, ll, bd, out), w') →
  let cfg := mode_cfg validation (trainer w) in
  loss = weighted_sum cfg ll s_zero (enabled_terms cfg validation) ∧
  (∀ name, name ∈ enabled_terms cfg validation →
     ∃ v, term_value cfg name out bd = Ok (Some v) ∧ ll !! name = Some [v]) ∧
  (∀ name, name ∉ enabled_terms cfg validation → ll !! name = None).
Proof.
  intros (called & argss & Hf & _ & _)%batch_forward_ok cfg.
  apply forward_value_ok in Hf as (_ & _ & Hl).
  apply losses_value_spec in Hl as (Hcalled & Hin & Hout & Hsum);
    [|apply term_names_NoDup|intros; apply lookup_empty].
  fold cfg in Hcalled, Hin, Hsum. unfold enabled_terms. rewrite <- Hcalled.
  repeat split; [done|done|].
  intros name Hname. by rewrite (Hout name Hname), lookup_empty.
Qed.


(** ** The loss of a step *)

(** C1. The loss that [batch_forward] returns is the sum, over the terms
    enabled for the mode, of the configured weight times the value that the
    log mapping records for the term, which is the mean of what the term
    returned on the batch; with no enabled term it is the initial [0.0].
    The sum starts from [0.0] and runs in the order of the calls. *)
Theorem batch_forward_weighted_sum b validation w loss ll bd out w' :
  batch_forward b validation w = Ok ((loss, ll, bd, out), w') →
  let cfg := mode_cfg validation (trainer w) in
  loss = weighted_sum cfg ll s_zero (enabled_terms cfg validation) ∧
  (∀ name, name ∈ enabled_terms cfg validation →
     ∃ v, term_value cfg name out bd = Ok (Some v) ∧ ll !! name = Some [v]) ∧
  (∀ name, name ∉ enabled_terms cfg validation → ll !! name = None) ∧
  (enabled_terms cfg validation = [] → loss = s_zero).
Proof.
  intros Hrun cfg.
  destruct (batch_forward_sum _ _ _ _ _ _ _ _ Hrun) as (Hsum & Hin & Hout).
  fold cfg in Hsum, Hin, Hout. repeat split; [done..|].
  intros Hnil. by rewrite Hsum, Hnil.
Qed.

(** C2. For a term that is absent from the configuration of the mode, or
    whose configured weight is not positive, [add_loss] returns the running
    total and the log mapping as they are and leaves the world as it is:
    no call of the term is recorded. *)
Theorem add_loss_disabled name total ll validation out bd w :
  mode_cfg validation (trainer w) !! name = None ∨
  (∃ wt, mode_cfg validation (trainer w) !! (name +:+ "_weight") = Some (CfgWeight wt) ∧
         s_ltb s_zero wt = false) →
  add_loss name total ll validation out bd w = Ok ((total, ll), w).
Proof.
  intros Hoff. rewrite add_loss_run. unfold term_value.
  destruct Hoff as [-> | (wt & -> & Hwt)]; [done|].
  destruct (_ !! name); [|done]. simpl. by rewrite Hwt.
Qed.

(** C6. In validation mode [batch_forward] never calls the contrastive
    term, whatever the validation configuration says: the log mapping has
    no entry for it, no call of it is recorded, and the loss is the sum
    over the five other terms. In training mode the term is called, logged
    and part of the sum as soon as it is enabled. *)
Theorem contrastive_only_in_training b validation w loss ll bd out w' :
  batch_forward b validation w = Ok ((loss, ll, bd, out), w') →
  let cfg := mode_cfg validation (trainer w) in
  ∃ events, trace w' = trace w ++ events ∧
  if validation then
    ll !! "contrastive_loss" = None ∧
    (∀ grad, EvCriterion grad "contrastive_loss" ∉ events) ∧
    loss = weighted_sum cfg ll s_zero
             (filter (λ name, enabled cfg name = true)
                ["pixel_loss"; "low_loss"; "color_dis_loss"; "coord_dis_loss";
                 "sparse_loss"])
  else
    enabled cfg "contrastive_loss" = true →
    (∃ v, term_value cfg "contrastive_loss" out bd = Ok (Some v) ∧
          ll !! "contrastive_loss" = Some [v]) ∧
    EvCriterion true "contrastive_loss" ∈ events ∧
    "contrastive_loss" ∈ enabled_terms cfg validation ∧
    loss = weighted_sum cfg ll s_zero (enabled_terms cfg validation).
Proof.
  intros Hrun cfg.
  destruct (batch_forward_sum _ _ _ _ _ _ _ _ Hrun) as (Hsum & Hin & Hout).
  fold cfg in Hsum, Hin, Hout.
  apply batch_forward_ok in Hrun as (called & argss & Hf & _ & ->).
  apply forward_value_ok in Hf as (_ & _ & Hl).
  apply losses_value_spec in Hl as (Hcalled & _);
    [|apply term_names_NoDup|intros; apply lookup_empty].
  fold cfg in Hcalled. eexists. split; [reflexivity|].
  destruct validation.
  - assert (Hnot : "contrastive_loss" ∉ enabled_terms cfg true).
    { unfold enabled_terms. intros [_ Hn]%list_elem_of_filter. revert Hn.
      apply (bool_decide_unpack _). by vm_compute. }
    repeat split; [by apply Hout| |done].
    intros grad [H|[H|H]%elem_of_app]%elem_of_cons; [discriminate H| |].
    + apply list_elem_of_fmap in H as (n & Heq & Hn). injection Heq as _ <-.
      apply Hnot. unfold enabled_terms. by rewrite <- Hcalled.
    + apply list_elem_of_fmap in H as (m & Heq & _). discriminate Heq.
  - intros Hon.
    assert (Hyes : "contrastive_loss" ∈ enabled_terms cfg false).
    { unfold enabled_terms. apply list_elem_of_filter. split; [done|].
      apply (bool_decide_unpack _). by vm_compute. }
    repeat split; [by apply Hin| |done|done].
    apply elem_of_cons. right. apply elem_of_app. left.
    apply list_elem_of_fmap. exists "contrastive_loss". split; [done|].
    unfold enabled_terms in Hyes. by rewrite Hcalled.
Qed.

(** C9. The batch that [batch_forward] returns binds every field of the
    model output whose name does not contain ['image'] to the value the
    model gave it; an output field whose name contains ['image'] is not
    merged, and a batch field that no merged output overwrites keeps its
    value, moved to the device when it is a tensor. *)
Theorem batch_forward_merges_outputs b validation w loss ll bd out w' :
  batch_forward b validation w = Ok ((loss, ll, bd, out), w') →
  (∃ images images_fullres masks masks_fullres,
     (to_device <$> b) !! "images" = Some images ∧
     (to_device <$> b) !! "images_fullres" = Some images_fullres ∧
     (to_device <$> b) !! "masks" = Some masks ∧
     (to_device <$> b) !! "masks_fullres" = Some masks_fullres ∧
     net_forward (net (trainer w)) (negb validation)
                 images images_fullres masks masks_fullres = Ok out) ∧
  (∀ k v, out !! k = Some v → str_in "image" k = false → bd !! k = Some v) ∧
  (∀ k, str_in "image" k = true → bd !! k = to_device <$> b !! k) ∧
  (∀ k, out !! k = None → bd !! k = to_device <$> b !! k).
Proof.
  intros (called & argss & Hf & _ & _)%batch_forward_ok.
  apply forward_value_ok in Hf as (Hnet & -> & _).
  split; [exact Hnet|]. repeat split.
  - intros k v Hk Himg. by rewrite merge_outputs_lookup, Hk, Himg.
  - intros k Himg. rewrite merge_outputs_lookup, Himg, lookup_fmap.
    by destruct (out !! k).
  - intros k Hk. by rewrite merge_outputs_lookup, Hk, lookup_fmap.
Qed.

(** ** The frame of a validation step *)

(** C7. A call of [batch_forward] in validation mode changes neither the
    network nor the optimizer nor the scheduler: of the trainer only the
    validation metrics change, the files stay, and every call it makes (the
    forward pass, loss terms, metric updates) is made with gradient
    tracking off, none of them on the optimizer. Repeated on the same batch
    it returns the same loss, logs, batch and output, makes the same calls
    and feeds the metrics the same arguments. *)
Theorem validation_step_frame b w r w' :
  batch_forward b true w = Ok (r, w') →
  net (trainer w') = net (trainer w) ∧
  optim (trainer w') = optim (trainer w) ∧
  lr_scheduler (trainer w') = lr_scheduler (trainer w) ∧
  trainer w' = set_val_metrics (val_metrics (trainer w')) (trainer w) ∧
  fs w' = fs w ∧
  grad_mode w' = grad_mode w ∧
  ∃ events argss,
    trace w' = trace w ++ events ∧
    Forall no_grad_event events ∧
    val_metrics (trainer w') = zip_with metric_update (val_metrics (trainer w)) argss ∧
    ∃ w'',
      batch_forward b true w' = Ok (r, w'') ∧
      trace w'' = trace w' ++ events ∧
      val_metrics (trainer w'') = zip_with metric_update (val_metrics (trainer w')) argss.
Proof.
  destruct r as [[[loss ll] bd] out].
  intros (called & argss & Hf & Hm & ->)%batch_forward_ok.
  pose proof (mapM_result_length _ _ _ Hm) as Hlen. cbn [mode_metrics] in Hm, Hlen.
  repeat split; try reflexivity.
  eexists _, argss. split; [reflexivity|]. split; [|split; [reflexivity|]].
  { apply Forall_cons. split; [exact I|]. apply Forall_app. split.
    - apply Forall_fmap, Forall_true. intros ?; exact I.
    - apply Forall_fmap, Forall_true. intros ?; exact I. }
  eexists. rewrite batch_forward_run, forward_value_after_forward, Hf.
  cbn [after_forward mode_metrics set_mode_metrics trainer set_val_metrics val_metrics].
  rewrite mapM_metric_args_update, Hm by done.
  split; [reflexivity|]. split; [|reflexivity].
  unfold after_forward at 1.
  cbn [trace trainer after_forward mode_metrics set_mode_metrics
       set_val_metrics val_metrics negb].
  by rewrite metric_names_update.
Qed.

(** ** The best checkpoint *)

(** C3. Let [<] on scores be irreflexive and transitive. After a session
    that starts with [best_psnr = 0], [best_psnr] is the running best of the
    values of the first validation metric, which is a maximum of [0] and
    those values. A [validation] on the primary process replaces the best
    checkpoint exactly when the new value is strictly above the previous
    best: then the old file is deleted, a checkpoint named by the epoch and
    the score is saved and its path recorded; otherwise the score, the path
    and the files stay, as when 25.0 follows 30.0. *)
Theorem best_checkpoint_selection
    (Hirr : ∀ x, s_ltb x x = false)
    (Htrans : ∀ x y z, s_ltb x y = true → s_ltb y z = true → s_ltb x z = true) :
  (∀ w scores w',
     session w scores w' →
     best_psnr (trainer w) = s_zero →
     best_psnr (trainer w') = running_best s_zero scores ∧
     is_max (best_psnr (trainer w')) (s_zero :: scores)) ∧
  (∀ epoch w w',
     local_rank (trainer w) = 0 →
     validation epoch w = Ok ((), w') →
     ∃ metric0 metrics,
       val_metrics (trainer w') = metric0 :: metrics ∧
       let psnr := get_epoch_value metric0 in
       let old := best_checkpoint_path (trainer w) in
       let new := CHECKPOINTS_PATH (cfg (trainer w)) +:+ "/" +:+
                  checkpoint_name (fmt_0d 3 epoch +:+ "_" +:+ s_fmt3 psnr) epoch in
       if s_ltb (best_psnr (trainer w)) psnr then
         best_psnr (trainer w') = psnr ∧
         best_checkpoint_path (trainer w') = new ∧
         (∃ b, fs w' = <[new := FCheckpoint b]> (delete old (fs w)) ∧
               b_epoch b = Some epoch)
       else
         best_psnr (trainer w') = best_psnr (trainer w) ∧
         best_checkpoint_path (trainer w') = old ∧
         fs w' = fs w).
Proof.
  split.
  - intros w scores w' Hs H0. pose proof (session_running_best _ _ _ Hs) as Hbest.
    rewrite H0 in Hbest. split; [done|]. rewrite Hbest.
    apply (running_best_is_max Hirr Htrans s_zero [s_zero] scores).
    split; [by left|]. by intros x ->%list_elem_of_singleton.
  - intros epoch w w' Hrank Hrun.
    destruct (validation_step _ _ _ Hrank Hrun) as (m & ms & Hms & _ & Hstep).
    by exists m, ms.
Qed.

(** ** Resuming an experiment *)


(** C5 as the code has it. When a new best score is reached and the file
    recorded as the best checkpoint is no longer on disk, the selection at
    the end of [validation] does not raise: the existence check skips the
    deletion, the new best checkpoint is saved and its path and score are
    recorded. *)
Theorem missing_best_file_is_skipped epoch w metric0 metrics :
  val_metrics (trainer w) = metric0 :: metrics →
  s_ltb (best_psnr (trainer w)) (get_epoch_value metric0) = true →
  fs w !! best_checkpoint_path (trainer w) = None →
  let psnr := get_epoch_value metric0 in
  let new := best_path epoch psnr (trainer w) in
  ∃ w', select_best epoch w = Ok ((), w') ∧
        best_psnr (trainer w') = psnr ∧
        best_checkpoint_path (trainer w') = new ∧
        fs w' = <[new := checkpoint_of (trainer w) epoch]> (fs w) ∧
        trace w' = trace w ++ [EvSaveCheckpoint new].
Proof.
  intros Hms Hlt Hgone psnr new. rewrite select_best_run. unfold selected.
  rewrite Hms, Hlt. eexists. split; [reflexivity|]. cbn.
  rewrite Hgone, delete_id by done.
  rewrite bool_decide_eq_false_2 by (by intros [? ?]). done.
Qed.

(** ** The training metrics *)

(** C10. The constructor leaves the list of training metrics empty whatever
    metrics it is given, which all go to the validation metrics, and no
    method assigns it: it is empty in every reachable world. So [training]
    resets, updates and logs no metric, and [batch_forward] in training
    mode updates none. *)
Theorem train_metrics_stay_empty :
  (∀ a files w,
     init a files = Ok w →
     train_metrics (trainer w) = [] ∧
     val_metrics (trainer w)
       = default [] (a_metrics a) ++ default [] (a_additional_val_metrics a)) ∧
  (∀ w, reachable w → train_metrics (trainer w) = []) ∧
  (∀ w epoch w',
     reachable w →
     training epoch w = Ok ((), w') →
     val_metrics (trainer w') = val_metrics (trainer w) ∧
     no_metric_events ("Train" +:+ capitalize (task_prefix (trainer w))) w w') ∧
  (∀ w b r w',
     reachable w →
     batch_forward b false w = Ok (r, w') →
     train_metrics (trainer w') = [] ∧
     val_metrics (trainer w') = val_metrics (trainer w) ∧
     ∃ events, trace w' = trace w ++ events ∧
               ∀ grad name, EvMetricUpdate grad name ∉ events).
Proof.
  split; [exact init_metrics|]. split; [exact reachable_train_metrics|]. split.
  - intros w epoch w' Hw Hrun. apply reachable_train_metrics in Hw.
    apply frame_metrics_training in Hrun as (_ & Hval & _ & Hev). auto.
  - intros w b [[[loss ll] bd] out] w' Hw Hrun.
    pose proof (reachable_batch_forward _ _ _ _ _ Hw Hrun) as Hw'.
    apply reachable_train_metrics in Hw, Hw'. split; [done|].
    apply batch_forward_ok in Hrun as (called & argss & _ & _ & ->).
    split; [done|]. eexists. split; [reflexivity|]. cbn. rewrite Hw. cbn.
    intros grad name [H|[H|H]%elem_of_app]%elem_of_cons; [discriminate H| |].
    + apply list_elem_of_fmap in H as (n & Heq & _). discriminate Heq.
    + by apply elem_of_nil in H.
Qed.

(** ** Missing fields *)

Lemma mapM_getitem_missing {A} (d : gmap string A) keys key :
  first_missing d keys = Some key →
  mapM (getitem d) keys = Raise (KeyError key).
Proof.
  induction keys as [|k keys IH]; [discriminate|]. cbn [first_missing mapM].
  rewrite result_bind_run. unfold getitem at 1. destruct (d !! k) as [v|].
  - intros Hkey. by rewrite result_bind_run, (IH Hkey).
  - by intros [= ->].
Qed.

Lemma mapM_getitem_present {A} (d : gmap string A) keys :
  first_missing d keys = None → ∃ vs, mapM (getitem d) keys = Ok vs.
Proof.
  induction keys as [|k keys IH]; [by exists []|]. cbn [first_missing mapM].
  rewrite result_bind_run. unfold getitem at 1.
  destruct (d !! k) as [v|]; [|discriminate].
  intros [vs Hvs]%IH. exists (v :: vs). by rewrite result_bind_run, Hvs.
Qed.

(** X1. [batch_forward] reads the four input fields of the batch in the
    order images, images_fullres, masks, masks_fullres: when the batch
    lacks one of them the call raises a [KeyError] for the first one it
    lacks, in both modes. *)
Theorem batch_forward_missing_input b validation w key :
  first_missing b input_fields = Some key →
  batch_forward b validation w = Raise (KeyError key).
Proof.
  intros Hkey. rewrite batch_forward_run. unfold forward_value, getitem.
  revert Hkey. unfold input_fields. cbn [first_missing].
  rewrite !lookup_fmap.
  repeat (destruct (b !! _) as [?|]; cbn [fmap option_fmap option_map];
          [rewrite result_bind_run|by intros [= ->]]).
  discriminate.
Qed.

(** X2. When a term is enabled for the mode, [add_loss] looks up the
    ground-truth fields of the term in the batch by index: it raises a
    [KeyError] for the first one that the batch lacks, before the term is
    called. *)
Theorem add_loss_missing_target name total ll validation out bd w c wt key :
  mode_cfg validation (trainer w) !! name = Some (CfgCriterion c) →
  mode_cfg validation (trainer w) !! (name +:+ "_weight") = Some (CfgWeight wt) →
  s_ltb s_zero wt = true →
  first_missing bd (c_gt_outputs c) = Some key →
  add_loss name total ll validation out bd w = Raise (KeyError key).
Proof.
  intros Hc Hwt Hpos Hkey. rewrite add_loss_run. unfold term_value.
  rewrite Hc, Hwt. cbn [default]. simpl. rewrite Hpos.
  by rewrite (mapM_getitem_missing _ _ _ Hkey).
Qed.

(** X3. When a term is enabled and returns, [add_loss] adds the weight
    times the mean of what the term returned to the running total, appends
    that mean to the log entry of the term, leaves the other log entries as
    they are, and records one call of the term made under the current
    gradient switch. A predicted field that the output lacks is passed as
    [None]; it does not raise by itself. *)
Theorem add_loss_enabled name total ll validation out bd w c wt gts loss :
  mode_cfg validation (trainer w) !! name = Some (CfgCriterion c) →
  mode_cfg validation (trainer w) !! (name +:+ "_weight") = Some (CfgWeight wt) →
  s_ltb s_zero wt = true →
  mapM (getitem bd) (c_gt_outputs c) = Ok gts →
  c_call c (((λ x, out !! x) <$> c_pred_outputs c) ++ (Some <$> gts)) = Ok loss →
  ∃ ll' w',
    add_loss name total ll validation out bd w
      = Ok ((s_add total (s_mul wt (t_mean loss)), ll'), w') ∧
    ll' !! name = Some (default [] (ll !! name) ++ [t_mean loss]) ∧
    (∀ other, other ≠ name → ll' !! other = ll !! other) ∧
    trace w' = trace w ++ [EvCriterion (grad_mode w) name] ∧
    trainer w' = trainer w ∧ fs w' = fs w ∧ grad_mode w' = grad_mode w.
Proof.
  intros Hc Hwt Hpos Hgts Hcall. rewrite add_loss_run. unfold term_value, weight_of.
  rewrite Hc, Hwt. simpl. rewrite Hpos, Hgts. simpl. rewrite Hcall. simpl.
  eexists _, _. split; [reflexivity|]. unfold log_append.
  split; [by rewrite lookup_insert_eq|].
  split; [intros other Hother; by rewrite lookup_insert_ne|done].
Qed.

(** ** Empty loaders *)

Lemma for_each_emit_run {A} (l : list A) (f : A → event) w :
  for_each l (λ x, emit (f x)) w = Ok ((), set_trace (trace w ++ (f <$> l)) w).
Proof.
  revert w. induction l as [|x l IH]; intros w.
  - cbn. by rewrite app_nil_r; destruct w.
  - cbn [for_each]. py_run. rewrite IH. cbn. by rewrite <- app_assoc.
Qed.

(** X4. On the primary process, [training] with a loader that yields no
    batch raises [ZeroDivisionError]: the summary line divides the running
    sums by the length of the loader. *)
Theorem training_empty_loader epoch w :
  train_data (trainer w) = [] →
  local_rank (trainer w) = 0 →
  training epoch w = Raise ZeroDivisionError.
Proof.
  intros Hdata Hrank. unfold training, init_sw. py_run.
  destruct (negb (sw (trainer w)) && _); py_run;
    cbn [trainer set_trainer multi_gpu cfg set_sw];
    (destruct (multi_gpu (cfg (trainer w))); py_run;
     rewrite for_each_emit_run; py_run;
     cbn [trainer set_trainer set_trace train_data set_net set_train_metrics set_sw];
     rewrite Hdata; cbn [training_loop]; py_run;
     cbn [trainer set_trainer set_trace local_rank set_net set_train_metrics set_sw];
     rewrite Hrank, bool_decide_eq_true_2 by done; rewrite bind_run;
     cbn [train_data set_net set_train_metrics set_sw]; rewrite Hdata;
     reflexivity).
Qed.

(** X5. On the primary process, [validation] with a loader that yields no
    batch raises [ZeroDivisionError]: the mean loss is the running loss
    over the number of batches seen, which is still zero. *)
Theorem validation_empty_loader epoch w :
  val_data (trainer w) = [] →
  local_rank (trainer w) = 0 →
  validation epoch w = Raise ZeroDivisionError.
Proof.
  intros Hdata Hrank. unfold validation, init_sw. py_run.
  destruct (negb (sw (trainer w)) && _); py_run;
    cbn [trainer set_trainer set_sw];
    (rewrite for_each_emit_run; py_run;
     cbn [trainer set_trainer set_trace val_data set_net set_val_metrics set_sw];
     rewrite Hdata; cbn [validation_loop]; py_run;
     cbn [trainer set_trainer set_trace local_rank set_net set_val_metrics set_sw];
     rewrite Hrank, bool_decide_eq_true_2 by done; reflexivity).
Qed.

(** ** A step needs an enabled term *)

Lemma batch_forward_no_term b validation w loss ll bd out w' :
  enabled_terms (mode_cfg validation (trainer w)) validation = [] →
  batch_forward b validation w = Ok ((loss, ll, bd, out), w') →
  ll = ∅.
Proof.
  intros Hnone Hrun. apply batch_forward_sum in Hrun as (_ & _ & Hout).
  apply map_empty. intros name. apply Hout. rewrite Hnone. apply not_elem_of_nil.
Qed.

Lemma training_batch_no_term epoch log_prefix i b st w :
  enabled_terms (loss_cfg (trainer w)) false = [] →
  is_ok (training_batch epoch log_prefix i b st w) = false.
Proof.
  intros Hnone. unfold training_batch. py_run.
  destruct (batch_forward b false w) as [[[[[loss ll] bd] out] w1]|] eqn:Hbf;
    [|reflexivity].
  apply batch_forward_no_term in Hbf as ->; [|exact Hnone].
  py_run. unfold as_tensor. by rewrite bool_decide_eq_true_2.
Qed.

Lemma validation_batch_no_term b st w :
  enabled_terms (val_loss_cfg (trainer w)) true = [] →
  is_ok (validation_batch b st w) = false.
Proof.
  intros Hnone. unfold validation_batch. py_run.
  destruct (batch_forward b true w) as [[[[[loss ll] bd] out] w1]|] eqn:Hbf;
    [|reflexivity].
  apply batch_forward_no_term in Hbf as ->; [|exact Hnone].
  py_run. unfold as_tensor. by rewrite bool_decide_eq_true_2.
Qed.

(** X6. [training] needs a loss term that is enabled in the training
    configuration: with none, the loss of the first batch is still the
    Python float [0.0], which has no [backward], and the epoch does not
    return. *)
Theorem training_needs_a_term epoch w b rest :
  train_data (trainer w) = b :: rest →
  enabled_terms (loss_cfg (trainer w)) false = [] →
  is_ok (training epoch w) = false.
Proof.
  intros Hdata Hnone. unfold training, init_sw. py_run.
  destruct (negb (sw (trainer w)) && _); py_run;
    cbn [trainer set_trainer multi_gpu cfg set_sw];
    (destruct (multi_gpu (cfg (trainer w))); py_run;
     rewrite for_each_emit_run; py_run;
     cbn [trainer set_trainer set_trace train_data set_net set_train_metrics set_sw];
     rewrite Hdata; cbn [training_loop]; py_run;
     match goal with
     | |- context [training_batch ?e ?p ?i ?b ?st ?w1] =>
         pose proof (training_batch_no_term e p i b st w1 Hnone) as Hstep;
         destruct (training_batch e p i b st w1); [discriminate Hstep|reflexivity]
     end).
Qed.

(** X7. [validation] needs a loss term that is enabled in the validation
    configuration: with none, the loss of the first batch is still the
    Python float [0.0], which has no [item], and the call does not
    return. *)
Theorem validation_needs_a_term epoch w b rest :
  val_data (trainer w) = b :: rest →
  enabled_terms (val_loss_cfg (trainer w)) true = [] →
  is_ok (validation epoch w) = false.
Proof.
  intros Hdata Hnone. unfold validation, init_sw. py_run.
  destruct (negb (sw (trainer w)) && _); py_run;
    cbn [trainer set_trainer set_sw];
    (rewrite for_each_emit_run; py_run;
     cbn [trainer set_trainer set_trace val_data set_net set_val_metrics set_sw];
     rewrite Hdata; cbn [validation_loop]; py_run;
     match goal with
     | |- context [validation_batch ?b ?st ?w1] =>
         pose proof (validation_batch_no_term b st w1 Hnone) as Hstep;
         destruct (validation_batch b st w1); [discriminate Hstep|reflexivity]
     end).
Qed.

(** ** Errors of the constructor and of [_load_weights] *)

(** X8. When the configuration names a weights file that is not on the
    disk, [_load_weights] raises [RuntimeError], and so does the
    constructor, which calls it last. *)
Theorem missing_weights_file w a files path :
  (weights (cfg (trainer w)) = Some path → fs w !! path = None →
   _load_weights w = Raise RuntimeError) ∧
  (weights (a_cfg a) = Some path → files !! path = None →
   init a files = Raise RuntimeError).
Proof.
  split.
  - intros Hw Hnone. unfold _load_weights, load_explicit_weights, read_file.
    py_run. by rewrite Hw, bind_run, Hnone.
  - intros Hw Hnone. unfold init, _load_weights, load_explicit_weights, read_file.
    py_run. cbn [trainer cfg fs]. rewrite Hw, bind_run. cbn [fs].
    by rewrite Hnone.
Qed.

(** X9. Resuming an experiment asserts that exactly one checkpoint matches
    the resume prefix: with none, or with several, [_load_weights] raises
    [AssertionError] and loads nothing. *)
Theorem resume_needs_one_checkpoint w :
  weights (cfg (trainer w)) = None →
  is_Some (resume_exp (cfg (trainer w))) →
  length (resume_candidates w) ≠ 1 →
  _load_weights w = Raise AssertionError.
Proof.
  intros Hw [exp Hexp] Hlen.
  unfold _load_weights, load_explicit_weights, resume_experiment. py_run.
  rewrite Hw. py_run. rewrite Hexp, bind_run. unfold glob_checkpoints at 1.
  fold (resume_candidates w).
  destruct (resume_candidates w) as [|path [|??]]; [reflexivity| |reflexivity].
  by destruct Hlen.
Qed.

(** ** What the methods never assign *)


#[local] Instance same_settings_preorder : PreOrder same_settings.
Proof.
  split.
  - by intros w.
  - intros x y z H1 H2. unfold same_settings in *. destruct_and!.
    repeat split; congruence.
Qed.

#[local] Instance fixed_preorder : PreOrder fixed.
Proof.
  split.
  - by intros w.
  - intros x y z [? ?] [? ?]. split; [by etrans|congruence].
Qed.

Ltac fixed_side := by repeat split.

Lemma frame_fixed_batch_forward b validation w :
  frame_at fixed (batch_forward b validation) w.
Proof. apply frame_batch_forward. intros ? ? _. by destruct validation. Qed.

Lemma frame_fixed_save_visualization bd out step pre w :
  frame_at fixed (save_visualization bd out step pre) w.
Proof. frame_go; fixed_side. Qed.

Lemma frame_fixed_training_loop epoch log_prefix i batches st w :
  frame_at fixed (training_loop epoch log_prefix i batches st) w.
Proof.
  revert i st w. induction batches as [|b batches IH]; intros i st w;
    cbn [training_loop].
  - frame_go.
  - apply frame_seq; [tc_solve| |intros ? ? _ _; apply IH].
    unfold training_batch. frame_go; fixed_side.
Qed.

Lemma frame_fixed_validation_loop batches st w :
  frame_at fixed (validation_loop batches st) w.
Proof.
  revert st w. induction batches as [|b batches IH]; intros st w; cbn [validation_loop].
  - frame_go.
  - apply frame_seq; [tc_solve| |intros ? ? _ _; apply IH].
    unfold validation_batch. frame_go; fixed_side.
Qed.

#[local] Hint Resolve frame_fixed_training_loop frame_fixed_validation_loop : frames.

Lemma frame_fixed_training epoch w : frame_at fixed (training epoch) w.
Proof. unfold training. frame_go; fixed_side. Qed.

Lemma frame_fixed_validation epoch w : frame_at fixed (validation epoch) w.
Proof. unfold validation. frame_go; fixed_side. Qed.

Lemma frame_settings_load_weights w : frame_at same_settings _load_weights w.
Proof.
  unfold _load_weights, load_explicit_weights, resume_experiment.
  frame_go; fixed_side.
Qed.

Lemma load_weights_clears_path w w' :
  _load_weights w = Ok ((), w') → weights (cfg (trainer w')) = None.
Proof.
  assert (Hresume : ∀ w1, frame_at (λ x y, weights (cfg (trainer y)) = weights (cfg (trainer x)))
                             resume_experiment w1).
  { intros w1. unfold resume_experiment.
    assert (PreOrder (λ x y : World, weights (cfg (trainer y)) = weights (cfg (trainer x)))).
    { split; [by intros ?|]. intros x y z ? ?. congruence. }
    frame_go; done. }
  unfold _load_weights. intros ([] & w1 & Hload & Hrun)%bind_ok.
  apply Hresume in Hrun. rewrite Hrun. clear Hrun Hresume.
  unfold load_explicit_weights in Hload. py_inv Hload.
  destruct (weights (cfg (trainer w))) as [path|] eqn:Hw.
  - rewrite bind_run in Hload. unfold read_file at 1 in Hload.
    destruct (fs w !! path); [|discriminate]. py_inv Hload.
    by injection Hload as <-.
  - by injection Hload as <-.
Qed.

(** X10. No method assigns the loss configurations, the task prefix, the
    two intervals, the loaders, the rank or the learning rate, and only
    [_load_weights] touches the configuration object, whose weights path it
    leaves cleared. So in every reachable world the task prefix is the
    empty string of the constructor, the validation configuration is equal
    to the training one, of which it was copied, and the weights path is
    [None]. *)
Theorem settings_are_fixed :
  (∀ epoch w w', training epoch w = Ok ((), w') → fixed w w') ∧
  (∀ epoch w w', validation epoch w = Ok ((), w') → fixed w w') ∧
  (∀ b validation w r w', batch_forward b validation w = Ok (r, w') → fixed w w') ∧
  (∀ bd out step pre w w',
     save_visualization bd out step pre w = Ok ((), w') → fixed w w') ∧
  (∀ w w', _load_weights w = Ok ((), w') →
     same_settings w w' ∧ weights (cfg (trainer w')) = None) ∧
  (∀ w, reachable w →
     task_prefix (trainer w) = "" ∧
     val_loss_cfg (trainer w) = loss_cfg (trainer w) ∧
     weights (cfg (trainer w)) = None).
Proof.
  split; [intros epoch w w'; apply frame_fixed_training|].
  split; [intros epoch w w'; apply frame_fixed_validation|].
  split; [intros b validation w r w'; apply frame_fixed_batch_forward|].
  split; [intros bd out step pre w w'; apply frame_fixed_save_visualization|].
  split.
  { intros w w' Hrun. split; [by eapply frame_settings_load_weights|].
    by eapply load_weights_clears_path. }
  assert (Hkeep : ∀ w w', fixed w w' →
            task_prefix (trainer w) = "" ∧
            val_loss_cfg (trainer w) = loss_cfg (trainer w) ∧
            weights (cfg (trainer w)) = None →
            task_prefix (trainer w') = "" ∧
            val_loss_cfg (trainer w') = loss_cfg (trainer w') ∧
            weights (cfg (trainer w')) = None).
  { intros w w' [(Hl & Hv & Hp & _) Hc] (? & ? & ?). rewrite Hl, Hv, Hp, Hc. done. }
  induction 1 as [a files w Hinit
                 |w epoch w' _ IH Hrun
                 |w epoch w' _ IH Hrun
                 |w b validation r w' _ IH Hrun
                 |w name total ll validation out bd r w' _ IH Hrun
                 |w bd out step pre w' _ IH Hrun
                 |w w' _ IH Hrun].
  - unfold init in Hinit.
    destruct (_load_weights _) as [[[] w']|] eqn:Hload; [|discriminate].
    injection Hinit as <-.
    pose proof (load_weights_clears_path _ _ Hload) as Hnone.
    apply frame_settings_load_weights in Hload as (Hl & Hv & Hp & _).
    rewrite Hl, Hv, Hp. done.
  - eapply Hkeep; [|exact IH]. by eapply frame_fixed_training.
  - eapply Hkeep; [|exact IH]. by eapply frame_fixed_validation.
  - eapply Hkeep; [|exact IH]. by eapply frame_fixed_batch_forward.
  - revert Hrun. rewrite add_loss_run.
    destruct (term_value _ _ _ _) as [[x|]|]; by intros [= _ <-].
  - eapply Hkeep; [|exact IH]. by eapply frame_fixed_save_visualization.
  - pose proof (load_weights_clears_path _ _ Hrun) as Hnone.
    apply frame_settings_load_weights in Hrun as (Hl & Hv & Hp & _).
    rewrite Hl, Hv, Hp. by destruct IH as (? & ? & _).
Qed.

(** ** Processes other than the primary one *)

Lemma avoids_refl E w : avoids E w w.
Proof. exists []. by rewrite app_nil_r. Qed.

Lemma avoids_keep E w w' : trace w' = trace w → avoids E w w'.
Proof. intros Heq. exists []. by rewrite app_nil_r. Qed.

Lemma avoids_trans E x y z : avoids E x y → avoids E y z → avoids E x z.
Proof.
  intros (e1 & H1 & F1) (e2 & H2 & F2). exists (e1 ++ e2).
  rewrite H2, H1, <- app_assoc. split; [done|]. by apply Forall_app.
Qed.

Lemma avoids_emit (E : event → Prop) e w :
  ¬ E e → avoids E w (set_trace (trace w ++ [e]) w).
Proof. intros He. exists [e]. split; [done|]. by apply Forall_singleton. Qed.

Lemma avoids_after_forward (E : event → Prop) validation called argss w :
  (∀ g, ¬ E (EvForward g)) → (∀ g n, ¬ E (EvCriterion g n)) →
  (∀ g n, ¬ E (EvMetricUpdate g n)) →
  avoids E w (after_forward validation called argss w).
Proof.
  intros Hf Hc Hm. eexists. split; [reflexivity|].
  apply Forall_cons. split; [apply Hf|]. apply Forall_app. split.
  - apply Forall_fmap, Forall_true. intros ?. apply Hc.
  - apply Forall_fmap, Forall_true. intros ?. apply Hm.
Qed.

Lemma avoids_promote (E : event → Prop) epoch psnr w :
  (∀ p, ¬ E (EvRemove p)) → (∀ p, ¬ E (EvSaveCheckpoint p)) →
  avoids E w (promote epoch psnr w).
Proof.
  intros Hr Hs. eexists. split; [reflexivity|]. apply Forall_app. split.
  - destruct (bool_decide _); [apply Forall_singleton, Hr|apply Forall_nil_2].
  - apply Forall_singleton, Hs.
Qed.

#[local] Instance silent_preorder : PreOrder silent.
Proof.
  split.
  - intros w. repeat split. apply avoids_refl.
  - intros x y z (? & ? & ? & ? & ? & ?) (? & ? & ? & ? & ? & ?).
    repeat split; [congruence..|]. by eapply avoids_trans.
Qed.

(** Solves the side conditions of [silent]: a change of the world that
    writes nothing, or one that only the primary process makes. *)
Ltac silent_side :=
  intros;
  repeat match goal with
         | H : silent _ _ |- _ => destruct H as (? & _)
         | H : _ && _ = true |- _ => apply andb_prop in H as [? ?]
         | H : bool_decide (_ = _) = true |- _ => apply bool_decide_eq_true_1 in H
         end;
  first
    [ exfalso; cbn [trainer set_trainer set_trace set_fs set_grad_mode local_rank
                    set_net set_optim set_sw set_train_metrics set_val_metrics
                    set_lr_scheduler set_best_psnr set_best_checkpoint_path] in *;
      congruence
    | repeat split; try done;
      first [ by apply avoids_keep
            | apply avoids_emit; cbn; tauto
            | apply avoids_after_forward; cbn; intros; tauto ] ].

Lemma frame_silent_training_loop epoch log_prefix i batches st w :
  local_rank (trainer w) ≠ 0 →
  frame_at silent (training_loop epoch log_prefix i batches st) w.
Proof.
  revert i st w. induction batches as [|b batches IH]; intros i st w Hrank;
    cbn [training_loop].
  - frame_go.
  - apply frame_seq; [tc_solve| |intros ? ? _ [Hr _]; apply IH; by rewrite Hr].
    unfold training_batch. frame_go; silent_side.
Qed.

Lemma frame_silent_validation_loop batches st w :
  frame_at silent (validation_loop batches st) w.
Proof.
  revert st w. induction batches as [|b batches IH]; intros st w; cbn [validation_loop].
  - frame_go.
  - apply frame_seq; [tc_solve| |intros ? ? _ _; apply IH].
    unfold validation_batch. frame_go; silent_side.
Qed.

#[local] Hint Resolve frame_silent_validation_loop : frames.

(** X11. A process that is not the primary one writes nothing: when
    [training] or [validation] returns on it, the files, the best score and
    the path of the best checkpoint are as before, no summary writer was
    created, and none of the calls made wrote a scalar, a line of the text
    log, a checkpoint or an image. *)
Theorem non_primary_is_silent epoch w w' :
  local_rank (trainer w) ≠ 0 →
  (training epoch w = Ok ((), w') → silent w w') ∧
  (validation epoch w = Ok ((), w') → silent w w').
Proof.
  intros Hrank. split.
  - revert w'. generalize (). change (frame_at silent (training epoch) w).
    unfold training. frame_go; try silent_side.
    apply frame_silent_training_loop.
    repeat match goal with
           | H : silent _ _ |- _ => destruct H as (? & _)
           end.
    cbn [trainer set_trainer local_rank set_net set_train_metrics] in *. congruence.
  - revert w'. generalize (). change (frame_at silent (validation epoch) w).
    unfold validation. frame_go; silent_side.
Qed.

(** ** [validation] does not train *)

#[local] Instance evaluates_preorder : PreOrder evaluates.
Proof.
  split.
  - intros w. repeat split. apply avoids_refl.
  - intros x y z (? & ? & ? & ?) (? & ? & ? & ?).
    repeat split; [congruence..|]. by eapply avoids_trans.
Qed.

Ltac avoids_side :=
  intros; repeat split; try done;
  first [ by apply avoids_keep
        | apply avoids_emit; cbn; tauto
        | apply avoids_after_forward; cbn; intros; tauto
        | apply avoids_promote; cbn; intros; tauto ].

Lemma frame_evaluates_validation_loop batches st w :
  frame_at evaluates (validation_loop batches st) w.
Proof.
  revert st w. induction batches as [|b batches IH]; intros st w; cbn [validation_loop].
  - frame_go.
  - apply frame_seq; [tc_solve| |intros ? ? _ _; apply IH].
    unfold validation_batch. frame_go; avoids_side.
Qed.

#[local] Hint Resolve frame_evaluates_validation_loop : frames.


(** ** Image dumps *)

#[local] Instance dumps_nothing_preorder : PreOrder dumps_nothing.
Proof.
  split.
  - intros w. split; [done|apply avoids_refl].
  - intros x y z [? ?] [? ?]. split; [congruence|by eapply avoids_trans].
Qed.




(** ** The calls on the optimizer *)

Lemma optimizer_calls_app l1 l2 :
  optimizer_calls (l1 ++ l2) = optimizer_calls l1 ++ optimizer_calls l2.
Proof. apply omap_app. Qed.


Lemma called_keep w w' : trace w' = trace w → called [] w w'.
Proof. intros Heq. exists []. by rewrite app_nil_r. Qed.


Lemma called_app l1 l2 x y z : called l1 x y → called l2 y z → called (l1 ++ l2) x z.
Proof.
  intros (e1 & H1 & <-) (e2 & H2 & <-). exists (e1 ++ e2).
  by rewrite H2, H1, <- app_assoc, optimizer_calls_app.
Qed.



Lemma calls_app l1 l2 x y z : calls l1 x y → calls l2 y z → calls (l1 ++ l2) x z.
Proof.
  intros (? & ? & ?) (? & ? & ?). repeat split; [congruence..|].
  by eapply called_app.
Qed.

#[local] Instance calls_preorder : PreOrder (calls []).
Proof.
  split.
  - intros w. repeat split. by apply called_keep.
  - intros x y z. apply (calls_app [] []).
Qed.






(** ** [save_visualization] *)

(** X15. [save_visualization] first reads the fields images, target_images
    and masks of the batch, in this order, and raises [KeyError] for the
    first that is missing. When it returns, the output had the fields
    params and images, and the call wrote, in this order, the
    reconstruction panel, the full-resolution panel when the batch has
    full-resolution targets, and the parameter map, each under the
    visualization directory of the prefix with the global step on six
    digits in its name; it wrote nothing else and left the trainer as it
    was. *)
Theorem save_visualization_files bd out step pre w :
  (∀ key, first_missing bd ["images"; "target_images"; "masks"] = Some key →
          save_visualization bd out step pre w = Raise (KeyError key)) ∧
  (∀ w', save_visualization bd out step pre w = Ok ((), w') →
         let paths := image_path (trainer w) pre step <$> image_suffixes bd in
         first_missing bd ["images"; "target_images"; "masks"] = None ∧
         is_Some (out !! "params") ∧ is_Some (out !! "images") ∧
         trainer w' = trainer w ∧
         grad_mode w' = grad_mode w ∧
         trace w' = trace w ++ (EvImwrite <$> paths) ∧
         fs w' = foldl (λ files path, <[path := FImage]> files) (fs w) paths).
Proof.
  split.
  - intros key Hkey. unfold save_visualization, getitem. py_run.
    revert Hkey. cbn [first_missing].
    repeat (destruct (bd !! _) as [?|]; [cbn [lift]; py_run|by intros [= ->]]).
    discriminate.
  - intros w' Hrun. unfold save_visualization, image_suffixes in *.
    fold (image_path (trainer w) pre step "reconstruction") in Hrun.
    fold (image_path (trainer w) pre step "reconstruction_fr") in Hrun.
    fold (image_path (trainer w) pre step "params") in Hrun.
    unfold getitem in Hrun. cbn [first_missing].
    repeat first
      [ rewrite bind_run in Hrun
      | progress cbn [self emit write_file lift mret Py_ret] in Hrun
      | match type of Hrun with
        | context [bd !! ?k] =>
            lazymatch k with
            | "target_images_fullres" => fail
            | _ => destruct (bd !! k) eqn:?; [|discriminate Hrun]
            end
        | context [out !! ?k] => destruct (out !! k) eqn:?; [|discriminate Hrun]
        end ].
    destruct (bool_decide (is_Some (bd !! "target_images_fullres")));
      repeat first
        [ rewrite bind_run in Hrun
        | progress cbn [self emit write_file lift mret Py_ret] in Hrun
        | match type of Hrun with
          | context [bd !! ?k] => destruct (bd !! k) eqn:?; [|discriminate Hrun]
          | context [out !! ?k] => destruct (out !! k) eqn:?; [|discriminate Hrun]
          end ];
      injection Hrun as <-; cbn; rewrite <- ?app_assoc; eauto 10.
Qed.

(** ** The checkpoints of an epoch *)

#[local] Instance same_state_preorder : PreOrder same_state.
Proof.
  split; [by intros w|]. intros x y z [? ?] [? ?]. split; congruence.
Qed.

Lemma divide_ok x n a : divide x n = Ok a → n ≠ 0.
Proof. by destruct n. Qed.

(** Runs the steps of a successful computation that are a read of the
    trainer, a pure step, an update, a recorded call or a file written. *)
Ltac py_step H :=
  repeat first
    [ progress py_inv H
    | lazymatch type of H with
      | (write_file _ _ ≫= _) _ = Ok _ => rewrite bind_run in H; cbn [write_file] in H
      | (add_scalar _ _ _ _ ≫= _) _ = Ok _ => unfold add_scalar at 1 in H
      end ].

Lemma training_tail_checkpoints epoch (t : Trainer) w w' :
  (save_checkpoint (net t) (optim t) (lr_scheduler t) (CHECKPOINTS_PATH (cfg t))
                   (task_prefix t) epoch;;
   match checkpoint_interval t with
   | O => raise ZeroDivisionError
   | S _ =>
       if epoch mod checkpoint_interval t =? 0 then
         save_checkpoint (net t) (optim t) (lr_scheduler t)
                         (CHECKPOINTS_PATH (cfg t)) (fmt_0d 3 epoch) epoch;;
         mret ()
       else mret ()
   end) w = Ok ((), w') →
  checkpoint_interval t ≠ 0 ∧
  trainer w' = trainer w ∧
  (∃ b, fs w' !! latest_path t epoch = Some (FCheckpoint b) ∧
        b_epoch b = Some epoch ∧ b_model b = Some (net_state_dict (net t))) ∧
  (epoch mod checkpoint_interval t = 0 →
   ∃ b, fs w' !! periodic_path t epoch = Some (FCheckpoint b) ∧
        b_epoch b = Some epoch ∧ b_model b = Some (net_state_dict (net t))).
Proof.
  unfold save_checkpoint, latest_path, periodic_path. intros Hrun.
  rewrite bind_run in Hrun. py_step Hrun. cbn [mret Py_ret] in Hrun.
  destruct (checkpoint_interval t) as [|n] eqn:Hn; [discriminate Hrun|].
  split; [done|].
  destruct (epoch mod S n =? 0) eqn:Hmod.
  - rewrite bind_run in Hrun. py_step Hrun. cbn [mret Py_ret] in Hrun.
    injection Hrun as <-. split; [reflexivity|]. cbn [fs set_fs set_trace].
    split.
    + destruct (decide (CHECKPOINTS_PATH (cfg t) +:+ "/" +:+ checkpoint_name (fmt_0d 3 epoch) epoch
                        = CHECKPOINTS_PATH (cfg t) +:+ "/" +:+ checkpoint_name (task_prefix t) epoch))
        as [Heq|Hne].
      * rewrite Heq, lookup_insert_eq. eauto.
      * rewrite lookup_insert_ne, lookup_insert_eq by done. eauto.
    + intros _. rewrite lookup_insert_eq. eauto.
  - injection Hrun as <-. split; [reflexivity|]. cbn [fs set_fs set_trace].
    split; [rewrite lookup_insert_eq; eauto|].
    intros Hzero. apply Nat.eqb_neq in Hmod. by destruct Hmod.
Qed.

Lemma frame_same_for_each {A} (l : list A) (body : A → Py unit) w :
  (∀ x w1, frame_at same_state (body x) w1) →
  frame_at same_state (for_each l body) w.
Proof. intros Hbody. apply frame_for_each; [tc_solve|]. intros x w1 _ _. apply Hbody. Qed.

(** X16. When an epoch of [training] returns on the primary process, the
    loader was not empty and the checkpoint interval not zero, the latest
    checkpoint, named by the task prefix and the epoch, is on the disk,
    and so is the periodic one, named by the epoch, when the interval
    divides the epoch; both hold the epoch and the parameters of the
    network as the epoch left it. *)
Theorem training_saves_checkpoints epoch w w' :
  local_rank (trainer w) = 0 →
  training epoch w = Ok ((), w') →
  checkpoint_interval (trainer w) ≠ 0 ∧
  train_data (trainer w) ≠ [] ∧
  saved_at epoch (latest_path (trainer w) epoch) w' ∧
  (epoch mod checkpoint_interval (trainer w) = 0 →
   saved_at epoch (periodic_path (trainer w) epoch) w').
Proof.
  intros Hrank Hrun. cut (checkpointed epoch w w'); [intros H; exact (H Hrank)|].
  clear Hrank. revert w' Hrun. generalize ().
  change (frame_at (checkpointed epoch) (training epoch) w).
  assert (RS : ∀ x y z, fixed x y → checkpointed epoch y z → checkpointed epoch x z).
  { intros x y z [(Hl & Hv & Hp & Hci & Hdi & Htd & Hvd & Hr & Hlr) Hc] Hyz Hx.
    rewrite <- Hr in Hx. specialize (Hyz Hx).
    unfold latest_path, periodic_path in *. by rewrite Hci, Htd, Hp, Hc in Hyz. }
  unfold training.
  eapply (frame_bind fixed (checkpointed epoch) RS); [frame_go; fixed_side|intros ? ? _ _].
  apply frame_self_bind.
  do 5 (eapply (frame_bind fixed (checkpointed epoch) RS);
        [frame_go; fixed_side|intros ? ? _ _]).
  apply frame_self_bind.
  intros [] w' Hrun Hrank.
  rewrite bool_decide_eq_true_2 in Hrun by done.
  apply bind_ok in Hrun as ([] & w6 & Hblock & Hsched).
  assert (Hend : fs w' = fs w6 ∧ net (trainer w') = net (trainer w6)).
  { destruct (lr_scheduler (trainer w5)) as [s|].
    - rewrite bind_run in Hsched. cbn in Hsched. by injection Hsched as <-.
    - by injection Hsched as <-. }
  destruct Hend as [Hfs Hnet]. clear Hsched.
  py_step Hblock.
  apply bind_ok in Hblock as ([] & w7 & Hfe1 & Hblock).
  apply frame_same_for_each in Hfe1; [|intros [??] ?; frame_go; by split].
  py_step Hblock.
  apply bind_ok in Hblock as ([] & w8 & Hfe2 & Hblock).
  apply frame_same_for_each in Hfe2; [|intros ? ?; frame_go; by split].
  py_step Hblock.
  apply bind_ok in Hblock as ([] & w9 & Hfe3 & Hblock).
  apply frame_same_for_each in Hfe3; [|intros ? ?; frame_go; by split].
  apply training_tail_checkpoints in Hblock as (Hci & Htr & Hlatest & Hperiodic).
  destruct Hfe1 as [Ht1 _], Hfe2 as [Ht2 _], Hfe3 as [Ht3 _].
  cbn [trainer set_trace] in Ht1, Ht2, Ht3, Htr.
  assert (Ht6 : trainer w6 = trainer w5) by congruence.
  split; [done|]. split.
  { apply divide_ok in Ha. by destruct (train_data (trainer w5)). }
  unfold saved_at. rewrite Hfs, Hnet, Ht6. split; [exact Hlatest|exact Hperiodic].
Qed.

(** ** The means that [validation] logs *)

Lemma forward_value_ext t t' b validation :
  net t' = net t →
  mode_cfg validation t' = mode_cfg validation t →
  forward_value t' b validation = forward_value t b validation.
Proof. intros Hnet Hcfg. unfold forward_value. by rewrite Hnet, Hcfg. Qed.

Lemma batch_loss_ext t t' b :
  net t' = net t → val_loss_cfg t' = val_loss_cfg t →
  batch_loss t' b = batch_loss t b.
Proof.
  intros Hnet Hcfg. unfold batch_loss.
  by rewrite (forward_value_ext t t' b true Hnet Hcfg).
Qed.

Lemma mapM_result_ext {A B} (f g : A → result B) (l : list A) :
  (∀ x, f x = g x) → mapM f l = mapM g l.
Proof.
  intros Hfg. induction l as [|x l IH]; [done|]. cbn [mapM].
  by rewrite Hfg, IH.
Qed.

Lemma validation_batch_loss b st w st' w' :
  validation_batch b st w = Ok (st', w') →
  ∃ loss,
    batch_loss (trainer w) b = Ok loss ∧
    val_loss st' = s_add (val_loss st) loss ∧
    num_batches st' = num_batches st + 1 ∧
    net (trainer w') = net (trainer w) ∧
    val_loss_cfg (trainer w') = val_loss_cfg (trainer w) ∧
    avoids (λ _, False) w w'.
Proof.
  unfold validation_batch. intros ([[[loss ll] bd] out] & w1 & Hbf & Hrun)%bind_ok.
  py_inv Hrun. subst st' w'.
  apply batch_forward_ok in Hbf as (names & argss & Hf & _ & ->).
  exists a. unfold batch_loss. rewrite Hf. split; [exact Ha|].
  do 4 (split; [reflexivity|]).
  apply avoids_after_forward; tauto.
Qed.

Lemma validation_loop_losses batches st w st' w' :
  validation_loop batches st w = Ok (st', w') →
  ∃ losses,
    mapM (batch_loss (trainer w)) batches = Ok losses ∧
    val_loss st' = foldl s_add (val_loss st) losses ∧
    num_batches st' = num_batches st + length losses ∧
    avoids (λ _, False) w w'.
Proof.
  revert st w. induction batches as [|b batches IH]; intros st w; cbn [validation_loop].
  - intros [= <- <-]. exists []. repeat split; [cbn; lia|apply avoids_refl].
  - intros (st1 & w1 & Hb & Hrest)%bind_ok.
    apply validation_batch_loss in Hb as (loss & Hloss & Hsum & Hn & Hnet & Hcfg & Hev).
    apply IH in Hrest as (losses & Hlosses & Hsum' & Hn' & Hev').
    exists (loss :: losses). cbn [mapM]. rewrite Hloss, result_bind_run.
    rewrite <- (mapM_result_ext (batch_loss (trainer w1)) (batch_loss (trainer w))
                  batches (λ x, batch_loss_ext _ _ x Hnet Hcfg)).
    rewrite Hlosses. repeat split.
    + cbn [foldl]. by rewrite Hsum', Hsum.
    + cbn [length]. lia.
    + by eapply avoids_trans.
Qed.

Lemma extends_intro w w' events :
  trace w' = trace w ++ events → avoids (λ _, False) w w'.
Proof. intros Heq. exists events. split; [done|]. apply Forall_true. tauto. Qed.

Lemma logs_emit e w : logs e w (set_trace (trace w ++ [e]) w).
Proof. exists [e]. split; [done|]. by left. Qed.

Lemma logs_before E e x y z : avoids E x y → logs e y z → logs e x z.
Proof.
  intros (e1 & H1 & _) (e2 & H2 & Hin). exists (e1 ++ e2).
  rewrite H2, H1, <- app_assoc. split; [done|]. apply elem_of_app. by right.
Qed.

Lemma logs_after E e x y z : logs e x y → avoids E y z → logs e x z.
Proof.
  intros (e1 & H1 & Hin) (e2 & H2 & _). exists (e1 ++ e2).
  rewrite H2, H1, <- app_assoc. split; [done|]. apply elem_of_app. by left.
Qed.

Lemma frame_apply {A} (R : relation World) (m : Py A) w a w' :
  frame_at R m w → m w = Ok (a, w') → R w w'.
Proof. intros H. apply H. Qed.

#[local] Instance extends_preorder (E : event → Prop) : PreOrder (avoids E).
Proof. split; [intros w; apply avoids_refl|intros x y z; apply avoids_trans]. Qed.

(** X17. When [validation] returns on the primary process, the loader was
    not empty, and the value it writes to the text log and, as the overall
    validation loss, to the summary writer is the mean over all batches of
    the epoch of the loss of each batch, computed by the network in
    evaluation mode. *)
Theorem validation_logs_epoch_mean epoch w w' :
  local_rank (trainer w) = 0 →
  validation epoch w = Ok ((), w') →
  ∃ losses,
    mapM (batch_loss (eval_trainer (trainer w))) (val_data (trainer w)) = Ok losses ∧
    losses ≠ [] ∧
    logs (EvInfoVal epoch (np_mean losses)) w w' ∧
    logs (EvAddScalar ("Val" +:+ capitalize (task_prefix (trainer w)) +:+ "Losses/overall")
                      (np_mean losses) epoch true) w w'.
Proof.
  intros Hrank Hrun. unfold validation, init_sw in Hrun. py_inv Hrun.
  apply bind_ok in Hrun as ([] & w1 & Hsw & Hrun).
  assert (H1 : net (trainer w1) = net (trainer w) ∧
               val_loss_cfg (trainer w1) = val_loss_cfg (trainer w) ∧
               val_data (trainer w1) = val_data (trainer w) ∧
               local_rank (trainer w1) = local_rank (trainer w) ∧
               task_prefix (trainer w1) = task_prefix (trainer w) ∧
               trace w1 = trace w).
  { py_inv Hsw.
    destruct (negb (sw (trainer w)) && bool_decide (local_rank (trainer w) = 0));
      cbn in Hsw; by injection Hsw as <-. }
  destruct H1 as (Hnet1 & Hcfg1 & Hdata1 & Hrank1 & Hprefix1 & Htrace1). clear Hsw.
  py_inv Hrun. rewrite bind_run, for_each_emit_run in Hrun. py_inv Hrun.
  apply bind_ok in Hrun as (st & w2 & Hloop & Hrun).
  pose proof (frame_fixed_validation_loop _ _ _ _ _ Hloop) as [Hfix _].
  destruct Hfix as (_ & _ & _ & _ & _ & _ & _ & Hrank2 & _).
  apply validation_loop_losses in Hloop as (losses & Hlosses & Hsum & Hn & Hev2).
  cbn [trainer set_trainer set_trace val_loss num_batches local_rank
       set_net set_val_metrics] in Hlosses, Hsum, Hn, Hrank2.
  py_inv Hrun. rewrite bool_decide_eq_true_2 in Hrun by congruence.
  py_inv Hrun. rename Ha into Hmean.
  apply bind_ok in Hrun as ([] & w3 & Hfe1 & Hrun).
  apply bind_ok in Hrun as ([] & w4 & Hfe2 & Hrun).
  py_step Hrun.
  assert (Hev3 : avoids (λ _, False) (set_trace (trace w2 ++ [EvInfoVal epoch a]) w2) w3).
  { eapply frame_apply; [|exact Hfe1]. apply frame_for_each; [tc_solve|].
    intros [??] ? _ _. frame_go. apply avoids_emit. tauto. }
  assert (Hev4 : avoids (λ _, False) w3 w4).
  { eapply frame_apply; [|exact Hfe2]. apply frame_for_each; [tc_solve|].
    intros ? ? _ _. frame_go; apply avoids_emit; tauto. }
  assert (Hev5 : avoids (λ _, False)
                   (set_trace (trace w4 ++ [EvAddScalar
                      (("Val" +:+ capitalize (task_prefix (trainer w1))) +:+ "Losses/overall")
                      a epoch true]) w4) w').
  { eapply frame_apply; [|exact Hrun]. apply frame_select_best; [tc_solve|].
    intros psnr. apply avoids_promote; tauto. }
  exists losses.
  assert (Hlen : length losses ≠ 0).
  { apply divide_ok in Hmean. rewrite Hn in Hmean. exact Hmean. }
  assert (Ha : a = np_mean losses).
  { unfold divide in Hmean. rewrite Hn, Hsum in Hmean. unfold np_mean.
    destruct (0 + length losses) eqn:Hl; [discriminate Hmean|].
    injection Hmean as <-. by rewrite <- Hl. }
  subst a. split.
  { rewrite <- Hlosses, <- Hdata1. apply mapM_result_ext. intros b.
    apply batch_loss_ext; cbn; [by rewrite Hnet1|by rewrite Hcfg1]. }
  split; [by destruct losses|].
  assert (Hev1 : avoids (λ _, False) w
            (set_trainer
               (set_net (net_eval (net (set_val_metrics
                  (reset_epoch_stats <$> val_metrics (trainer w1)) (trainer w1))))
                  (set_val_metrics (reset_epoch_stats <$> val_metrics (trainer w1))
                     (trainer w1)))
               (set_trainer
                  (set_val_metrics (reset_epoch_stats <$> val_metrics (trainer w1))
                     (trainer w1))
                  (set_trace
                     (trace w1 ++ ((λ metric, EvMetricReset (m_name metric)) <$>
                                   val_metrics (trainer w1))) w1)))).
  { eapply extends_intro. cbn. by rewrite Htrace1. }
  split.
  - eapply logs_before; [exact Hev1|]. eapply logs_before; [exact Hev2|].
    eapply logs_after; [|exact Hev5]. eapply (logs_after (λ _, False)).
    2: { apply (avoids_emit (λ _, False)). tauto. }
    eapply logs_after; [|exact Hev4]. eapply logs_after; [|exact Hev3].
    apply logs_emit.
  - rewrite <- Hprefix1.
    eapply logs_before; [exact Hev1|]. eapply logs_before; [exact Hev2|].
    eapply logs_before; [apply (avoids_emit (λ _, False) (EvInfoVal epoch (np_mean losses))); tauto|].
    eapply logs_before; [exact Hev3|]. eapply logs_before; [exact Hev4|].
    eapply logs_after; [|exact Hev5]. apply logs_emit.
Qed.

End Proofs.
(** ** The properties on the concrete framework *)

Import Toy.

Lemma q_ltb_irrefl (x : Q) : q_ltb x x = false.
Proof.
  unfold q_ltb. apply negb_false_iff, Qle_bool_iff, Qle_refl.
Qed.

Lemma q_ltb_lt (x y : Q) : q_ltb x y = true ↔ (x < y)%Q.
Proof.
  unfold q_ltb. rewrite negb_true_iff, <- not_true_iff_false, Qle_bool_iff.
  split; [apply Qnot_le_lt|apply Qlt_not_le].
Qed.

Lemma q_ltb_trans (x y z : Q) :
  q_ltb x y = true → q_ltb y z = true → q_ltb x z = true.
Proof. rewrite !q_ltb_lt. apply Qlt_trans. Qed.

Lemma init_fresh data : init (args data) ∅ = Ok (fresh data).
Proof. reflexivity. Qed.

(** A call that returns, returns what [returned] reads off it. *)
Lemma ok_returned {A} (r : result A) (d : A) :
  is_ok r = true → r = Ok (returned r d).
Proof. destruct r; [reflexivity|discriminate]. Qed.

Lemma ok_returned_unit (r : result (unit * World)) (d : unit * World) :
  is_ok r = true → r = Ok ((), (returned r d).2).
Proof. destruct r as [[[] w']|]; [reflexivity|discriminate]. Qed.

Lemma ok_returned_step (r : result (Q * gmap string (list Q) *
                                    gmap string (value (list Q)) *
                                    gmap string (value (list Q)) * World)) d :
  is_ok r = true →
  r = Ok (((returned r d).1.1.1.1, (returned r d).1.1.1.2,
           (returned r d).1.1.2, (returned r d).1.2), (returned r d).2).
Proof. destruct r as [[[[[loss ll] bd] out] w']|]; [reflexivity|discriminate]. Qed.

(** Names the components of the result of a closed call of [batch_forward]
    and records that the call returned them. *)
Ltac run_step m E :=
  pose proof (ok_returned_step m (0%Q, ∅, ∅, ∅, fresh []) eq_refl) as E.

Ltac run_unit m E :=
  pose proof (ok_returned_unit m ((), fresh []) eq_refl) as E.

Lemma batch_forward_weighted_sum_witness :
  ∃ ll bd out w',
    batch_forward (batch 1 0) false (fresh []) = Ok ((1%Q, ll, bd, out), w') ∧
    1%Q = weighted_sum (losses 1) ll 0%Q ["pixel_loss"] ∧
    ll !! "pixel_loss" = Some [1%Q].
Proof.
  run_step (batch_forward (batch 1 0) false (fresh [])) E.
  eexists _, _, _, _. split; [exact E|].
  destruct (batch_forward_weighted_sum (F := framework) _ _ _ _ _ _ _ _ E) as (Hsum & _).
  split; [exact Hsum|reflexivity].
Defined.

Lemma add_loss_disabled_witness :
  add_loss "pixel_loss" 5%Q ∅ false ∅ ∅ disabled = Ok ((5%Q, ∅), disabled).
Proof.
  apply (add_loss_disabled (F := framework) "pixel_loss" 5%Q ∅ false ∅ ∅ disabled).
  right. exists 0%Q. split; reflexivity.
Defined.

Lemma contrastive_only_in_training_witness :
  (∃ ll bd out w',
     batch_forward (batch 1 0) true contrastive = Ok ((1%Q, ll, bd, out), w') ∧
     ll !! "contrastive_loss" = None) ∧
  (∃ ll bd out w',
     batch_forward (batch 1 0) false contrastive = Ok ((61%Q, ll, bd, out), w') ∧
     ll !! "contrastive_loss" = Some [30%Q]).
Proof.
  split.
  - run_step (batch_forward (batch 1 0) true contrastive) E.
    eexists _, _, _, _. split; [exact E|].
    destruct (contrastive_only_in_training (F := framework) _ _ _ _ _ _ _ _ E)
      as (events & _ & Hnone & _).
    exact Hnone.
  - run_step (batch_forward (batch 1 0) false contrastive) E.
    eexists _, _, _, _. split; [exact E|].
    destruct (contrastive_only_in_training (F := framework) _ _ _ _ _ _ _ _ E)
      as (events & _ & Hon).
    destruct (Hon eq_refl) as ((v & _ & Hlog) & _).
    reflexivity.
Defined.

Lemma validation_step_frame_witness :
  ∃ r w' w'',
    batch_forward (batch 1 0) true (fresh []) = Ok (r, w') ∧
    net (trainer w') = 30%Q ∧
    optim (trainer w') = (1 # 1000)%Q ∧
    batch_forward (batch 1 0) true w' = Ok (r, w'').
Proof.
  pose proof (ok_returned (batch_forward (batch 1 0) true (fresh []))
                (0%Q, ∅, ∅, ∅, fresh []) eq_refl) as E.
  rewrite (surjective_pairing (returned _ _)) in E.
  destruct (validation_step_frame (F := framework) _ _ _ _ E)
    as (Hnet & Hoptim & _ & _ & _ & _ & events & argss & _ & _ & _ & w'' & Hrun & _).
  eexists _, _, w''.
  split; [exact E|]. split; [exact Hnet|]. split; [exact Hoptim|exact Hrun].
Defined.

Lemma batch_forward_merges_outputs_witness :
  ∃ loss ll bd out w',
    batch_forward (batch 1 0) false (fresh []) = Ok ((loss, ll, bd, out), w') ∧
    out !! "images" = Some (VTensor [1%Q]) ∧
    bd !! "params" = Some (VTensor [30%Q]) ∧
    bd !! "images" = Some (VTensor [1%Q]) ∧
    bd !! "target_images" = Some (VTensor [0%Q]).
Proof.
  run_step (batch_forward (batch 1 0) false (fresh [])) E.
  eexists _, _, _, _, _. split; [exact E|].
  destruct (batch_forward_merges_outputs (F := framework) _ _ _ _ _ _ _ _ E)
    as (_ & Hmerged & Himage & Hkept).
  split; [reflexivity|]. split; [|split].
  - by apply Hmerged.
  - by rewrite Himage.
  - by rewrite Hkept.
Defined.

Lemma best_checkpoint_selection_witness :
  ∃ w1 w2 w3,
    validation 1 (fresh [batch 1 0]) = Ok ((), w1) ∧
    training 2 w1 = Ok ((), w2) ∧
    validation 2 w2 = Ok ((), w3) ∧
    session (fresh [batch 1 0]) [30%Q; 25%Q] w3 ∧
    best_psnr (trainer w1) = 30%Q ∧
    best_checkpoint_path (trainer w1) = "ckpt/001_30.000_001.pth" ∧
    is_max (best_psnr (trainer w3)) [0%Q; 30%Q; 25%Q] ∧
    best_psnr (trainer w3) = 30%Q ∧
    best_checkpoint_path (trainer w3) = "ckpt/001_30.000_001.pth" ∧
    fs w3 = fs w2 ∧
    is_Some (fs w3 !! "ckpt/001_30.000_001.pth").
Proof.
  destruct (best_checkpoint_selection (F := framework) q_ltb_irrefl q_ltb_trans)
    as [Hmax Hstep].
  run_unit (validation 1 (fresh [batch 1 0])) E1.
  run_unit (training 2 (returned (validation 1 (fresh [batch 1 0])) ((), fresh [])).2) E2.
  set (w1 := (returned (validation 1 (fresh [batch 1 0])) ((), fresh [])).2) in *.
  run_unit (validation 2 (returned (training 2 w1) ((), fresh [])).2) E3.
  set (w2 := (returned (training 2 w1) ((), fresh [])).2) in *.
  set (w3 := (returned (validation 2 w2) ((), fresh [])).2) in *.
  exists w1, w2, w3.
  split; [exact E1|]. split; [exact E2|]. split; [exact E3|].
  assert (Hs : session (fresh [batch 1 0]) [30%Q; 25%Q] w3).
  { apply (session_validation (fresh [batch 1 0]) 1 w1
             (default psnr_metric (head (val_metrics (trainer w1)))) [] [25%Q] w3);
      [reflexivity|exact E1|reflexivity|].
    apply (session_training w1 2 w2 [25%Q] w3); [exact E2|].
    apply (session_validation w2 2 w3
             (default psnr_metric (head (val_metrics (trainer w3)))) [] [] w3);
      [reflexivity|exact E3|reflexivity|].
    apply session_done. }
  split; [exact Hs|].
  destruct (Hmax _ _ _ Hs eq_refl) as [Hbest His].
  split; [reflexivity|]. split; [reflexivity|]. split; [exact His|].
  split; [exact Hbest|].
  destruct (Hstep 2 w2 w3 eq_refl E3) as (m & ms & Hms & Hsel).
  split; [reflexivity|]. split; [reflexivity|]. apply is_Some_alt. exact I.
Defined.



(** The claim C5 fails on the code: with the recorded best checkpoint gone
    from the disk and a new best score of 30, [validation] returns, and the
    new best checkpoint is on the disk. *)
Lemma missing_best_file_counterexample :
  best_checkpoint_path (trainer stale) = "ckpt/gone.pth" ∧
  fs stale !! "ckpt/gone.pth" = None ∧
  ∃ w',
    validation 1 stale = Ok ((), w') ∧
    best_psnr (trainer w') = 30%Q ∧
    best_checkpoint_path (trainer w') = "ckpt/001_30.000_001.pth" ∧
    is_Some (fs w' !! "ckpt/001_30.000_001.pth").
Proof.
  split; [reflexivity|]. split; [reflexivity|].
  run_unit (validation 1 stale) E.
  eexists. split; [exact E|]. split; [reflexivity|]. split; [reflexivity|].
  apply is_Some_alt. exact I.
Qed.

Lemma missing_best_file_is_skipped_witness :
  ∃ w',
    select_best 1 measured = Ok ((), w') ∧
    best_psnr (trainer w') = 30%Q ∧
    best_checkpoint_path (trainer w') = "ckpt/001_30.000_001.pth" ∧
    trace w' = [EvSaveCheckpoint "ckpt/001_30.000_001.pth"].
Proof.
  destruct (missing_best_file_is_skipped (F := framework) 1 measured
              (default psnr_metric (head (val_metrics (trainer measured)))) []
              eq_refl eq_refl eq_refl)
    as (w' & Hrun & Hbest & Hpath & _ & Htrace).
  exists w'. split; [exact Hrun|]. split; [exact Hbest|].
  split; [exact Hpath|exact Htrace].
Defined.

Lemma train_metrics_stay_empty_witness :
  ∃ w w',
    init (args [batch 1 0; batch 3 0]) ∅ = Ok w ∧
    train_metrics (trainer w) = [] ∧
    val_metrics (trainer w) = [psnr_metric] ∧
    training 1 w = Ok ((), w') ∧
    train_metrics (trainer w') = [] ∧
    val_metrics (trainer w') = [psnr_metric] ∧
    no_metric_events "Train" w w'.
Proof.
  destruct (train_metrics_stay_empty (F := framework))
    as (Hinit & Hreach & Htraining & _).
  run_unit (training 1 (fresh [batch 1 0; batch 3 0])) E.
  exists (fresh [batch 1 0; batch 3 0]). eexists.
  split; [reflexivity|].
  destruct (Hinit (args [batch 1 0; batch 3 0]) ∅ _ eq_refl) as [Htm Hvm].
  split; [exact Htm|]. split; [exact Hvm|].
  assert (Hw : reachable (fresh [batch 1 0; batch 3 0]))
    by exact (reachable_init (args [batch 1 0; batch 3 0]) ∅ _ eq_refl).
  split; [exact E|].
  split; [exact (Hreach _ (reachable_training _ _ _ Hw E))|].
  destruct (Htraining _ _ _ Hw E) as [Hval Hev].
  split; [exact (eq_trans Hval Hvm)|exact Hev].
Defined.

(** C4 fails on the code. With two batches whose pixel losses are 1 and 3
    (weight 1), [training] writes for the epoch, after its loop, the value 3
    for the pixel term and 3 for the overall loss: the values of the last
    batch. The means over the epoch are both 2, as the summary line of the
    text log has it for the pixel term. *)
Theorem training_logs_last_batch :
  ∃ w',
    training 1 (fresh [batch 1 0; batch 3 0]) = Ok ((), w') ∧
    EvInfoTrain 1 (1 # 1000)%Q [2%Q; 0%Q; 0%Q; 0%Q; 0%Q; 0%Q] ∈ trace w' ∧
    after_summary (trace w') =
      [EvAddScalar "TrainLosses/pixel_loss" 3%Q 3 false;
       EvAddScalar "TrainLosses/overall" 3%Q 3 false;
       EvAddScalar "TrainStates/learning_rate" (1 # 1000)%Q 3 false;
       EvSaveCheckpoint "ckpt/001.pth"] ∧
    np_mean [1%Q; 3%Q] = 2%Q.
Proof.
  run_unit (training 1 (fresh [batch 1 0; batch 3 0])) E.
  eexists. split; [exact E|]. split; [|split; reflexivity].
  apply list_elem_of_lookup. exists 14. reflexivity.
Qed.

(** ** The further properties on the concrete framework *)

Lemma batch_forward_missing_input_witness :
  batch_forward no_masks false (fresh []) = Raise (KeyError "masks").
Proof.
  apply (batch_forward_missing_input (F := framework) no_masks false (fresh []) "masks").
  reflexivity.
Defined.

Lemma add_loss_missing_target_witness :
  add_loss "pixel_loss" 0%Q ∅ false ∅ ∅ (fresh [])
  = Raise (KeyError "target_images").
Proof.
  apply (add_loss_missing_target (F := framework) "pixel_loss" 0%Q ∅ false ∅ ∅
           (fresh []) pixel_loss 1%Q "target_images"); reflexivity.
Defined.

Lemma add_loss_enabled_witness :
  ∃ ll' w',
    add_loss "pixel_loss" 2%Q ∅ false {["images" := VTensor [4%Q]]} (batch 1 1) (fresh [])
      = Ok ((5%Q, ll'), w') ∧
    ll' !! "pixel_loss" = Some [3%Q] ∧
    trace w' = [EvCriterion true "pixel_loss"].
Proof.
  destruct (add_loss_enabled (F := framework) "pixel_loss" 2%Q ∅ false
              {["images" := VTensor [4%Q]]} (batch 1 1) (fresh []) pixel_loss 1%Q
              [VTensor [1%Q]] [3%Q])
    as (ll' & w' & Hrun & Hlog & _ & Htrace & _);
    [reflexivity|reflexivity|reflexivity|reflexivity|vm_compute; reflexivity|].
  exists ll', w'. split; [exact Hrun|]. split; [exact Hlog|exact Htrace].
Defined.

Lemma training_empty_loader_witness :
  training 1 (fresh []) = Raise ZeroDivisionError.
Proof.
  apply (training_empty_loader (F := framework) 1 (fresh [])); reflexivity.
Defined.

Lemma validation_empty_loader_witness :
  validation 1 (fresh []) = Raise ZeroDivisionError.
Proof.
  apply (validation_empty_loader (F := framework) 1 (fresh [])); reflexivity.
Defined.

Lemma training_needs_a_term_witness :
  is_ok (training 1 idle) = false.
Proof.
  apply (training_needs_a_term (F := framework) 1 idle (batch 1 0) []); reflexivity.
Defined.

Lemma validation_needs_a_term_witness :
  is_ok (validation 1 idle) = false.
Proof.
  apply (validation_needs_a_term (F := framework) 1 idle (batch 1 0) []); reflexivity.
Defined.

Lemma missing_weights_file_witness :
  _load_weights weighted = Raise RuntimeError ∧
  init weighted_args ∅ = Raise RuntimeError.
Proof.
  destruct (missing_weights_file (F := framework) weighted weighted_args ∅ "weights.pth")
    as [Hload Hinit].
  split; [apply Hload; reflexivity|apply Hinit; reflexivity].
Defined.

Lemma resume_needs_one_checkpoint_witness :
  _load_weights nothing_to_resume = Raise AssertionError.
Proof.
  apply (resume_needs_one_checkpoint (F := framework) nothing_to_resume).
  - reflexivity.
  - apply is_Some_alt. exact I.
  - intros Hlen. vm_compute in Hlen. discriminate Hlen.
Defined.

Lemma settings_are_fixed_witness :
  ∃ w',
    training 1 (fresh [batch 1 0; batch 3 0]) = Ok ((), w') ∧
    fixed (fresh [batch 1 0; batch 3 0]) w' ∧
    task_prefix (trainer w') = "" ∧
    val_loss_cfg (trainer w') = loss_cfg (trainer w') ∧
    weights (cfg (trainer w')) = None.
Proof.
  destruct (settings_are_fixed (F := framework)) as (Htraining & _ & _ & _ & _ & Hreach).
  run_unit (training 1 (fresh [batch 1 0; batch 3 0])) E.
  eexists. split; [exact E|]. split; [exact (Htraining _ _ _ E)|].
  apply Hreach.
  apply (reachable_training (fresh [batch 1 0; batch 3 0]) 1 _); [|exact E].
  exact (reachable_init (args [batch 1 0; batch 3 0]) ∅ _ eq_refl).
Defined.

Lemma non_primary_is_silent_witness :
  ∃ w1 w2,
    training 1 (secondary [batch 1 0]) = Ok ((), w1) ∧
    silent (secondary [batch 1 0]) w1 ∧
    validation 1 (secondary [batch 1 0]) = Ok ((), w2) ∧
    silent (secondary [batch 1 0]) w2.
Proof.
  assert (Hrank : local_rank (trainer (secondary [batch 1 0])) ≠ 0) by discriminate.
  run_unit (training 1 (secondary [batch 1 0])) E1.
  run_unit (validation 1 (secondary [batch 1 0])) E2.
  eexists _, _. split; [exact E1|].
  split; [exact (proj1 (non_primary_is_silent (F := framework) 1 _ _ Hrank) E1)|].
  split; [exact E2|].
  exact (proj2 (non_primary_is_silent (F := framework) 1 _ _ Hrank) E2).
Defined.




Lemma save_visualization_files_witness :
  save_visualization ∅ ∅ 7 "train" (fresh []) = Raise (KeyError "images") ∧
  ∃ w',
    save_visualization (batch 1 0) {["images" := VTensor [1%Q]; "params" := VTensor [30%Q]]}
                       7 "train" (fresh []) = Ok ((), w') ∧
    trace w' = [EvImwrite "vis/train/000007_reconstruction.jpg";
                EvImwrite "vis/train/000007_params.jpg"] ∧
    fs w' !! "vis/train/000007_params.jpg" = Some FImage.
Proof.
  split.
  - apply (proj1 (save_visualization_files (F := framework) ∅ ∅ 7 "train" (fresh []))).
    reflexivity.
  - run_unit (save_visualization (batch 1 0)
                {["images" := VTensor [1%Q]; "params" := VTensor [30%Q]]}
                7 "train" (fresh [])) E.
    destruct (proj2 (save_visualization_files (F := framework) _ _ _ _ _) _ E)
      as (_ & _ & _ & _ & _ & Htrace & Hfs).
    eexists. split; [exact E|]. split; [exact Htrace|]. reflexivity.
Defined.

Lemma training_saves_checkpoints_witness :
  ∃ w',
    training 10 (fresh [batch 1 0; batch 3 0]) = Ok ((), w') ∧
    saved_at 10 "ckpt/010.pth" w' ∧
    saved_at 10 "ckpt/010_010.pth" w'.
Proof.
  run_unit (training 10 (fresh [batch 1 0; batch 3 0])) E.
  destruct (training_saves_checkpoints (F := framework) 10
              (fresh [batch 1 0; batch 3 0]) _ eq_refl E)
    as (_ & _ & Hlatest & Hperiodic).
  eexists. split; [exact E|]. split; [exact Hlatest|exact (Hperiodic eq_refl)].
Defined.

Lemma validation_logs_epoch_mean_witness :
  ∃ w',
    validation 1 (fresh [batch 1 0; batch 3 0]) = Ok ((), w') ∧
    logs (EvInfoVal 1 2%Q) (fresh [batch 1 0; batch 3 0]) w' ∧
    logs (EvAddScalar "ValLosses/overall" 2%Q 1 true) (fresh [batch 1 0; batch 3 0]) w'.
Proof.
  run_unit (validation 1 (fresh [batch 1 0; batch 3 0])) E.
  destruct (validation_logs_epoch_mean (F := framework) 1
              (fresh [batch 1 0; batch 3 0]) _ eq_refl E)
    as (losses & Hlosses & _ & Hinfo & Hscalar).
  vm_compute in Hlosses. injection Hlosses as <-.
  eexists. split; [exact E|]. split; [exact Hinfo|exact Hscalar].
Defined.
